(** * Wager session engine of the casino bot: a shallow embedding of main.py

    The development follows [src/main.py]:
    - [calculate_cashout]                      (CashoutValuator),
    - [check_expired_challenges]               (ExpirationSweeper),
    - the [v2_send_emoji_], [v2_cashout_] and [decline_] branches of
      [button_callback], [generic_v2_pvp_loop] (SessionLifecycle),
    - the session-id f-strings of the creation handlers.

    Modelling conventions.
    - The amounts of the ledger (balances, wagers, payouts) are exact
      rationals [Q]; a decimal literal is the rational it denotes ([0.95]
      is [19#20], [1.95] is [39#20]).  Equality of amounts is [Qeq]
      ([==]).  On these, [round(x, 2)] is rounding of the exact value to
      the nearest hundredth, ties to the even hundredth.
    - [calculate_cashout] is given twice: over the exact rationals, for
      the ledger and for its order and bound properties, and on binary64
      ([calculate_cashout_binary64], module [F64]), operation by
      operation as Python evaluates it, for the properties that equate
      its value with a formula.  The two differ by representation error:
      [0.75 * (3.0 * 2) * 0.95] is [4.275] exactly and just below it on
      binary64, so that [round] gives [4.28] on the first and [4.27] on
      the second.
    - Python [int] values (points, roll counts, user ids) are [Z].
    - A [datetime] is a number of seconds, a rational; [total_seconds()] of a
      difference is the difference.
    - [self.pending_pvp] is a Python dict held in memory: an association
      list in insertion order with distinct keys.  Its persisted copy is
      the [GlobalState] row [pending_pvp].  [self.db.data] is a property
      that reads the rows at every use, so the assignments
      [self.db.data['pending_pvp'] = self.pending_pvp] write into a
      temporary dict and change nothing; [update_pending_pvp] writes the
      row.  The sweeper and the handlers that only work on the dict in
      memory are functions of [bot]; [v2_send_emoji], which replaces the
      dict in memory by the row in the middle of its work, is a function
      of [casino], a [bot] together with the row.
    - [self.db.get_user(uid)['balance']] reads a total map from user ids to
      amounts ([get_user] creates a missing user); the house balance is one
      amount.
    - Calls of the chat transport ([send_message], [answer], ...) have no
      effect on the ledger or the store and are left out; what the
      f-strings of a message read from a session is kept, because a
      missing key raises [KeyError]. *)

From Stdlib Require Import ZArith QArith Qround Qabs Lia Lqa List String Ascii Bool.
From Stdlib Require Import DecimalString DecimalPos DecimalZ.
From Stdlib Require Import SpecFloat.
Import ListNotations.

Local Open Scope Q_scope.

(* ------------------------------------------------------------------ *)
(** * Python numerics *)

Module PyNum.

(** [x < y] on amounts, as a boolean. *)
Definition Qlt_bool (x y : Q) : bool := negb (Qle_bool y x).

(** [x > y]. *)
Definition Qgt_bool (x y : Q) : bool := Qlt_bool y x.

(** Nearest integer, ties to even. *)
Definition round_half_even (x : Q) : Z :=
  let f := Qfloor x in
  match Qcompare (x - inject_Z f) (1 # 2) with
  | Lt => f
  | Gt => (f + 1)%Z
  | Eq => if Z.even f then f else (f + 1)%Z
  end.

(** [round(x, 2)]. *)
Definition py_round2 (x : Q) : Q := round_half_even (x * 100) # 100.

(** [max(0, v)]: Python returns the first argument unless a later one is
    strictly greater. *)
Definition py_max0 (v : Q) : Q := if Qlt_bool 0 v then v else 0.

End PyNum.
Import PyNum.

(** Python [float]: IEEE 754 binary64, rounding to nearest, ties to
    even.  [spec_float] and the operations on it are those of the
    Standard Library's specification of floating-point arithmetic. *)
Module F64.

Definition prec : Z := 53.
Definition emax : Z := 1024.

Definition t : Type := spec_float.

(** [x * y] *)
Definition mul (x y : t) : t := SFmul prec emax x y.

(** The double nearest to [n / d], with sign [s]: what Python reads a
    decimal literal as. *)
Definition nearest (s : bool) (n d : positive) : t :=
  let '(q, e, l) := SFdiv_core_binary prec emax (Zpos n) 0 (Zpos d) 0 in
  binary_round_aux prec emax s q e l.

Definition of_Q (q : Q) : t :=
  match Qnum q with
  | Z0 => S754_zero false
  | Zpos n => nearest false n (Qden q)
  | Zneg n => nearest true n (Qden q)
  end.

(** An [int] operand of a float operation. *)
Definition of_Z (n : Z) : t := of_Q (inject_Z n).

(** [round(x, 2)] as CPython computes it: the exact value of the double
    is rounded to two decimals, ties to even, and the decimal is read
    back as the nearest double.  A double with no fractional bits, an
    infinity and a nan are returned as they are; the sign is kept, also
    on a zero. *)
Definition round2 (x : t) : t :=
  match x with
  | S754_finite s m (Zneg p) =>
      match round_half_even (Zpos m * 100 # Pos.pow 2 p) with
      | Zpos cents => nearest s cents 100
      | _ => S754_zero s
      end
  | _ => x
  end.

(** [max(0, v)]: the int [0] unless [v > 0]. *)
Definition max0 (v : t) : t :=
  if SFltb (S754_zero false) v then v else S754_zero false.

(** [x] is not a nan and has the sign bit [s]; [signed false x] is
    [x >= 0] with the sign bit clear: [0.0], a positive double or
    [inf]. *)
Definition signed (s : bool) (x : t) : Prop :=
  match x with
  | S754_zero s' | S754_infinity s' | S754_finite s' _ _ => s' = s
  | S754_nan => False
  end.

(** [x * 2] does not overflow: a finite [x] is below [2^1023]. *)
Definition below_top_binade (x : t) : Prop :=
  match x with
  | S754_finite _ _ e => (e < emax - prec)%Z
  | _ => True
  end.

End F64.

(* ------------------------------------------------------------------ *)
(** * CashoutValuator: [calculate_cashout] (main.py 3568-3600) *)

(** The if/elif chain over [needed_p], [needed_b]; [prob = 0.5] is the
    default the chain starts from. *)
Definition cashout_prob (needed_p needed_b : Z) : Q :=
  if ((needed_p =? 1) && (needed_b =? 1))%Z%bool then 1 # 2
  else if ((needed_p =? 1) && (needed_b =? 2))%Z%bool then 3 # 4
  else if ((needed_p =? 1) && (needed_b =? 3))%Z%bool then 7 # 8
  else if ((needed_p =? 2) && (needed_b =? 1))%Z%bool then 1 # 4
  else if ((needed_p =? 2) && (needed_b =? 2))%Z%bool then 1 # 2
  else if ((needed_p =? 2) && (needed_b =? 3))%Z%bool then 11 # 16
  else if ((needed_p =? 3) && (needed_b =? 1))%Z%bool then 1 # 8
  else if ((needed_p =? 3) && (needed_b =? 2))%Z%bool then 5 # 16
  else if ((needed_p =? 3) && (needed_b =? 3))%Z%bool then 1 # 2
  else 1 # 2.

Definition calculate_cashout (p_pts b_pts target_pts : Z) (wager : Q) : Q :=
  if (p_pts >=? target_pts)%Z then wager * 2
  else if (b_pts >=? target_pts)%Z then 0
  else
    let needed_p := (target_pts - p_pts)%Z in
    let needed_b := (target_pts - b_pts)%Z in
    let prob := cashout_prob needed_p needed_b in
    let cashout_val := (prob * (wager * 2)) * (19 # 20) in
    py_max0 (py_round2 cashout_val).

(** The win probability the specification describes: the 50/50
    negative-binomial recurrence
    [P(a,b) = 0.5*P(a-1,b) + 0.5*P(a,b-1)], [P(0,_) = 1], [P(_,0) = 0].
    This definition follows the specification's words, to be compared with
    [cashout_prob]. *)
Fixpoint spec_P (a : nat) : nat -> Q :=
  match a with
  | O => fun _ => 1
  | S a' =>
      fix spec_P_b (b : nat) : Q :=
        match b with
        | O => 0
        | S b' => (1 # 2) * spec_P a' (S b') + (1 # 2) * spec_P_b b'
        end
  end.

(** The cashout value the specification describes for a mid-series state. *)
Definition spec_cashout (p_pts b_pts target_pts : Z) (wager : Q) : Q :=
  py_round2 (spec_P (Z.to_nat (target_pts - p_pts)) (Z.to_nat (target_pts - b_pts))
             * 2 * wager * (19 # 20)).

(** [calculate_cashout] on binary64, operation by operation: the literals
    of the table and [0.95] are the doubles nearest to them, [wager * 2],
    [prob * (...)] and [(...) * 0.95] are rounded products, [return 0]
    gives the int [0]. *)
Definition calculate_cashout_binary64 (p_pts b_pts target_pts : Z)
    (wager : F64.t) : F64.t :=
  if (p_pts >=? target_pts)%Z then F64.mul wager (F64.of_Z 2)
  else if (b_pts >=? target_pts)%Z then F64.of_Z 0
  else
    let needed_p := (target_pts - p_pts)%Z in
    let needed_b := (target_pts - b_pts)%Z in
    let prob := F64.of_Q (cashout_prob needed_p needed_b) in
    let cashout_val :=
      F64.mul (F64.mul prob (F64.mul wager (F64.of_Z 2))) (F64.of_Q (95 # 100)) in
    F64.max0 (F64.round2 cashout_val).

(** The formula of the specification, [round(p * 2 * wager * 0.95, 2)],
    for a win probability [p], evaluated on binary64 from left to right.
    This definition follows the specification's words, to be compared
    with [calculate_cashout_binary64]. *)
Definition spec_cashout_binary64 (p : Q) (wager : F64.t) : F64.t :=
  F64.round2
    (F64.mul (F64.mul (F64.mul (F64.of_Q p) (F64.of_Z 2)) wager) (F64.of_Q (95 # 100))).

(* ------------------------------------------------------------------ *)
(** * Session records and the store *)

(** The six dice emoji of [emoji_map]. *)
Inductive emoji_t : Type :=
  | EmojiDice | EmojiDarts | EmojiBasketball | EmojiSoccer | EmojiBowling | EmojiCoin.

(** A session dict of [self.pending_pvp], with the keys the modelled code
    reads.  A key that some creation site leaves out is an [option]
    ([None]: the key is absent, or holds Python [None]); a flag read with
    [challenge.get(k)] is a [bool] ([false]: absent or falsy).  The keys
    [type], [chat_id], [message_id], [challenger_roll], [p1_rolls] and
    [p2_rolls] are not read by the modelled code and are left out. *)
Record challenge : Type := mkChallenge {
  player : option Z;
  challenger : option Z;
  opponent : option Z;
  wager : Q;
  emoji : emoji_t;
  mode : option string;
  rolls : option Z;
  pts : option Z;
  p_pts : option Z;
  b_pts : option Z;
  p_rolls : list Z;
  cur_rolls : option Z;
  p1_pts : option Z;
  p2_pts : option Z;
  emoji_wait : option Q;
  created_at : option Q;
  emoji_wait_started : option Q;
  waiting_for_cashout : bool;
  wager_deducted : bool;
  waiting_p1 : bool;
  waiting_p2 : bool;
  p1_deducted : bool;
  p2_deducted : bool;
  waiting_for_challenger_emoji : bool;
  waiting_for_emoji : bool;
  game : option string
}.

(** [challenge['p_rolls'] = v] *)
Definition set_p_rolls (v : list Z) (c : challenge) : challenge :=
  mkChallenge (player c) (challenger c) (opponent c) (wager c) (emoji c) (mode c)
    (rolls c) (pts c) (p_pts c) (b_pts c) v (cur_rolls c) (p1_pts c) (p2_pts c)
    (emoji_wait c) (created_at c) (emoji_wait_started c) (waiting_for_cashout c)
    (wager_deducted c) (waiting_p1 c) (waiting_p2 c) (p1_deducted c) (p2_deducted c)
    (waiting_for_challenger_emoji c) (waiting_for_emoji c) (game c).

(** [challenge['p_pts'] = v] *)
Definition set_p_pts (v : Z) (c : challenge) : challenge :=
  mkChallenge (player c) (challenger c) (opponent c) (wager c) (emoji c) (mode c)
    (rolls c) (pts c) (Some v) (b_pts c) (p_rolls c) (cur_rolls c) (p1_pts c) (p2_pts c)
    (emoji_wait c) (created_at c) (emoji_wait_started c) (waiting_for_cashout c)
    (wager_deducted c) (waiting_p1 c) (waiting_p2 c) (p1_deducted c) (p2_deducted c)
    (waiting_for_challenger_emoji c) (waiting_for_emoji c) (game c).

(** [challenge['b_pts'] = v] *)
Definition set_b_pts (v : Z) (c : challenge) : challenge :=
  mkChallenge (player c) (challenger c) (opponent c) (wager c) (emoji c) (mode c)
    (rolls c) (pts c) (p_pts c) (Some v) (p_rolls c) (cur_rolls c) (p1_pts c) (p2_pts c)
    (emoji_wait c) (created_at c) (emoji_wait_started c) (waiting_for_cashout c)
    (wager_deducted c) (waiting_p1 c) (waiting_p2 c) (p1_deducted c) (p2_deducted c)
    (waiting_for_challenger_emoji c) (waiting_for_emoji c) (game c).

(** The Python dict [self.pending_pvp]. *)
Module Dict.

Definition t : Type := list (string * challenge).

(** [d.get(k)] *)
Fixpoint get (k : string) (d : t) : option challenge :=
  match d with
  | [] => None
  | (k', v) :: d' => if String.eqb k k' then Some v else get k d'
  end.

(** [k in d] *)
Definition contains (k : string) (d : t) : bool :=
  match get k d with Some _ => true | None => false end.

(** [d[k] = v]: an existing key keeps its place, a new key goes last. *)
Fixpoint set (k : string) (v : challenge) (d : t) : t :=
  match d with
  | [] => [(k, v)]
  | (k', v') :: d' =>
      if String.eqb k k' then (k, v) :: d' else (k', v') :: set k v d'
  end.

(** [del d[k]]; [None] is the [KeyError] of a missing key. *)
Fixpoint del (k : string) (d : t) : option t :=
  match d with
  | [] => None
  | (k', v') :: d' =>
      if String.eqb k k' then Some d'
      else match del k d' with
           | Some d'' => Some ((k', v') :: d'')
           | None => None
           end
  end.

(** [list(d.keys())] *)
Definition keys (d : t) : list string := map fst d.

End Dict.

(** The state the handlers and the sweeper share: the users' balances, the
    house balance ([GlobalState] row [house_balance]) and the store. *)
Record bot : Type := mkBot {
  balance : Z -> Q;
  house_balance : Q;
  pending_pvp : Dict.t
}.

(* ------------------------------------------------------------------ *)
(** * Effects: state passing with Python exceptions *)

(** What a piece of Python code leaves behind: a value, or a raised
    exception.  The state reached when the exception is raised is kept:
    nothing is rolled back. *)
Inductive outcome (A : Type) : Type :=
  | Ok (a : A)
  | Raised.
Arguments Ok {A} a.
Arguments Raised {A}.

Definition M (A : Type) : Type := bot -> bot * outcome A.

Definition ret {A : Type} (a : A) : M A := fun s => (s, Ok a).

Definition bind {A B : Type} (m : M A) (f : A -> M B) : M B :=
  fun s => match m s with
           | (s', Ok a) => f a s'
           | (s', Raised) => (s', Raised)
           end.

Definition raise {A : Type} : M A := fun s => (s, Raised).

Notation "x <- m ;; k" := (bind m (fun x => k))
  (at level 61, m at next level, right associativity).
Notation "m ;;; k" := (bind m (fun _ => k))
  (at level 61, right associativity).

(** [d[k]] on a session dict: [KeyError] when the key is absent. *)
Definition getitem {A : Type} (o : option A) : M A :=
  match o with Some a => ret a | None => raise end.

(** [d.get(k, dflt)] *)
Definition get_or {A : Type} (dflt : A) (o : option A) : A :=
  match o with Some a => a | None => dflt end.

(** [self.db.update_user(uid, {'balance': self.db.get_user(uid)['balance'] + amt})] *)
Definition credit (uid : Z) (amt : Q) : M unit :=
  fun s => (mkBot (fun u => if (u =? uid)%Z then balance s uid + amt else balance s u)
                  (house_balance s) (pending_pvp s), Ok tt).

(** [self.db.update_house_balance(change)] *)
Definition update_house_balance (change : Q) : M unit :=
  fun s => (mkBot (balance s) (house_balance s + change) (pending_pvp s), Ok tt).

(** [del self.pending_pvp[k]] *)
Definition del_pending (k : string) : M unit :=
  fun s => match Dict.del k (pending_pvp s) with
           | Some d => (mkBot (balance s) (house_balance s) d, Ok tt)
           | None => (s, Raised)
           end.

(** [self.pending_pvp[k] = v] *)
Definition set_pending (k : string) (v : challenge) : M unit :=
  fun s => (mkBot (balance s) (house_balance s) (Dict.set k v (pending_pvp s)), Ok tt).

(** [self.pending_pvp.get(k)] *)
Definition get_pending (k : string) : M (option challenge) :=
  fun s => (s, Ok (Dict.get k (pending_pvp s))).

(** [self.db.get_user(uid)['balance']] *)
Definition get_balance (uid : Z) : M Q := fun s => (s, Ok (balance s uid)).

(** [self.db.update_user(uid, {'balance': v})] *)
Definition set_balance (uid : Z) (v : Q) : M unit :=
  fun s => (mkBot (fun u => if (u =? uid)%Z then v else balance s u)
                  (house_balance s) (pending_pvp s), Ok tt).

(* ------------------------------------------------------------------ *)
(** * ExpirationSweeper: [check_expired_challenges] (main.py 279-483) *)

(** Python truthiness of a user id read with [challenge.get(k)]. *)
Definition truthy_id (o : option Z) : bool :=
  match o with Some u => negb (u =? 0)%Z | None => false end.

(** A ledger call on the id read from a session; an id that is Python
    [None] makes the database call fail. *)
Definition credit_id (o : option Z) (amt : Q) : M unit :=
  match o with Some u => credit u amt | None => raise end.

Section Sweeper.

(** [current_time] and [self.db.data.get('expiration_seconds', 300)]. *)
Variable current_time : Q.
Variable expiration_limit : Z.

(** Lines 293-300: [wait_started], from [emoji_wait] or else [created_at]. *)
Definition wait_started (ch : challenge) : option Q :=
  match emoji_wait ch with
  | Some t => Some t
  | None => created_at ch
  end.

(** Line 305: 15 minutes once the game has started, else the configured
    limit. *)
Definition timeout_limit (ch : challenge) : Z :=
  if ((get_or 0 (cur_rolls ch) >? 0) || (get_or 0 (p_pts ch) >? 0)
      || (get_or 0 (b_pts ch) >? 0))%Z%bool
  then 900%Z else expiration_limit.

(** Lines 291-365, the "Generic V2 Timeout" branch for one entry;
    [expired] is [expired_challenges] before the entry, the result is the
    list after it. *)
Definition sweep_v2 (challenge_id : string) (ch : challenge)
    (expired : list string) : M (list string) :=
  let w := wager ch in
  match wait_started ch with
  | None => ret expired
  | Some ws =>
      let time_diff := current_time - ws in
      let limit := timeout_limit ch in
      if Qgt_bool time_diff (inject_Z limit) then
        let expired := expired ++ [challenge_id] in
        if String.prefix "v2_bot_" challenge_id then
          pid <- getitem (player ch) ;;
          if waiting_for_cashout ch then
            p <- getitem (p_pts ch) ;;
            b <- getitem (b_pts ch) ;;
            t <- getitem (pts ch) ;;
            let cashout_val := calculate_cashout p b t (wager ch) in
            credit pid cashout_val ;;;
            update_house_balance (- (cashout_val - wager ch)) ;;;
            ret (expired ++ [challenge_id])
          else if wager_deducted ch then
            if (get_or 0 (cur_rolls ch) >=? get_or 0 (rolls ch))%Z then
              credit pid w ;;; ret expired
            else ret expired
          else ret expired
        else
          p1 <- getitem (challenger ch) ;;
          let p2 := opponent ch in
          if waiting_p1 ch then
            if p2_deducted ch then credit_id p2 w ;;; ret expired
            else ret expired
          else if waiting_p2 ch then
            if p1_deducted ch then credit p1 w ;;; ret expired
            else ret expired
          else ret expired
      else ret expired
  end.

(** Lines 366-472, the three cases for sessions of the older handlers. *)
Definition sweep_legacy (challenge_id : string) (ch : challenge)
    (expired : list string) : M (list string) :=
  let w := wager ch in
  match created_at ch, opponent ch with
  | Some created, None =>
      if Qgt_bool (current_time - created) (inject_Z expiration_limit) then
        let expired := expired ++ [challenge_id] in
        challenger_id <- getitem (challenger ch) ;;
        credit challenger_id w ;;;
        ret expired
      else ret expired
  | _, _ =>
      match emoji_wait_started ch with
      | None => ret expired
      | Some ws =>
          if waiting_for_challenger_emoji ch then
            if Qgt_bool (current_time - ws) (inject_Z expiration_limit) then
              let expired := expired ++ [challenge_id] in
              challenger_id <- getitem (challenger ch) ;;
              acceptor_id <- getitem (opponent ch) ;;
              acceptor_balance <- get_balance acceptor_id ;;
              update_house_balance w ;;;
              set_balance acceptor_id (acceptor_balance + w) ;;;
              ret expired
            else ret expired
          else if waiting_for_emoji ch then
            if Qgt_bool (current_time - ws) (inject_Z expiration_limit) then
              let expired := expired ++ [challenge_id] in
              if truthy_id (opponent ch) then
                challenger_id <- getitem (challenger ch) ;;
                challenger_balance <- get_balance challenger_id ;;
                update_house_balance w ;;;
                set_balance challenger_id (challenger_balance + w) ;;;
                ret expired
              else if truthy_id (player ch) then
                update_house_balance w ;;;
                ret expired
              else ret expired
            else ret expired
          else ret expired
      end
  end.

(** The body of the [for challenge_id, challenge in list(...items())] loop. *)
Definition sweep_entry (entry : string * challenge)
    (expired : list string) : M (list string) :=
  let (challenge_id, ch) := entry in
  if (String.prefix "v2_bot_" challenge_id || String.prefix "v2_pvp_" challenge_id)%bool
  then sweep_v2 challenge_id ch expired
  else sweep_legacy challenge_id ch expired.

(** The scan over the snapshot [list(self.pending_pvp.items())]. *)
Fixpoint sweep_scan (entries : list (string * challenge))
    (expired : list string) : M (list string) :=
  match entries with
  | [] => ret expired
  | e :: rest =>
      expired' <- sweep_entry e expired ;;
      sweep_scan rest expired'
  end.

(** Lines 474-476: [for challenge_id in expired_challenges: del ...]. *)
Fixpoint remove_expired (expired : list string) : M unit :=
  match expired with
  | [] => ret tt
  | challenge_id :: rest => del_pending challenge_id ;;; remove_expired rest
  end.

(** The body of the [try]: the scan, then the removals; the value is
    [expired_challenges]. *)
Definition sweep_body : M (list string) :=
  fun s =>
    (expired <- sweep_scan (pending_pvp s) [] ;;
     remove_expired expired ;;;
     ret expired) s.

(** [check_expired_challenges]: [except Exception] logs and drops whatever
    the body raised; the state reached is what remains. *)
Definition check_expired_challenges (s : bot) : bot := fst (sweep_body s).

(** The list [expired_challenges] the scan builds, when the scan itself
    raises nothing. *)
Definition scheduled_removals (s : bot) : option (list string) :=
  match sweep_scan (pending_pvp s) [] s with
  | (_, Ok l) => Some l
  | (_, Raised) => None
  end.

End Sweeper.

(* ------------------------------------------------------------------ *)
(** * SessionLifecycle *)

(** What a handler tells its caller: the operation went through, or it
    was refused with an alert and nothing was done. *)
Inductive reply : Type :=
  | Done
  | Refused.

(** [(1 if val >= 4 else 0) if emoji in [soccer, basketball] else val] *)
Definition roll_score (e : emoji_t) (val : Z) : Z :=
  match e with
  | EmojiSoccer | EmojiBasketball => if (val >=? 4)%Z then 1%Z else 0%Z
  | _ => val
  end.

(** [sum(l)] *)
Definition py_sum (l : list Z) : Z := fold_left Z.add l 0%Z.

(** [range(n)] *)
Definition py_range (n : Z) : list nat := seq 0 (Z.to_nat n).

(** [challenge.get('player') == user_id] *)
Definition owned_by (user_id : Z) (ch : challenge) : bool :=
  match player ch with Some u => (u =? user_id)%Z | None => false end.

(** The round winner of lines 5211-5217: [Some true] is ["p"],
    [Some false] is ["b"], [None] a draw. *)
Definition round_win (md : string) (p_tot b_tot : Z) : option bool :=
  if String.eqb md "normal" then
    if (p_tot >? b_tot)%Z then Some true
    else if (b_tot >? p_tot)%Z then Some false
    else None
  else
    if (p_tot <? b_tot)%Z then Some true
    else if (b_tot <? p_tot)%Z then Some false
    else None.

(** ** The store and its persisted copy *)

(** A [bot] together with the [GlobalState] row [pending_pvp], the
    persisted copy of the store. *)
Record casino : Type := mkCasino {
  bot_of : bot;
  db_pending_pvp : Dict.t
}.

(** The state a handler is in right after [update_pending_pvp]: the row
    holds what the dict in memory holds. *)
Definition persisted (s : bot) : casino := mkCasino s (pending_pvp s).

(** Effects on a [casino]. *)
Definition MD (A : Type) : Type := casino -> casino * outcome A.

Definition retD {A : Type} (a : A) : MD A := fun c => (c, Ok a).

Definition bindD {A B : Type} (m : MD A) (f : A -> MD B) : MD B :=
  fun c => match m c with
           | (c', Ok a) => f a c'
           | (c', Raised) => (c', Raised)
           end.

Notation "x <~ m ;; k" := (bindD m (fun x => k))
  (at level 61, m at next level, right associativity).
Notation "m ;;~ k" := (bindD m (fun _ => k))
  (at level 61, right associativity).

(** Code that works on the balances and the dict in memory only. *)
Definition lift {A : Type} (m : M A) : MD A :=
  fun c => match m (bot_of c) with
           | (s', o) => (mkCasino s' (db_pending_pvp c), o)
           end.

(** [self.pending_pvp = self.db.data.get('pending_pvp', {})] *)
Definition reload_pending_pvp : MD unit :=
  fun c => (mkCasino (mkBot (balance (bot_of c)) (house_balance (bot_of c))
                            (db_pending_pvp c))
                     (db_pending_pvp c), Ok tt).

(** [self.db.update_pending_pvp(self.pending_pvp)] *)
Definition update_pending_pvp : MD unit :=
  fun c => (mkCasino (bot_of c) (pending_pvp (bot_of c)), Ok tt).

(** What the "Game over!" text and the "Play Again" keyboard format from
    the session (lines 5236-5242 and 5250-5256): [p_pts], [b_pts],
    [game], [rolls] and [mode], each read with [challenge[k]]. *)
Definition game_over_message (ch : challenge) : M unit :=
  getitem (p_pts ch) ;;; getitem (b_pts ch) ;;; getitem (game ch) ;;;
  getitem (rolls ch) ;;; getitem (mode ch) ;;; ret tt.

(** What the score text and the cashout button of the next round read
    (lines 5264-5272): [p_pts], [b_pts] and [pts], each with
    [challenge[k]]. *)
Definition next_round_message (ch : challenge) : M unit :=
  getitem (p_pts ch) ;;; getitem (b_pts ch) ;;; getitem (pts ch) ;;; ret tt.

(** Lines 5210-5259 and 5261-5277: the round is resolved on the session
    [ch2] of the reloaded store, for the totals [p_tot] and [b_tot]. *)
Definition resolve_round (user_id : Z) (cid : string) (ch2 : challenge)
    (p_tot b_tot : Z) : M unit :=
  ch3 <- match round_win (get_or "normal"%string (mode ch2)) p_tot b_tot with
         | Some true =>
             p0 <- getitem (p_pts ch2) ;; ret (set_p_pts (p0 + 1) ch2)
         | Some false =>
             b0 <- getitem (b_pts ch2) ;; ret (set_b_pts (b0 + 1) ch2)
         | None => ret ch2
         end ;;
  set_pending cid ch3 ;;;
  let target_pts := get_or 1%Z (pts ch3) in
  p <- getitem (p_pts ch3) ;;
  series_end <- (if (p >=? target_pts)%Z then ret true
                 else b <- getitem (b_pts ch3) ;; ret (b >=? target_pts)%Z) ;;
  if series_end : bool then
    let w := wager ch3 in
    (if (p >=? target_pts)%Z then
       let payout := w * (39 # 20) in
       credit user_id payout ;;;
       update_house_balance (- (payout - w))
     else
       update_house_balance w) ;;;
    game_over_message ch3 ;;;
    del_pending cid
  else
    set_pending cid (set_p_rolls [] ch3) ;;;
    next_round_message (set_p_rolls [] ch3).

(** The [v2_send_emoji_] branch of [button_callback] (main.py 5171-5280):
    one round of a bot series.  [p_dice i] and [b_dice i] are the values
    of the i-th die the transport returns for the player and for the bot.
    The player's dice are appended to the session of the dict in memory
    and the totals are taken from it; line 5206 then replaces the dict in
    memory by the persisted row, and the round is resolved on the session
    the row holds.  Line 5279 persists the result. *)
Definition v2_send_emoji (user_id : Z) (cid : string)
    (p_dice b_dice : nat -> Z) : MD reply :=
  found <~ lift (get_pending cid) ;;
  match found with
  | None => retD Refused
  | Some ch =>
      if negb (owned_by user_id ch) then retD Refused
      else
        let e := emoji ch in
        let num_rolls := get_or 1%Z (rolls ch) in
        let ch1 :=
          set_p_rolls (p_rolls ch ++ map (fun i => roll_score e (p_dice i))
                                         (py_range num_rolls)) ch in
        lift (set_pending cid ch1) ;;~
        let p_tot := py_sum (p_rolls ch1) in
        n <~ lift (getitem (rolls ch1)) ;;
        let b_tot := py_sum (map (fun i => roll_score e (b_dice i)) (py_range n)) in
        reload_pending_pvp ;;~
        reloaded <~ lift (get_pending cid) ;;
        match reloaded with
        | None => retD Done
        | Some ch2 =>
            lift (resolve_round user_id cid ch2 p_tot b_tot) ;;~
            update_pending_pvp ;;~
            retD Done
        end
  end.

(** The end of [generic_v2_pvp_loop] (main.py 4615-4632), reached when
    the [while] loop over the rounds is left: settlement of a PvP series. *)
Definition generic_v2_pvp_settle (cid : string) : M reply :=
  found <- get_pending cid ;;
  match found with
  | None => ret Refused
  | Some ch =>
      p1_id <- getitem (challenger ch) ;;
      let p2_id := opponent ch in
      let w := wager ch in
      p1 <- getitem (p1_pts ch) ;;
      t <- getitem (pts ch) ;;
      let winner_id := if (p1 >=? t)%Z then Some p1_id else p2_id in
      credit_id winner_id w ;;;
      del_pending cid ;;;
      ret Done
  end.


(** The [decline_] branch of [button_callback] (main.py 5995-6002). *)
Definition decline (user_id : Z) (challenge_id : string) : M reply :=
  found <- get_pending challenge_id ;;
  match found with
  | None => ret Refused
  | Some ch =>
      owner <- getitem (challenger ch) ;;
      if (owner =? user_id)%Z then
        del_pending challenge_id ;;;
        ret Done
      else ret Refused
  end.

(** ** Session ids and creation *)

(** [int(x)] on a float: truncation toward zero. *)
Definition py_int (x : Q) : Z := (Qnum x ÷ Z.pos (Qden x))%Z.

(** [str(n)] for an int, as an f-string formats it. *)
Definition py_str (n : Z) : string := NilZero.string_of_int (Z.to_int n).

(** The tail every id f-string ends with:
    [_{user_id}_{int(datetime.now().timestamp())}]. *)
Definition id_tail (user_id : Z) (now : Q) : string :=
  ("_" ++ py_str user_id ++ "_" ++ py_str (py_int now))%string.

(** The creation sites of main.py and their id f-strings. *)
Inductive creation_site : Type :=
  | SetupConfirm                       (* line 1017: v2_bot_{user_id}_{ts} *)
  | QuickBot                           (* lines 3161-3352: v2_bot_{user_id}_{ts} *)
  | OpenDice                           (* line 3401: dice_open_{user_id}_{ts} *)
  | OpenEmoji (game_type : string)     (* line 3491: {game_type}_open_{user_id}_{ts} *)
  | GenericBot (game : string)         (* line 4350: v2_bot_{game}_{user_id}_{ts} *)
  | GenericPvp (game : string).        (* line 4543: v2_pvp_{game}_{user_id}_{ts} *)

Definition session_id (site : creation_site) (user_id : Z) (now : Q) : string :=
  match site with
  | SetupConfirm | QuickBot => "v2_bot" ++ id_tail user_id now
  | OpenDice => "dice_open" ++ id_tail user_id now
  | OpenEmoji game_type => game_type ++ "_open" ++ id_tail user_id now
  | GenericBot game => "v2_bot_" ++ game ++ id_tail user_id now
  | GenericPvp game => "v2_pvp_" ++ game ++ id_tail user_id now
  end%string.

(** [s.split(sep)] for a one-character separator. *)
Fixpoint py_split (sep : ascii) (s : string) : list string :=
  match s with
  | EmptyString => [EmptyString]
  | String c s' =>
      if Ascii.eqb c sep then EmptyString :: py_split sep s'
      else match py_split sep s' with
           | [] => [String c EmptyString]
           | tok :: toks => String c tok :: toks
           end
  end.

Definition is_digit (c : ascii) : bool :=
  let n := nat_of_ascii c in ((48 <=? n) && (n <=? 57))%nat.

Fixpoint all_digits (s : string) : bool :=
  match s with
  | EmptyString => true
  | String c s' => is_digit c && all_digits s'
  end.

(** A non-empty run of decimal digits. *)
Definition is_decimal (s : string) : bool :=
  match s with EmptyString => false | _ => all_digits s end.

(** The id format the specification describes:
    ["<kind>_<creatorId>_<creationEpochSeconds>"] with [kind] one of
    [open], [pvp], [bot].  This definition follows the specification's
    words, to be compared with [session_id]. *)
Definition spec_id_format (s : string) : bool :=
  match py_split "_" s with
  | [kind; creator; epoch] =>
      (String.eqb kind "open" || String.eqb kind "pvp" || String.eqb kind "bot")
      && is_decimal creator && is_decimal epoch
  | _ => false
  end.

(** [self.emoji_map.get(game, dice)] *)
Definition emoji_of_game (game : string) : emoji_t :=
  if String.eqb game "dice" then EmojiDice
  else if String.eqb game "darts" then EmojiDarts
  else if String.eqb game "basketball" then EmojiBasketball
  else if String.eqb game "soccer" then EmojiSoccer
  else if String.eqb game "bowling" then EmojiBowling
  else if String.eqb game "coinflip" then EmojiCoin
  else EmojiDice.

(** The dict literal of [create_open_dice_challenge] (lines 3402-3412). *)
Definition new_open_dice_challenge (user_id : Z) (w : Q) (now : Q) : challenge :=
  {| player := None; challenger := Some user_id; opponent := None; wager := w;
     emoji := EmojiDice; mode := None; rolls := None; pts := None;
     p_pts := None; b_pts := None; p_rolls := []; cur_rolls := None;
     p1_pts := None; p2_pts := None;
     emoji_wait := None; created_at := Some now; emoji_wait_started := None;
     waiting_for_cashout := false; wager_deducted := false;
     waiting_p1 := false; waiting_p2 := false;
     p1_deducted := false; p2_deducted := false;
     waiting_for_challenger_emoji := false; waiting_for_emoji := false;
     game := None |}.

(** [create_open_dice_challenge] (main.py 3385-3413). *)
Definition create_open_dice_challenge (user_id : Z) (w : Q) (now : Q) : M reply :=
  bal <- get_balance user_id ;;
  if Qgt_bool w bal then ret Refused
  else
    set_balance user_id (bal - w) ;;;
    let challenge_id := session_id OpenDice user_id now in
    set_pending challenge_id (new_open_dice_challenge user_id w now) ;;;
    ret Done.

(** The dict literal of [start_generic_v2_bot] (lines 4359-4365). *)
Definition new_v2_bot_challenge (user_id : Z) (game : string) (w : Q)
    (n_rolls : Z) (md : string) (target : Z) (now : Q) : challenge :=
  {| player := Some user_id; challenger := None; opponent := None; wager := w;
     emoji := emoji_of_game game; mode := Some md; rolls := Some n_rolls;
     pts := Some target;
     p_pts := Some 0%Z; b_pts := Some 0%Z; p_rolls := []; cur_rolls := Some 0%Z;
     p1_pts := None; p2_pts := None;
     emoji_wait := Some now; created_at := None; emoji_wait_started := None;
     waiting_for_cashout := false; wager_deducted := true;
     waiting_p1 := false; waiting_p2 := false;
     p1_deducted := false; p2_deducted := false;
     waiting_for_challenger_emoji := false; waiting_for_emoji := false;
     game := Some game |}.

(** The "already have an active game" scan of lines 4336-4339. *)
Definition has_active_bot_game (user_id : Z) (d : Dict.t) : bool :=
  existsb (fun e : string * challenge =>
             String.prefix "v2_bot_" (fst e)
             && match player (snd e) with
                | Some u => (u =? user_id)%Z
                | None => false
                end) d.

(** [start_generic_v2_bot] (main.py 4330-4366). *)
Definition start_generic_v2_bot (user_id : Z) (game : string) (w : Q)
    (n_rolls : Z) (md : string) (target : Z) (now : Q) : M reply :=
  fun s =>
    (if has_active_bot_game user_id (pending_pvp s) then ret Refused
     else
       bal <- get_balance user_id ;;
       if Qgt_bool w bal then ret Refused
       else
         set_balance user_id (bal - w) ;;;
         let cid := session_id (GenericBot game) user_id now in
         set_pending cid (new_v2_bot_challenge user_id game w n_rolls md target now) ;;;
         ret Done) s.

(** The dict the orphaned PvP creation code builds (lines 4547-4553). *)
Definition new_v2_pvp_challenge (user_id : Z) (game : string) (w : Q)
    (n_rolls : Z) (md : string) (target : Z) (now : Q) : challenge :=
  {| player := None; challenger := Some user_id; opponent := None; wager := w;
     emoji := emoji_of_game game; mode := Some md; rolls := Some n_rolls;
     pts := Some target;
     p_pts := None; b_pts := None; p_rolls := []; cur_rolls := None;
     p1_pts := Some 0%Z; p2_pts := Some 0%Z;
     emoji_wait := Some now; created_at := None; emoji_wait_started := None;
     waiting_for_cashout := false; wager_deducted := false;
     waiting_p1 := false; waiting_p2 := false;
     p1_deducted := true; p2_deducted := false;
     waiting_for_challenger_emoji := false; waiting_for_emoji := false;
     game := Some game |}.

(** That dict after [accept_generic_v2_pvp] (lines 4575-4576:
    [opponent], [p2_deducted]) and the start of the first round in
    [generic_v2_pvp_loop] (lines 4589-4591: [waiting_p1], [waiting_p2],
    [emoji_wait]). *)
Definition v2_pvp_round_started (c : challenge) (opponent_id : Z) (now : Q) : challenge :=
  mkChallenge (player c) (challenger c) (Some opponent_id) (wager c) (emoji c) (mode c)
    (rolls c) (pts c) (p_pts c) (b_pts c) (p_rolls c) (cur_rolls c) (p1_pts c) (p2_pts c)
    (Some now) (created_at c) (emoji_wait_started c) (waiting_for_cashout c)
    (wager_deducted c) true false (p1_deducted c) true
    (waiting_for_challenger_emoji c) (waiting_for_emoji c) (game c).

(** The tokens that precede the creator id in the id of each creation
    site, as the f-strings of main.py write them. *)
Definition kind_tokens (site : creation_site) : list string :=
  match site with
  | SetupConfirm | QuickBot => ["v2"%string; "bot"%string]
  | OpenDice => ["dice"%string; "open"%string]
  | OpenEmoji game_type => py_split "_" game_type ++ ["open"%string]
  | GenericBot game => ["v2"%string; "bot"%string] ++ py_split "_" game
  | GenericPvp game => ["v2"%string; "pvp"%string] ++ py_split "_" game
  end.

(** No character of [s] is [sep]. *)
Fixpoint free_of (sep : ascii) (s : string) : bool :=
  match s with
  | EmptyString => true
  | String c s' => negb (Ascii.eqb c sep) && free_of sep s'
  end.

(** ** Names for what one round computes *)

(** [p_tot] of line 5194: the sum of [challenge['p_rolls']] after the
    player's dice of this round are appended; [ch] is the session of the
    dict in memory. *)
Definition player_round_total (ch : challenge) (p_dice : nat -> Z) : Z :=
  py_sum (p_rolls ch ++ map (fun i => roll_score (emoji ch) (p_dice i))
                            (py_range (get_or 1%Z (rolls ch)))).

(** [b_tot] of lines 5198-5201. *)
Definition bot_round_total (ch : challenge) (b_dice : nat -> Z) : Z :=
  py_sum (map (fun i => roll_score (emoji ch) (b_dice i))
              (py_range (get_or 0%Z (rolls ch)))).

(** The winner of the round these dice make: the totals are those of the
    session [ch] in memory, the mode is that of the session [row_ch] of
    the persisted row, which line 5206 reloads. *)
Definition round_result (ch row_ch : challenge) (p_dice b_dice : nat -> Z) : option bool :=
  round_win (get_or "normal"%string (mode row_ch))
            (player_round_total ch p_dice) (bot_round_total ch b_dice).


(** A store is a dict: its keys are distinct. *)
Definition store_ok (s : bot) : Prop := NoDup (Dict.keys (pending_pvp s)).

(** ** States of the scenarios *)

(** Every user holds [100.00]; the house holds the [10000.00] that
    [DatabaseManager.__init__] starts it with; no session is pending. *)
Definition fresh_bot : bot := mkBot (fun _ => 100) 10000 [].

(** What a handler leaves behind, and what it answers. *)
Definition exec {A : Type} (m : M A) (s : bot) : bot := fst (m s).
Definition answer {A : Type} (m : M A) (s : bot) : outcome A := snd (m s).

(** Scenario A: user 1 starts a dice series against the bot at time 1000
    (wager 10, normal mode, one roll per round, target 1);
    [start_generic_v2_bot] ends with [update_pending_pvp] (line 4366),
    so the series is persisted ... *)
Definition scenario_A_started : bot :=
  exec (start_generic_v2_bot 1 "dice" 10 1 "normal" 1 1000) fresh_bot.

(** ... and rolls a 6 against the bot's 3. *)
Definition scenario_A_settled : bot :=
  bot_of (fst (v2_send_emoji 1 "v2_bot_dice_1_1000" (fun _ => 6%Z) (fun _ => 3%Z)
                 (persisted scenario_A_started))).

(** User 1 opens a dice challenge for 5 at time 1000. *)
Definition open_challenge_created : bot :=
  exec (create_open_dice_challenge 1 5 1000) fresh_bot.

(** Scenario A is started and persisted; then user 2 opens a dice
    challenge for 5 at time 1001.  [create_open_dice_challenge] puts it
    into the dict in memory only: its line 3413 assigns to the temporary
    dict [self.db.data] returns, and the row stays as it was. *)
Definition series_and_unpersisted_challenge : casino :=
  mkCasino (exec (create_open_dice_challenge 2 5 1001) scenario_A_started)
           (pending_pvp scenario_A_started).

(** A bot series to 3 points of user [uid] for a wager of 10, at 2-1, with
    the flag [waiting_for_cashout] set, last touched at time 1000. *)
Definition bot_series_at_cashout (uid : Z) : challenge :=
  {| player := Some uid; challenger := None; opponent := None; wager := 10;
     emoji := EmojiDice; mode := Some "normal"%string; rolls := Some 1%Z;
     pts := Some 3%Z;
     p_pts := Some 2%Z; b_pts := Some 1%Z; p_rolls := []; cur_rolls := Some 0%Z;
     p1_pts := None; p2_pts := None;
     emoji_wait := Some 1000; created_at := None; emoji_wait_started := None;
     waiting_for_cashout := true; wager_deducted := true;
     waiting_p1 := false; waiting_p2 := false;
     p1_deducted := false; p2_deducted := false;
     waiting_for_challenger_emoji := false; waiting_for_emoji := true;
     game := Some "dice"%string |}.

(** Two such series, of users 1 and 2, and an open dice challenge of
    user 3 for 5; each of the three has paid the wager. *)
Definition two_cashouts_and_open : bot :=
  mkBot (fun u => if (u =? 3)%Z then 95 else 90) 10000
        [("v2_bot_dice_1_1000"%string, bot_series_at_cashout 1);
         ("v2_bot_dice_2_1000"%string, bot_series_at_cashout 2);
         ("dice_open_3_1000"%string, new_open_dice_challenge 3 5 1000)].



(** Scenario D: a PvP series of users 1 (challenger) and 2 for a wager of
    10; both have paid, the first round started at time 1010 and the
    challenger is to roll. *)
Definition scenario_D : bot :=
  mkBot (fun _ => 90) 10000
        [("v2_pvp_dice_1_1000"%string,
          v2_pvp_round_started (new_v2_pvp_challenge 1 "dice" 10 1 "normal" 1 1000) 2 1010)].

(** The same two players in a single-shot dice challenge of the older
    handlers, accepted at time 1010 ([accept_dice_challenge], lines
    3468-3471), the challenger to roll. *)
Definition scenario_D_legacy : bot :=
  mkBot (fun _ => 90) 10000
        [("dice_open_1_1000"%string,
          {| player := None; challenger := Some 1%Z; opponent := Some 2%Z; wager := 10;
             emoji := EmojiDice; mode := None; rolls := None; pts := None;
             p_pts := None; b_pts := None; p_rolls := []; cur_rolls := None;
             p1_pts := None; p2_pts := None;
             emoji_wait := None; created_at := Some 1000;
             emoji_wait_started := Some 1010;
             waiting_for_cashout := false; wager_deducted := false;
             waiting_p1 := false; waiting_p2 := false;
             p1_deducted := false; p2_deducted := false;
             waiting_for_challenger_emoji := true; waiting_for_emoji := false;
             game := None |})].

(** A PvP series that reached its target: user 1 has 1 point of 1. *)
Definition pvp_series_won : bot :=
  mkBot (fun _ => 90) 10000
        [("v2_pvp_dice_1_1000"%string,
          mkChallenge None (Some 1%Z) (Some 2%Z) 10 EmojiDice (Some "normal"%string)
            (Some 1%Z) (Some 1%Z) None None [] None (Some 1%Z) (Some 0%Z)
            (Some 1010) None None false false false false true true false false
            (Some "dice"%string))].

(* ------------------------------------------------------------------ *)
(** * Further handlers of main.py *)

(** ** Accepting a challenge *)

(** The four assignments of [accept_dice_challenge] (lines 3468-3471):
    [opponent], [waiting_for_challenger_emoji], [waiting_for_emoji],
    [emoji_wait_started]. *)
Definition mark_accepted (acceptor_id : Z) (now : Q) (c : challenge) : challenge :=
  mkChallenge (player c) (challenger c) (Some acceptor_id) (wager c) (emoji c) (mode c)
    (rolls c) (pts c) (p_pts c) (b_pts c) (p_rolls c) (cur_rolls c) (p1_pts c) (p2_pts c)
    (emoji_wait c) (created_at c) (Some now) (waiting_for_cashout c)
    (wager_deducted c) (waiting_p1 c) (waiting_p2 c) (p1_deducted c) (p2_deducted c)
    true false (game c).

(** [accept_dice_challenge] (main.py 3427-3473); [now] is
    [datetime.now()]. *)
Definition accept_dice_challenge (acceptor_id : Z) (challenge_id : string)
    (now : Q) : M reply :=
  found <- get_pending challenge_id ;;
  match found with
  | None => ret Refused
  | Some ch =>
      if match created_at ch with
         | Some created => Qgt_bool (now - created) 300
         | None => false
         end
      then ret Refused
      else
        let w := wager ch in
        challenger_id <- getitem (challenger ch) ;;
        acceptor_balance <- get_balance acceptor_id ;;
        if (acceptor_id =? challenger_id)%Z then ret Refused
        else if Qgt_bool w acceptor_balance then ret Refused
        else
          set_balance acceptor_id (acceptor_balance - w) ;;;
          set_pending challenge_id (mark_accepted acceptor_id now ch) ;;;
          ret Done
  end.

(** The two assignments of [accept_generic_v2_pvp] (lines 4575-4576). *)
Definition mark_joined (user_id : Z) (c : challenge) : challenge :=
  mkChallenge (player c) (challenger c) (Some user_id) (wager c) (emoji c) (mode c)
    (rolls c) (pts c) (p_pts c) (b_pts c) (p_rolls c) (cur_rolls c) (p1_pts c) (p2_pts c)
    (emoji_wait c) (created_at c) (emoji_wait_started c) (waiting_for_cashout c)
    (wager_deducted c) (waiting_p1 c) (waiting_p2 c) (p1_deducted c) true
    (waiting_for_challenger_emoji c) (waiting_for_emoji c) (game c).


(** ** Who is in a game *)

(** [is_user_in_game] (main.py 928-945); [in_blackjack] is
    [user_id in self.blackjack_sessions]. *)
Definition is_user_in_game (user_id : Z) (in_blackjack : bool) (d : Dict.t) : bool :=
  existsb (fun e : string * challenge =>
             (String.prefix "v2_bot_" (fst e) && owned_by user_id (snd e))
             || (String.prefix "v2_pvp_" (fst e)
                 && (match challenger (snd e) with
                     | Some u => (u =? user_id)%Z
                     | None => false
                     end
                     || match opponent (snd e) with
                        | Some u => (u =? user_id)%Z
                        | None => false
                        end))) d
  || in_blackjack.

(** ** The game-mode carousel *)

(** [modes] of [_get_next_game_mode] and [_get_prev_game_mode]. *)
Definition game_modes : list string :=
  ["dice"; "basketball"; "soccer"; "darts"; "bowling"; "coinflip"]%string.

(** [l.index(x)]; [None] is the [ValueError]. *)
Fixpoint py_index (x : string) (l : list string) : option nat :=
  match l with
  | [] => None
  | y :: l' =>
      if String.eqb x y then Some O
      else match py_index x l' with
           | Some i => Some (S i)
           | None => None
           end
  end.

(** [_get_next_game_mode] (main.py 904-910). *)
Definition _get_next_game_mode (current : string) : string :=
  match py_index current game_modes with
  | Some idx =>
      nth ((idx + 1) mod List.length game_modes) game_modes "dice"%string
  | None => "dice"%string
  end.

(** [_get_prev_game_mode] (main.py 912-918); Python's [%] gives a result
    in [0 .. len-1] also for [idx - 1 = -1]. *)
Definition _get_prev_game_mode (current : string) : string :=
  match py_index current game_modes with
  | Some idx =>
      nth (Z.to_nat ((Z.of_nat idx - 1) mod Z.of_nat (List.length game_modes)))
          game_modes "dice"%string
  | None => "dice"%string
  end.

(** ** Single-shot games against the house *)

Definition reds : list Z :=
  [1; 3; 5; 7; 9; 12; 14; 16; 18; 19; 21; 23; 25; 27; 30; 32; 34; 36]%Z.
Definition blacks : list Z :=
  [2; 4; 6; 8; 10; 11; 13; 15; 17; 20; 22; 24; 26; 28; 29; 31; 33; 35]%Z.
Definition greens : list Z := [0; 37]%Z.

(** [reds + blacks + greens], the pockets [random.choice] draws from;
    [37] stands for the double zero. *)
Definition all_numbers : list Z := reds ++ blacks ++ greens.

(** [n in l] on a list of ints. *)
Definition py_in (n : Z) (l : list Z) : bool := existsb (Z.eqb n) l.

(** The if/elif chain of [roulette_play] (lines 4262-4289): the
    [multiplier] of a winning bet, [0] when [won] stays [False]. *)
Definition roulette_multiplier (choice : string) (result_num : Z) : Z :=
  if (String.eqb choice "red" && py_in result_num reds)%bool then 2
  else if (String.eqb choice "black" && py_in result_num blacks)%bool then 2
  else if (String.eqb choice "green" && py_in result_num greens)%bool then 14
  else if (String.eqb choice "odd" && (result_num >? 0)%Z && negb (result_num =? 37)%Z
           && (result_num mod 2 =? 1)%Z)%bool then 2
  else if (String.eqb choice "even" && (result_num >? 0)%Z && negb (result_num =? 37)%Z
           && (result_num mod 2 =? 0)%Z)%bool then 2
  else if (String.eqb choice "low" && (result_num >=? 1)%Z && (result_num <=? 18)%Z)%bool
       then 2
  else if (String.eqb choice "high" && (result_num >=? 19)%Z && (result_num <=? 36)%Z)%bool
       then 2
  else 0.

(** What lines 4290-4303 book to the house for one spin. *)
Definition roulette_house_change (w : Q) (choice : string) (result_num : Z) : Q :=
  let multiplier := roulette_multiplier choice result_num in
  if (multiplier =? 0)%Z then w
  else - (w * inject_Z (multiplier - 1)).

(** [self.stickers]: main.py reads this attribute (lines 2710-2780, 3112,
    4173, 4245) and no line assigns it, neither in [__init__] nor in the
    class body, so reading it raises [AttributeError]. *)
Definition stickers : M unit := raise.

(** [roulette_play] (main.py 4214-4326); [result_num] is what
    [random.choice(all_numbers)] returns.  Line 4245 reads
    [self.stickers] outside any [try], before the bet is resolved. *)
Definition roulette_play (user_id : Z) (w : Q) (choice : string)
    (result_num : Z) : M reply :=
  bal <- get_balance user_id ;;
  if Qgt_bool w bal then ret Refused
  else
    stickers ;;;
    update_house_balance (roulette_house_change w choice result_num) ;;;
    ret Done.

(** [coinflip_vs_bot] (main.py 4084-4141); [result] is what
    [random.choice(['heads', 'tails'])] returns. *)
Definition coinflip_vs_bot (user_id : Z) (w : Q) (choice result : string) : M reply :=
  bal <- get_balance user_id ;;
  if Qgt_bool w bal then ret Refused
  else
    (if String.eqb choice result then update_house_balance (- w)
     else update_house_balance w) ;;;
    ret Done.

(** How many pockets of the wheel pay a bet. *)
Definition paying (choice : string) : nat :=
  List.length (filter (fun n => negb (roulette_multiplier choice n =? 0)%Z) all_numbers).

(** ** Tips *)

(** The [tip_confirm_] branch of [button_callback] (main.py 5536-5567):
    both users are read first, then both are written, the recipient
    last. *)
Definition tip_confirm (user_id target_id : Z) (amount : Q) : M reply :=
  user_balance <- get_balance user_id ;;
  if Qlt_bool user_balance amount then ret Refused
  else
    recipient_balance <- get_balance target_id ;;
    set_balance user_id (user_balance - amount) ;;;
    set_balance target_id (recipient_balance + amount) ;;;
    ret Done.

(** ** Reading an id back *)

(** [int(s)] on a decimal string; [None] is the [ValueError]. *)
Definition py_int_of_str (s : string) : option Z :=
  option_map Z.of_int (NilZero.int_of_string s).

(** The last two items of a list, [l[-2:]] when there are two. *)
Fixpoint last_two {A : Type} (l : list A) : option (A * A) :=
  match l with
  | [] => None
  | [a] => None
  | [a; b] => Some (a, b)
  | _ :: l' => last_two l'
  end.

(** ** Sessions that are not due *)

(** None of the timestamps the sweeper looks at is older than the limit
    that applies to it. *)
Definition within_limits (now : Q) (limit : Z) (entry : string * challenge) : Prop :=
  let (challenge_id, ch) := entry in
  if (String.prefix "v2_bot_" challenge_id || String.prefix "v2_pvp_" challenge_id)%bool
  then forall ws, wait_started ch = Some ws -> now - ws <= inject_Z (timeout_limit limit ch)
  else (forall t, created_at ch = Some t -> now - t <= inject_Z limit)
       /\ (forall t, emoji_wait_started ch = Some t -> now - t <= inject_Z limit).

(** ** Proof tactics *)

(** Turns hypotheses on [Qcompare] into the order facts they stand for. *)
Ltac qcompare_facts :=
  repeat match goal with
         | H : Qcompare _ _ = Eq |- _ => apply <- Qeq_alt in H
         | H : Qcompare _ _ = Lt |- _ => apply <- Qlt_alt in H
         | H : Qcompare _ _ = Gt |- _ => apply <- Qgt_alt in H
         end.

(** Unfolds the effect combinators and the projections of the states they
    build. *)
Ltac run_effects :=
  cbv beta iota zeta delta
    [bind ret raise getitem get_pending set_pending del_pending credit credit_id
     update_house_balance get_balance set_balance];
  cbn [pending_pvp balance house_balance].

(** Reduces the projections of an updated session. *)
Ltac read_session :=
  cbn [player challenger opponent wager emoji mode rolls pts p_pts b_pts p_rolls
       cur_rolls p1_pts p2_pts game set_p_rolls set_p_pts set_b_pts get_or].

(** Unfolds the effect combinators on a [casino] as well. *)
Ltac run_db_effects :=
  cbv beta iota zeta delta
    [bindD retD lift reload_pending_pvp update_pending_pvp
     bind ret raise getitem get_pending set_pending del_pending credit credit_id
     update_house_balance get_balance set_balance];
  cbn [pending_pvp balance house_balance bot_of db_pending_pvp].

(** Case analysis on a [match] whose scrutinee contains no other
    [match]. *)
Ltac destruct_innermost :=
  match goal with
  | |- context [match ?x with _ => _ end] =>
      lazymatch x with
      | context [match _ with _ => _ end] => fail
      | _ => destruct x eqn:?
      end
  end.

(** Reduces the projections of a freshly built or accepted session. *)
Ltac read_new_session :=
  cbn [new_open_dice_challenge new_v2_bot_challenge mark_accepted mark_joined
       player challenger opponent wager emoji mode rolls pts p_pts b_pts p_rolls
       cur_rolls p1_pts p2_pts emoji_wait created_at emoji_wait_started
       waiting_for_cashout wager_deducted waiting_p1 waiting_p2 p1_deducted
       p2_deducted waiting_for_challenger_emoji waiting_for_emoji game get_or].

(* ================================================================== *)
(** * Properties *)

(** ** Rounding *)

Section Rounding.

Lemma round_half_even_bounds (x : Q) :
  (Qfloor x <= round_half_even x <= Qfloor x + 1)%Z.
Proof.
  unfold round_half_even.
  destruct (Qcompare (x - inject_Z (Qfloor x)) (1 # 2)); [destruct (Z.even _) | | ]; lia.
Qed.


Lemma round_half_even_mono (x y : Q) :
  x <= y -> (round_half_even x <= round_half_even y)%Z.
Proof.
  intros L.
  pose proof (Qfloor_resp_le _ _ L) as F.
  destruct (Z.eq_dec (Qfloor x) (Qfloor y)) as [E | N].
  - unfold round_half_even. rewrite E.
    set (f := Qfloor y).
    assert (R : x - inject_Z f <= y - inject_Z f) by lra.
    destruct (Qcompare (x - inject_Z f) (1 # 2)) eqn:Cx;
      destruct (Qcompare (y - inject_Z f) (1 # 2)) eqn:Cy;
      try (destruct (Z.even f)); try lia;
      qcompare_facts; exfalso; lra.
  - pose proof (round_half_even_bounds x). pose proof (round_half_even_bounds y). lia.
Qed.


Lemma Qmake_100_le (a b : Z) : (a <= b)%Z -> a # 100 <= b # 100.
Proof. intros H. unfold Qle. simpl. lia. Qed.


Lemma py_round2_mono (x y : Q) : x <= y -> py_round2 x <= py_round2 y.
Proof.
  intros L. unfold py_round2. apply Qmake_100_le.
  apply round_half_even_mono. lra.
Qed.


Lemma py_round2_nonneg (x : Q) : 0 <= x -> 0 <= py_round2 x.
Proof.
  intros H. pose proof (py_round2_mono 0 x H) as M.
  assert (Z0 : py_round2 0 == 0) by reflexivity. lra.
Qed.

Lemma py_round2_nonpos (x : Q) : x <= 0 -> py_round2 x <= 0.
Proof.
  intros H. pose proof (py_round2_mono x 0 H) as M.
  assert (Z0 : py_round2 0 == 0) by reflexivity. lra.
Qed.

Lemma Qlt_bool_true (x y : Q) : Qlt_bool x y = true <-> x < y.
Proof.
  unfold Qlt_bool. rewrite negb_true_iff.
  destruct (Qle_bool y x) eqn:E.
  - apply Qle_bool_iff in E. split; [discriminate | intros; lra].
  - split; [intros _ | reflexivity].
    apply Qnot_le_lt. intros C. apply Qle_bool_iff in C. congruence.
Qed.

Lemma Qlt_bool_false (x y : Q) : Qlt_bool x y = false <-> y <= x.
Proof.
  unfold Qlt_bool. rewrite negb_false_iff. apply Qle_bool_iff.
Qed.


Lemma py_max0_of_nonneg (v : Q) : 0 <= v -> py_max0 v == v.
Proof.
  intros H. unfold py_max0. destruct (Qlt_bool 0 v) eqn:E.
  - reflexivity.
  - apply Qlt_bool_false in E. lra.
Qed.

Lemma py_max0_of_nonpos (v : Q) : v <= 0 -> py_max0 v == 0.
Proof.
  intros H. unfold py_max0. destruct (Qlt_bool 0 v) eqn:E.
  - apply Qlt_bool_true in E. lra.
  - reflexivity.
Qed.

Lemma py_max0_mono (u v : Q) : u <= v -> py_max0 u <= py_max0 v.
Proof.
  intros H. unfold py_max0.
  destruct (Qlt_bool 0 u) eqn:Eu; destruct (Qlt_bool 0 v) eqn:Ev;
    try apply Qlt_bool_true in Eu; try apply Qlt_bool_false in Eu;
    try apply Qlt_bool_true in Ev; try apply Qlt_bool_false in Ev; lra.
Qed.

End Rounding.

(** ** CashoutValuator *)

Section Cashout.

(** Mid-series, the function is the rounded, clamped product. *)
Lemma calculate_cashout_mid (p b t : Z) (w : Q) :
  (p < t)%Z -> (b < t)%Z ->
  calculate_cashout p b t w
  = py_max0 (py_round2 (cashout_prob (t - p) (t - b) * (w * 2) * (19 # 20))).
Proof.
  intros Hp Hb. unfold calculate_cashout.
  destruct (Z.geb_spec p t); [lia | ].
  destruct (Z.geb_spec b t); [lia | ].
  reflexivity.
Qed.

Lemma cashout_prob_range (a b : Z) : 1 # 8 <= cashout_prob a b <= 7 # 8.
Proof.
  unfold cashout_prob.
  repeat match goal with
         | |- context [if ?c then _ else _] => destruct c
         end; split; unfold Qle; simpl; lia.
Qed.

(** For needs within the table, the table is the recurrence. *)
Lemma cashout_prob_is_spec_P (a b : Z) :
  (1 <= a <= 3)%Z -> (1 <= b <= 3)%Z ->
  cashout_prob a b == spec_P (Z.to_nat a) (Z.to_nat b).
Proof.
  intros Ha Hb.
  assert (Ea : (a = 1 \/ a = 2 \/ a = 3)%Z) by lia.
  assert (Eb : (b = 1 \/ b = 2 \/ b = 3)%Z) by lia.
  destruct Ea as [-> | [-> | ->]]; destruct Eb as [-> | [-> | ->]];
    vm_compute; reflexivity.
Qed.

(** The value before rounding grows with the probability when the wager
    is not negative; a negative wager is clamped to [0] either way. *)
Lemma cashout_val_mono (q1 q2 w : Q) :
  0 <= q1 -> q1 <= q2 ->
  py_max0 (py_round2 (q1 * (w * 2) * (19 # 20)))
  <= py_max0 (py_round2 (q2 * (w * 2) * (19 # 20))).
Proof.
  intros H0 H12.
  destruct (Qlt_le_dec w 0) as [Neg | Pos].
  - assert (V1 : q1 * (w * 2) * (19 # 20) <= 0) by nra.
    assert (V2 : q2 * (w * 2) * (19 # 20) <= 0) by nra.
    rewrite (py_max0_of_nonpos _ (py_round2_nonpos _ V1)).
    rewrite (py_max0_of_nonpos _ (py_round2_nonpos _ V2)).
    lra.
  - apply py_max0_mono, py_round2_mono. nra.
Qed.

Lemma cashout_prob_mono_upto3 (t p1 b1 p2 b2 : Z) :
  (1 <= t <= 3)%Z ->
  (0 <= p1 < t)%Z -> (0 <= b1 < t)%Z -> (0 <= p2 < t)%Z -> (0 <= b2 < t)%Z ->
  (p1 - b1 < p2 - b2)%Z ->
  cashout_prob (t - p1) (t - b1) <= cashout_prob (t - p2) (t - b2).
Proof.
  intros Ht Hp1 Hb1 Hp2 Hb2 D.
  assert (Et : (t = 1 \/ t = 2 \/ t = 3)%Z) by lia.
  assert (Ep1 : (p1 = 0 \/ p1 = 1 \/ p1 = 2)%Z) by lia.
  assert (Eb1 : (b1 = 0 \/ b1 = 1 \/ b1 = 2)%Z) by lia.
  assert (Ep2 : (p2 = 0 \/ p2 = 1 \/ p2 = 2)%Z) by lia.
  assert (Eb2 : (b2 = 0 \/ b2 = 1 \/ b2 = 2)%Z) by lia.
  destruct Et as [-> | [-> | ->]];
    destruct Ep1 as [-> | [-> | ->]]; try lia;
    destruct Eb1 as [-> | [-> | ->]]; try lia;
    destruct Ep2 as [-> | [-> | ->]]; try lia;
    destruct Eb2 as [-> | [-> | ->]]; try lia;
    vm_compute; discriminate.
Qed.


End Cashout.

(** C2, counterexample.  With four points to play for and the opponent one
    point from the target ([needSelf = 4], [needOpp = 1]) the recurrence
    gives [p = 1/16] and the value [1.19] for a wager of [10]; the code
    falls back to [prob = 0.5] and returns [9.50]. *)
Lemma cashout_beyond_table_differs :
  spec_P 4 1 == 1 # 16 /\
  calculate_cashout 0 3 4 10 == 950 # 100 /\
  spec_cashout 0 3 4 10 == 119 # 100 /\
  ~ calculate_cashout 0 3 4 10 == spec_cashout 0 3 4 10.
Proof.
  repeat split; try reflexivity.
  vm_compute. discriminate.
Qed.

(** ** [calculate_cashout] on binary64 *)

Section Binary64.

Lemma shr_1_nonneg (mrs : shr_record) :
  (0 <= shr_m mrs)%Z -> (0 <= shr_m (shr_1 mrs))%Z.
Proof.
  destruct mrs as [m r s]. destruct m as [ | [q | q | ] | q]; simpl; lia.
Qed.

Lemma iter_shr_1_nonneg (n : positive) :
  forall mrs, (0 <= shr_m mrs)%Z -> (0 <= shr_m (iter_pos shr_1 n mrs))%Z.
Proof.
  induction n as [n IH | n IH | ]; intros mrs H; simpl.
  - apply IH, IH, shr_1_nonneg, H.
  - apply IH, IH, H.
  - apply shr_1_nonneg, H.
Qed.

Lemma shr_fexp_nonneg (m e : Z) (l : location) :
  (0 <= m)%Z -> (0 <= shr_m (fst (shr_fexp F64.prec F64.emax m e l)))%Z.
Proof.
  intros H. unfold shr_fexp, shr.
  assert (S : shr_m (shr_record_of_loc m l) = m) by (destruct l as [ | []]; reflexivity).
  destruct (fexp F64.prec F64.emax (Zdigits2 m + e) - e)%Z; cbn [fst];
    [rewrite S; exact H | | rewrite S; exact H].
  apply iter_shr_1_nonneg. rewrite S. exact H.
Qed.

Lemma round_nearest_even_nonneg (m : Z) (l : location) :
  (0 <= m)%Z -> (0 <= round_nearest_even m l)%Z.
Proof.
  intros H. destruct l as [ | []]; simpl; try lia. destruct (Z.even m); lia.
Qed.

(** Rounding keeps the sign and never gives a nan. *)
Lemma binary_round_aux_signed (s : bool) (m e : Z) (l : location) :
  (0 <= m)%Z -> F64.signed s (binary_round_aux F64.prec F64.emax s m e l).
Proof.
  intros H. unfold binary_round_aux.
  pose proof (shr_fexp_nonneg m e l H) as H1.
  destruct (shr_fexp F64.prec F64.emax m e l) as [mrs' e']. cbn [fst] in H1.
  pose proof (shr_fexp_nonneg _ e' loc_Exact
                (round_nearest_even_nonneg _ (loc_of_shr_record mrs') H1)) as H2.
  destruct (shr_fexp F64.prec F64.emax _ e' loc_Exact) as [mrs'' e'']. cbn [fst] in H2.
  destruct (shr_m mrs'') as [ | q | q]; [reflexivity | | lia].
  destruct (e'' <=? F64.emax - F64.prec)%Z; reflexivity.
Qed.

Lemma nearest_signed (s : bool) (n d : positive) : F64.signed s (F64.nearest s n d).
Proof.
  unfold F64.nearest, SFdiv_core_binary.
  match goal with
  | |- context [Z.div_eucl ?a ?b] =>
      pose proof (Z_div_mod a b eq_refl) as D;
      assert (A : (0 <= a)%Z)
  end.
  { match goal with
    | |- context [match ?x with Z0 => _ | Zpos _ => Z.shiftl _ ?y | Zneg _ => _ end] =>
        destruct x; try lia; apply Z.shiftl_nonneg; lia
    end. }
  destruct (Z.div_eucl _ _) as [q r]. apply binary_round_aux_signed.
  destruct D as [E B]. nia.
Qed.

(** The sign of a product with a finite factor. *)
Lemma mul_signed_l (sx sy : bool) (mx : positive) (ex : Z) (y : F64.t) :
  F64.signed sy y -> F64.signed (xorb sx sy) (F64.mul (S754_finite sx mx ex) y).
Proof.
  destruct y as [s | s | | s m e]; simpl; intros H; try contradiction; subst;
    try reflexivity.
  apply binary_round_aux_signed. lia.
Qed.

Lemma mul_signed_r (sx sy : bool) (x : F64.t) (my : positive) (ey : Z) :
  F64.signed sx x -> F64.signed (xorb sx sy) (F64.mul x (S754_finite sy my ey)).
Proof.
  destruct x as [s | s | | s m e]; simpl; intros H; try contradiction; subst;
    try reflexivity.
  apply binary_round_aux_signed. lia.
Qed.

Lemma round2_signed (s : bool) (x : F64.t) : F64.signed s x -> F64.signed s (F64.round2 x).
Proof.
  destruct x as [s' | s' | | s' m e]; simpl; intros H; try exact H.
  destruct e as [ | q | q]; try exact H. subst s'.
  destruct (round_half_even _); [reflexivity | apply nearest_signed | reflexivity].
Qed.

Lemma max0_of_signed_false (x : F64.t) : F64.signed false x -> F64.max0 x = x.
Proof.
  destruct x as [s | s | | s m e]; simpl; intros H; try contradiction; subst; reflexivity.
Qed.

Lemma max0_of_signed_true (x : F64.t) : F64.signed true x -> F64.max0 x = S754_zero false.
Proof.
  destruct x as [s | s | | s m e]; simpl; intros H; try contradiction; subst; reflexivity.
Qed.

Lemma max0_signed (x : F64.t) : F64.signed false (F64.max0 x).
Proof.
  destruct x as [[ | ] | [ | ] | | [ | ] m e]; reflexivity.
Qed.

Lemma two_binary64 : F64.of_Z 2 = S754_finite false 4503599627370496 (-51).
Proof. vm_compute. reflexivity. Qed.

Lemma half_binary64 : F64.of_Q (1 # 2) = S754_finite false 4503599627370496 (-53).
Proof. vm_compute. reflexivity. Qed.

Lemma literal_095_binary64 :
  F64.of_Q (95 # 100) = S754_finite false 8556839292003942 (-53).
Proof. vm_compute. reflexivity. Qed.

(** Every entry of the table, and the default, is a positive normal
    double below [1]: doubling it raises the exponent. *)
Lemma cashout_prob_binary64 (a b : Z) :
  exists m e,
    F64.of_Q (cashout_prob a b) = S754_finite false m e
    /\ F64.mul (S754_finite false m e) (F64.of_Z 2) = S754_finite false m (e + 1)
    /\ (e < 0)%Z.
Proof.
  unfold cashout_prob.
  repeat match goal with
         | |- context [if ?c then _ else _] => destruct c
         end;
    eexists; eexists; (split; [vm_compute; reflexivity | split; vm_compute; reflexivity]).
Qed.

(** Outside the table the chain leaves [prob] at its default. *)
Lemma cashout_prob_beyond_table (a b : Z) :
  (3 < a)%Z \/ (3 < b)%Z -> cashout_prob a b = 1 # 2.
Proof.
  intros H. unfold cashout_prob.
  repeat match goal with
         | |- context [if ?c then _ else _] => destruct c eqn:?
         end; try reflexivity;
  repeat match goal with
         | H : (_ && _)%bool = true |- _ => apply andb_true_iff in H; destruct H
         | H : (_ =? _)%Z = true |- _ => apply Z.eqb_eq in H
         end; lia.
Qed.

(** Within the table the literal is the double of the recurrence value. *)
Lemma cashout_prob_binary64_is_spec_P (a b : Z) :
  (1 <= a <= 3)%Z -> (1 <= b <= 3)%Z ->
  F64.of_Q (cashout_prob a b) = F64.of_Q (spec_P (Z.to_nat a) (Z.to_nat b)).
Proof.
  intros Ha Hb.
  assert (Ea : (a = 1 \/ a = 2 \/ a = 3)%Z) by lia.
  assert (Eb : (b = 1 \/ b = 2 \/ b = 3)%Z) by lia.
  destruct Ea as [-> | [-> | ->]]; destruct Eb as [-> | [-> | ->]];
    vm_compute; reflexivity.
Qed.

Lemma calculate_cashout_binary64_mid (p b t : Z) (w : F64.t) :
  (p < t)%Z -> (b < t)%Z ->
  calculate_cashout_binary64 p b t w
  = F64.max0 (F64.round2
                (F64.mul (F64.mul (F64.of_Q (cashout_prob (t - p) (t - b)))
                                  (F64.mul w (F64.of_Z 2)))
                         (F64.of_Q (95 # 100)))).
Proof.
  intros Hp Hb. unfold calculate_cashout_binary64.
  destruct (Z.geb_spec p t); [lia | ].
  destruct (Z.geb_spec b t); [lia | ].
  reflexivity.
Qed.

(** The rounded product has the sign of the wager, and is a nan only for
    a nan. *)
Lemma cashout_val_binary64_signed (s : bool) (a b : Z) (w : F64.t) :
  F64.signed s w ->
  F64.signed s (F64.round2
                  (F64.mul (F64.mul (F64.of_Q (cashout_prob a b)) (F64.mul w (F64.of_Z 2)))
                           (F64.of_Q (95 # 100)))).
Proof.
  intros H.
  destruct (cashout_prob_binary64 a b) as (m & e & -> & _ & _).
  apply round2_signed. rewrite literal_095_binary64, two_binary64.
  rewrite <- (xorb_false_r s). apply mul_signed_r.
  rewrite <- (xorb_false_l s). apply mul_signed_l.
  rewrite <- (xorb_false_r s). apply mul_signed_r. exact H.
Qed.

(** Shifting out [k] zero bits is exact. *)
Lemma iter_shr_1_exact (k : positive) :
  forall m : positive,
    iter_pos shr_1 k (Build_shr_record (Zpos (Pos.iter xO m k)) false false)
    = Build_shr_record (Zpos m) false false.
Proof.
  induction k as [k IH | k IH | ]; intros m; simpl.
  - rewrite !IH. reflexivity.
  - rewrite !IH. reflexivity.
  - reflexivity.
Qed.

Lemma digits2_pos_shifted (k m : positive) :
  digits2_pos (Pos.iter xO m k) = (digits2_pos m + k)%positive.
Proof.
  induction k as [ | k IH] using Pos.peano_ind.
  - simpl. lia.
  - rewrite Pos.iter_succ. simpl. rewrite IH. lia.
Qed.

(** A mantissa with [k] trailing zero bits that has to be shifted by
    exactly [k] places is rounded without error. *)
Lemma binary_round_aux_shifted (s : bool) (m k : positive) (e0 : Z) :
  fexp F64.prec F64.emax (Zpos (digits2_pos m) + Zpos k + e0) = (e0 + Zpos k)%Z ->
  (e0 + Zpos k <= F64.emax - F64.prec)%Z ->
  binary_round_aux F64.prec F64.emax s (Zpos (Pos.iter xO m k)) e0 loc_Exact
  = S754_finite s m (e0 + Zpos k).
Proof.
  intros F L. unfold binary_round_aux, shr_fexp. cbn [Zdigits2 shr_record_of_loc].
  rewrite digits2_pos_shifted, Pos2Z.inj_add, F.
  replace (e0 + Zpos k - e0)%Z with (Zpos k) by lia.
  unfold shr at 1. rewrite iter_shr_1_exact.
  cbn [shr_m loc_of_shr_record round_nearest_even Zdigits2 shr_record_of_loc].
  replace (Zpos (digits2_pos m) + (e0 + Zpos k))%Z
    with (Zpos (digits2_pos m) + Zpos k + e0)%Z by lia.
  rewrite F, Z.sub_diag. cbn [shr shr_m].
  apply Z.leb_le in L. rewrite L. reflexivity.
Qed.

(** Doubling a double below the top binade: the exponent goes up, or, on
    a subnormal, the mantissa is doubled. *)
Lemma mul_two (s : bool) (m : positive) (e : Z) :
  bounded F64.prec F64.emax m e = true -> (e < F64.emax - F64.prec)%Z ->
  F64.mul (S754_finite s m e) (F64.of_Z 2)
  = if (-1074 <=? Zpos (digits2_pos m) + e - 53)%Z
    then S754_finite s m (e + 1) else S754_finite s (xO m) e.
Proof.
  intros B E. rewrite two_binary64.
  unfold bounded, canonical_mantissa in B. apply andb_true_iff in B. destruct B as [C _].
  apply Z.eqb_eq in C.
  unfold F64.mul, SFmul. rewrite Pos.mul_comm, xorb_false_r.
  destruct (Z.leb_spec (-1074) (Zpos (digits2_pos m) + e - 53)) as [N | S].
  - change (Zpos (4503599627370496 * m)) with (Zpos (Pos.iter xO m 52)).
    rewrite binary_round_aux_shifted;
      [ f_equal; lia
      | unfold fexp, emin, F64.prec, F64.emax in *; lia
      | unfold fexp, emin, F64.prec, F64.emax in *; lia ].
  - change (Zpos (4503599627370496 * m)) with (Zpos (Pos.iter xO (xO m) 51)).
    rewrite binary_round_aux_shifted;
      [ f_equal; unfold fexp, emin, F64.prec, F64.emax in *; lia
      | unfold fexp, emin, F64.prec, F64.emax in *; cbn [digits2_pos]; lia
      | unfold fexp, emin, F64.prec, F64.emax in *; lia ].
Qed.

(** Halving the double of a double below the top binade gives the double
    back: [0.5 * (wager * 2)] is [wager]. *)
Lemma mul_half_double (s : bool) (m : positive) (e : Z) :
  bounded F64.prec F64.emax m e = true -> (e < F64.emax - F64.prec)%Z ->
  F64.mul (F64.of_Q (1 # 2)) (F64.mul (S754_finite s m e) (F64.of_Z 2))
  = S754_finite s m e.
Proof.
  intros B E. rewrite (mul_two s m e B E), half_binary64.
  unfold bounded, canonical_mantissa in B. apply andb_true_iff in B. destruct B as [C _].
  apply Z.eqb_eq in C.
  destruct (Z.leb_spec (-1074) (Zpos (digits2_pos m) + e - 53)) as [N | S];
    unfold F64.mul, SFmul; rewrite xorb_false_l.
  - change (Zpos (4503599627370496 * m)) with (Zpos (Pos.iter xO m 52)).
    rewrite binary_round_aux_shifted;
      [ f_equal; lia
      | unfold fexp, emin, F64.prec, F64.emax in *; lia
      | unfold fexp, emin, F64.prec, F64.emax in *; lia ].
  - change (Zpos (4503599627370496 * m~0)) with (Zpos (Pos.iter xO m 53)).
    rewrite binary_round_aux_shifted;
      [ f_equal; unfold fexp, emin, F64.prec, F64.emax in *; lia
      | unfold fexp, emin, F64.prec, F64.emax in *; lia
      | unfold fexp, emin, F64.prec, F64.emax in *; lia ].
Qed.

Lemma iter_pos_comm {A : Type} (f : A -> A) (k : positive) :
  forall x, iter_pos f k (f x) = f (iter_pos f k x).
Proof.
  induction k as [k IH | k IH | ]; intros x; simpl.
  - rewrite !IH. reflexivity.
  - rewrite !IH. reflexivity.
  - reflexivity.
Qed.

Lemma iter_pos_succ {A : Type} (f : A -> A) (k : positive) :
  forall x, iter_pos f (Pos.succ k) x = iter_pos f k (f x).
Proof.
  induction k as [k IH | k IH | ]; intros x; simpl.
  - rewrite !IH. rewrite <- !iter_pos_comm. reflexivity.
  - reflexivity.
  - reflexivity.
Qed.

(** One trailing zero bit of the mantissa can be moved into the exponent
    when the mantissa is to be shifted anyway. *)
Lemma binary_round_aux_xO (s : bool) (x : positive) (e0 : Z) :
  (e0 < fexp F64.prec F64.emax (Zpos (digits2_pos x) + 1 + e0))%Z ->
  binary_round_aux F64.prec F64.emax s (Zpos (xO x)) e0 loc_Exact
  = binary_round_aux F64.prec F64.emax s (Zpos x) (e0 + 1) loc_Exact.
Proof.
  intros H. unfold binary_round_aux.
  assert (E : shr_fexp F64.prec F64.emax (Zpos (xO x)) e0 loc_Exact
              = shr_fexp F64.prec F64.emax (Zpos x) (e0 + 1) loc_Exact).
  { unfold shr_fexp. cbn [Zdigits2 digits2_pos shr_record_of_loc].
    rewrite Pos2Z.inj_succ.
    replace (Z.succ (Zpos (digits2_pos x)) + e0)%Z
      with (Zpos (digits2_pos x) + 1 + e0)%Z by lia.
    replace (Zpos (digits2_pos x) + (e0 + 1))%Z
      with (Zpos (digits2_pos x) + 1 + e0)%Z by lia.
    set (f := fexp F64.prec F64.emax (Zpos (digits2_pos x) + 1 + e0)) in *.
    destruct (f - e0)%Z as [ | k | k] eqn:D; try lia.
    destruct (Pos.eq_dec k 1) as [-> | N].
    - replace (f - (e0 + 1))%Z with 0%Z by lia. reflexivity.
    - replace (f - (e0 + 1))%Z with (Zpos (Pos.pred k)) by lia.
      unfold shr. f_equal; [ | lia].
      rewrite <- (Pos.succ_pred k N) at 1. rewrite iter_pos_succ. reflexivity. }
  rewrite E. reflexivity.
Qed.

(** [(p * 2) * w] and [p * (w * 2)] are the same double, for a normal
    [p] below [1] and a [w] below the top binade. *)
Lemma mul_two_moves (sp s : bool) (mp m : positive) (ep e : Z) :
  F64.mul (S754_finite sp mp ep) (F64.of_Z 2) = S754_finite sp mp (ep + 1) ->
  (ep < 0)%Z ->
  bounded F64.prec F64.emax m e = true -> (e < F64.emax - F64.prec)%Z ->
  F64.mul (F64.mul (S754_finite sp mp ep) (F64.of_Z 2)) (S754_finite s m e)
  = F64.mul (S754_finite sp mp ep) (F64.mul (S754_finite s m e) (F64.of_Z 2)).
Proof.
  intros P N B E. rewrite P, (mul_two s m e B E).
  unfold bounded, canonical_mantissa in B. apply andb_true_iff in B. destruct B as [C _].
  apply Z.eqb_eq in C.
  destruct (Z.leb_spec (-1074) (Zpos (digits2_pos m) + e - 53)) as [A | S].
  - unfold F64.mul, SFmul. f_equal. lia.
  - unfold F64.mul, SFmul. rewrite Pos.mul_xO_r.
    rewrite binary_round_aux_xO; [f_equal; lia | ].
    unfold fexp, emin, F64.prec, F64.emax in *. lia.
Qed.

(** The product of the code, [prob * (wager * 2)], is the product of the
    formula, [p * 2 * wager], for every probability of the table and
    every wager below the top binade. *)
Lemma cashout_product_order (a b : Z) (w : F64.t) :
  valid_binary F64.prec F64.emax w = true ->
  F64.below_top_binade w ->
  F64.mul (F64.of_Q (cashout_prob a b)) (F64.mul w (F64.of_Z 2))
  = F64.mul (F64.mul (F64.of_Q (cashout_prob a b)) (F64.of_Z 2)) w.
Proof.
  intros V B.
  destruct (cashout_prob_binary64 a b) as (mp & ep & -> & D & N).
  destruct w as [s | s | | s m e].
  - rewrite D, two_binary64. destruct s; reflexivity.
  - rewrite D, two_binary64. destruct s; reflexivity.
  - rewrite D. reflexivity.
  - symmetry. apply mul_two_moves; assumption.
Qed.

(** On binary64, too, the value beyond the table is not the value of the
    recurrence: [9.5] against [1.19] at [needSelf = 4], [needOpp = 1]. *)
Lemma cashout_binary64_beyond_table_differs :
  calculate_cashout_binary64 0 3 4 (F64.of_Z 10) = F64.of_Q (950 # 100)
  /\ spec_cashout_binary64 (spec_P 4 1) (F64.of_Z 10) = F64.of_Q (119 # 100)
  /\ F64.of_Q (950 # 100) <> F64.of_Q (119 # 100).
Proof.
  split; [vm_compute; reflexivity | split; [vm_compute; reflexivity | ]].
  vm_compute. discriminate.
Qed.

End Binary64.

(** C2, as amended.  For every mid-series state and every wager that is
    a double with [0 <= wager < 2^1023] (or [inf]), the cashout value is
    [round(p * 2 * wager * 0.95, 2)], evaluated on binary64 from left to
    right, where [p] is the value of the negative-binomial recurrence
    when both remaining needs are at most 3, whatever the target, and
    [0.5] when a remaining need exceeds 3.  For [needSelf = 1],
    [needOpp = 2] and [wager = 10] the value is [14.25]; for the same
    state and [wager = 3] it is [4.27], where rounding the exact product
    [4.275] would give [4.28]. *)
Theorem cashout_binary64_matches_recurrence (p b t : Z) (w : F64.t) :
  (p < t)%Z -> (b < t)%Z ->
  F64.signed false w ->
  valid_binary F64.prec F64.emax w = true ->
  F64.below_top_binade w ->
  ((t - p <= 3)%Z -> (t - b <= 3)%Z ->
   calculate_cashout_binary64 p b t w
   = spec_cashout_binary64 (spec_P (Z.to_nat (t - p)) (Z.to_nat (t - b))) w)
  /\ ((3 < t - p)%Z \/ (3 < t - b)%Z ->
      calculate_cashout_binary64 p b t w = spec_cashout_binary64 (1 # 2) w)
  /\ calculate_cashout_binary64 2 1 3 (F64.of_Z 10) = F64.of_Q (1425 # 100)
  /\ calculate_cashout_binary64 2 1 3 (F64.of_Z 3) = F64.of_Q (427 # 100).
Proof.
  intros Hp Hb Hw V B.
  assert (E : calculate_cashout_binary64 p b t w
              = spec_cashout_binary64 (cashout_prob (t - p) (t - b)) w).
  { rewrite calculate_cashout_binary64_mid by assumption.
    rewrite max0_of_signed_false by (apply cashout_val_binary64_signed, Hw).
    unfold spec_cashout_binary64. rewrite (cashout_product_order _ _ w V B).
    reflexivity. }
  refine (conj _ (conj _ (conj _ _))).
  - intros Ha Hb'. rewrite E. unfold spec_cashout_binary64.
    rewrite cashout_prob_binary64_is_spec_P by lia. reflexivity.
  - intros H. rewrite E, (cashout_prob_beyond_table _ _ H). reflexivity.
  - vm_compute. reflexivity.
  - vm_compute. reflexivity.
Qed.

Lemma cashout_binary64_matches_recurrence_witness :
  ((5 - 3 <= 3)%Z -> (5 - 4 <= 3)%Z ->
   calculate_cashout_binary64 3 4 5 (F64.of_Q (1337 # 100))
   = spec_cashout_binary64 (spec_P (Z.to_nat (5 - 3)) (Z.to_nat (5 - 4)))
                           (F64.of_Q (1337 # 100)))
  /\ ((3 < 5 - 3)%Z \/ (3 < 5 - 4)%Z ->
      calculate_cashout_binary64 3 4 5 (F64.of_Q (1337 # 100))
      = spec_cashout_binary64 (1 # 2) (F64.of_Q (1337 # 100)))
  /\ calculate_cashout_binary64 2 1 3 (F64.of_Z 10) = F64.of_Q (1425 # 100)
  /\ calculate_cashout_binary64 2 1 3 (F64.of_Z 3) = F64.of_Q (427 # 100).
Proof.
  apply (cashout_binary64_matches_recurrence 3 4 5 (F64.of_Q (1337 # 100))).
  - lia.
  - lia.
  - vm_compute. reflexivity.
  - vm_compute. reflexivity.
  - vm_compute. reflexivity.
Defined.

(** C8, counterexample.  In a series to four points and a wager of [10],
    the state 3-2 (difference 1) is worth [14.25] and the state 3-0
    (difference 3) is worth [9.50]: the larger lead has the smaller
    cashout value. *)
Lemma cashout_not_monotone_target4 :
  (3 - 2 < 3 - 0)%Z /\
  calculate_cashout 3 2 4 10 == 1425 # 100 /\
  calculate_cashout 3 0 4 10 == 950 # 100 /\
  ~ calculate_cashout 3 2 4 10 <= calculate_cashout 3 0 4 10.
Proof.
  repeat split; try reflexivity.
  vm_compute. intros H. apply H. reflexivity.
Qed.

(** C8, as amended.  For a fixed target of at most three points and a fixed
    wager, and two mid-series states, the state with the strictly smaller
    difference [selfPoints - opponentPoints] has a cashout value that is
    not larger. *)
Theorem cashout_monotone_upto3 (t p1 b1 p2 b2 : Z) (w : Q) :
  (1 <= t <= 3)%Z ->
  (0 <= p1 < t)%Z -> (0 <= b1 < t)%Z -> (0 <= p2 < t)%Z -> (0 <= b2 < t)%Z ->
  (p1 - b1 < p2 - b2)%Z ->
  calculate_cashout p1 b1 t w <= calculate_cashout p2 b2 t w.
Proof.
  intros Ht Hp1 Hb1 Hp2 Hb2 D.
  rewrite !calculate_cashout_mid by lia.
  apply cashout_val_mono.
  - pose proof (cashout_prob_range (t - p1) (t - b1)). lra.
  - apply cashout_prob_mono_upto3; assumption.
Qed.

Lemma cashout_monotone_upto3_witness :
  calculate_cashout 1 2 3 10 <= calculate_cashout 2 1 3 10.
Proof.
  apply (cashout_monotone_upto3 3 1 2 2 1 10); lia.
Defined.




(** ** The store *)

Section DictFacts.

Lemma dict_get_set_same (k : string) (v : challenge) (d : Dict.t) :
  Dict.get k (Dict.set k v d) = Some v.
Proof.
  induction d as [ | [k' v'] d IH]; simpl.
  - rewrite String.eqb_refl. reflexivity.
  - destruct (String.eqb_spec k k') as [E | N]; simpl.
    + rewrite String.eqb_refl. reflexivity.
    + destruct (String.eqb_spec k k'); [contradiction | exact IH].
Qed.

Lemma dict_get_set_other (k k0 : string) (v : challenge) (d : Dict.t) :
  k0 <> k -> Dict.get k0 (Dict.set k v d) = Dict.get k0 d.
Proof.
  intros N. induction d as [ | [k' v'] d IH]; simpl.
  - destruct (String.eqb_spec k0 k); [contradiction | reflexivity].
  - destruct (String.eqb_spec k k') as [E | N']; simpl.
    + subst k'. destruct (String.eqb_spec k0 k); [contradiction | reflexivity].
    + destruct (String.eqb_spec k0 k'); [reflexivity | exact IH].
Qed.

Lemma dict_get_in_keys (k : string) (d : Dict.t) :
  Dict.get k d <> None <-> In k (Dict.keys d).
Proof.
  induction d as [ | [k' v'] d IH]; simpl.
  - split; [congruence | contradiction].
  - destruct (String.eqb_spec k k') as [E | N].
    + split; [intros _; left; congruence | discriminate].
    + rewrite IH. split; [tauto | intros [E | I]; [congruence | exact I]].
Qed.

(** Writing to a key that is there keeps the keys and their order. *)
Lemma dict_keys_set_present (k : string) (v : challenge) (d : Dict.t) :
  Dict.get k d <> None -> Dict.keys (Dict.set k v d) = Dict.keys d.
Proof.
  induction d as [ | [k' v'] d IH]; simpl.
  - congruence.
  - destruct (String.eqb_spec k k') as [E | N]; simpl; intros H.
    + congruence.
    + f_equal. apply IH. exact H.
Qed.

(** Deleting a key that is there succeeds, removes exactly that key and
    leaves a dict. *)
Lemma dict_del_present (k : string) (d : Dict.t) :
  NoDup (Dict.keys d) -> Dict.get k d <> None ->
  exists d', Dict.del k d = Some d'
             /\ Dict.get k d' = None
             /\ (forall k0, k0 <> k -> Dict.get k0 d' = Dict.get k0 d)
             /\ NoDup (Dict.keys d').
Proof.
  induction d as [ | [k' v'] d IH]; simpl; intros ND H.
  - congruence.
  - inversion ND as [ | x l NI ND' ]; subst.
    destruct (String.eqb_spec k k') as [E | N].
    + subst k'. exists d. repeat split.
      * destruct (Dict.get k d) eqn:G; [ | reflexivity].
        exfalso. apply NI. apply dict_get_in_keys. congruence.
      * intros k0 N0. destruct (String.eqb_spec k0 k); [contradiction | reflexivity].
      * exact ND'.
    + destruct (IH ND' H) as (d' & D & G & O & ND'').
      rewrite D. exists ((k', v') :: d'). repeat split.
      * simpl. destruct (String.eqb_spec k k'); [contradiction | exact G].
      * intros k0 N0. simpl. destruct (String.eqb_spec k0 k'); [reflexivity | auto].
      * simpl. constructor; [ | exact ND''].
        intros I. apply NI. apply dict_get_in_keys.
        apply dict_get_in_keys in I. rewrite <- (O k'); [exact I | congruence].
Qed.

(** Deleting a key that is absent is the [KeyError]. *)
Lemma dict_del_absent (k : string) (d : Dict.t) :
  Dict.get k d = None -> Dict.del k d = None.
Proof.
  induction d as [ | [k' v'] d IH]; simpl; intros H.
  - reflexivity.
  - destruct (String.eqb_spec k k'); [discriminate | ].
    rewrite (IH H). reflexivity.
Qed.

Lemma dict_set_set (k : string) (a b : challenge) (d : Dict.t) :
  Dict.set k a (Dict.set k b d) = Dict.set k a d.
Proof.
  induction d as [ | [k' v'] d IH]; simpl.
  - rewrite String.eqb_refl. reflexivity.
  - destruct (String.eqb_spec k k') as [E | N]; simpl.
    + rewrite String.eqb_refl. reflexivity.
    + destruct (String.eqb_spec k k'); [contradiction | ]. rewrite IH. reflexivity.
Qed.

(** Deleting a key right after writing it. *)
Lemma dict_del_after_set (k : string) (v : challenge) (d : Dict.t) :
  NoDup (Dict.keys d) -> Dict.get k d <> None ->
  exists d', Dict.del k (Dict.set k v d) = Some d'
             /\ Dict.get k d' = None
             /\ (forall k0, k0 <> k -> Dict.get k0 d' = Dict.get k0 d)
             /\ NoDup (Dict.keys d').
Proof.
  intros ND H.
  destruct (dict_del_present k (Dict.set k v d)) as (d' & D & G & O & ND').
  - rewrite dict_keys_set_present by exact H. exact ND.
  - rewrite dict_get_set_same. discriminate.
  - exists d'. repeat split; try assumption.
    intros k0 N0. rewrite (O k0 N0). apply dict_get_set_other. exact N0.
Qed.

End DictFacts.

(** ** SessionLifecycle *)

Section Lifecycle.

(** C1, counterexample.  Scenario A on the code: the player is credited
    [19.50] and the session is removed, but the house balance goes down by
    [payout - wager = 9.50]; it does not go up by [0.50]. *)
Lemma scenario_A_house_goes_down :
  Dict.contains "v2_bot_dice_1_1000" (pending_pvp scenario_A_started) = true /\
  balance scenario_A_started 1 == 90 /\
  balance scenario_A_settled 1 == balance scenario_A_started 1 + (1950 # 100) /\
  Dict.get "v2_bot_dice_1_1000" (pending_pvp scenario_A_settled) = None /\
  house_balance scenario_A_settled == house_balance scenario_A_started - (950 # 100) /\
  ~ house_balance scenario_A_settled == house_balance scenario_A_started + (50 # 100).
Proof.
  repeat split; try reflexivity.
  vm_compute. discriminate.
Qed.

(** The round that the player wins and that ends the series, resolved on
    the reloaded store. *)
Lemma resolve_round_player_wins (s : bot) (uid : Z) (cid : string) (ch2 : challenge)
    (p_tot b_tot p b n : Z) (g md : string) :
  NoDup (Dict.keys (pending_pvp s)) ->
  Dict.get cid (pending_pvp s) = Some ch2 ->
  p_pts ch2 = Some p -> b_pts ch2 = Some b -> game ch2 = Some g ->
  rolls ch2 = Some n -> mode ch2 = Some md ->
  round_win md p_tot b_tot = Some true ->
  (get_or 1 (pts ch2) <= p + 1)%Z ->
  exists d',
    resolve_round uid cid ch2 p_tot b_tot s
    = (mkBot (fun u => if (u =? uid)%Z then balance s uid + wager ch2 * (39 # 20)
                       else balance s u)
             (house_balance s + - (wager ch2 * (39 # 20) - wager ch2)) d', Ok tt)
    /\ Dict.get cid d' = None
    /\ (forall k, k <> cid -> Dict.get k d' = Dict.get k (pending_pvp s)).
Proof.
  intros OK G Pp Bp Ga Ro Mo Win Tgt.
  unfold resolve_round, game_over_message. rewrite Mo. cbn [get_or]. rewrite Win, Pp.
  run_effects. read_session. rewrite Bp, Ga, Ro, Mo.
  destruct (Z.geb_spec (p + 1) (get_or 1%Z (pts ch2))) as [_ | C]; [ | lia].
  run_effects.
  destruct (dict_del_after_set cid (set_p_pts (p + 1) ch2) (pending_pvp s) OK)
    as (d' & D & Gd & Od & _).
  { rewrite G. discriminate. }
  rewrite D. exists d'. split; [reflexivity | split; assumption].
Qed.

(** The same round on a persisted session without the key [game]: the
    player is paid, the keyboard of the "Game over!" message raises
    [KeyError], and the session is neither removed nor persisted. *)
Lemma win_without_game_key_raises (s : casino) (uid : Z) (cid : string)
    (ch row_ch : challenge) (p_dice b_dice : nat -> Z) (n p b : Z) :
  Dict.get cid (pending_pvp (bot_of s)) = Some ch ->
  player ch = Some uid ->
  rolls ch = Some n ->
  Dict.get cid (db_pending_pvp s) = Some row_ch ->
  p_pts row_ch = Some p ->
  b_pts row_ch = Some b ->
  game row_ch = None ->
  round_result ch row_ch p_dice b_dice = Some true ->
  (get_or 1 (pts row_ch) <= p + 1)%Z ->
  exists s',
    v2_send_emoji uid cid p_dice b_dice s = (s', Raised)
    /\ balance (bot_of s') uid == balance (bot_of s) uid + wager row_ch * (39 # 20)
    /\ Dict.get cid (pending_pvp (bot_of s')) = Some (set_p_pts (p + 1) row_ch)
    /\ db_pending_pvp s' = db_pending_pvp s.
Proof.
  intros G Pl Ro GR Pp Bp Ga Win Tgt.
  unfold round_result, player_round_total, bot_round_total in Win.
  rewrite Ro in Win. cbn [get_or] in Win.
  unfold v2_send_emoji, owned_by. run_db_effects.
  rewrite G. cbv beta iota zeta. rewrite Pl, Z.eqb_refl. cbv beta iota zeta delta [negb].
  read_session. rewrite Ro. run_db_effects.
  rewrite GR. cbv beta iota zeta.
  unfold resolve_round, game_over_message.
  change (get_or 1%Z (Some n)) with n. rewrite Win, Pp.
  run_effects. read_session. rewrite Bp, Ga.
  destruct (Z.geb_spec (p + 1) (get_or 1%Z (pts row_ch))) as [_ | C]; [ | lia].
  run_db_effects. eexists. split; [reflexivity | ].
  cbn [pending_pvp balance house_balance bot_of db_pending_pvp].
  rewrite Z.eqb_refl, dict_get_set_same. repeat split; reflexivity.
Qed.

(** C1, as amended.  When the player of a bot series wins the round that
    brings the player's points to the target (any mode, rolls per round
    and target), on a persisted session that holds the keys the handler
    formats into its "Game over!" message ([p_pts], [b_pts], [game],
    [rolls], [mode]), the handler credits the player with exactly
    [wager * 1.95], leaves every other balance alone, lowers the house
    balance by [payout - wager = wager * 0.95], and removes the session.
    The handler reloads the store from the persisted row before it
    resolves the round, so the store it leaves, in memory and persisted,
    is the persisted row without the session.  In Scenario A that is a
    credit of [19.50] and a house change of [-9.50]. *)
Theorem bot_series_win_settlement (s : casino) (uid : Z) (cid : string)
    (ch row_ch : challenge) (p_dice b_dice : nat -> Z) (n p b n' : Z) (g md : string) :
  NoDup (Dict.keys (db_pending_pvp s)) ->
  Dict.get cid (pending_pvp (bot_of s)) = Some ch ->
  player ch = Some uid ->
  rolls ch = Some n ->
  Dict.get cid (db_pending_pvp s) = Some row_ch ->
  p_pts row_ch = Some p ->
  b_pts row_ch = Some b ->
  game row_ch = Some g ->
  rolls row_ch = Some n' ->
  mode row_ch = Some md ->
  round_result ch row_ch p_dice b_dice = Some true ->
  (get_or 1 (pts row_ch) <= p + 1)%Z ->
  exists s',
    v2_send_emoji uid cid p_dice b_dice s = (s', Ok Done)
    /\ balance (bot_of s') uid == balance (bot_of s) uid + wager row_ch * (39 # 20)
    /\ (forall u, u <> uid -> balance (bot_of s') u = balance (bot_of s) u)
    /\ house_balance (bot_of s')
       == house_balance (bot_of s) - (wager row_ch * (39 # 20) - wager row_ch)
    /\ Dict.get cid (pending_pvp (bot_of s')) = None
    /\ (forall k, k <> cid ->
                  Dict.get k (pending_pvp (bot_of s')) = Dict.get k (db_pending_pvp s))
    /\ db_pending_pvp s' = pending_pvp (bot_of s').
Proof.
  intros OK G Pl Ro GR Pp Bp Ga Ro' Mo Win Tgt.
  unfold round_result, player_round_total, bot_round_total in Win.
  rewrite Ro, Mo in Win. cbn [get_or] in Win.
  unfold v2_send_emoji, owned_by. run_db_effects.
  rewrite G. cbv beta iota zeta. rewrite Pl, Z.eqb_refl. cbv beta iota zeta delta [negb].
  read_session. rewrite Ro. run_db_effects.
  rewrite GR. cbv beta iota zeta.
  match goal with
  | |- context [resolve_round uid cid row_ch ?pt ?bt ?s0] =>
      destruct (resolve_round_player_wins s0 uid cid row_ch pt bt p b n' g md)
        as (d' & R & Gd & Od); try assumption
  end.
  rewrite R. run_db_effects. eexists. split; [reflexivity | ].
  cbn [pending_pvp balance house_balance bot_of db_pending_pvp].
  refine (conj _ (conj _ (conj _ (conj Gd (conj Od eq_refl))))).
  - rewrite Z.eqb_refl. reflexivity.
  - intros u N. destruct (Z.eqb_spec u uid); [contradiction | reflexivity].
  - ring.
Qed.

Lemma bot_series_win_settlement_witness :
  exists s',
    v2_send_emoji 1 "v2_bot_dice_1_1000" (fun _ => 6%Z) (fun _ => 3%Z)
      (persisted scenario_A_started)
    = (s', Ok Done)
    /\ balance (bot_of s') 1
       == balance (bot_of (persisted scenario_A_started)) 1
          + wager (new_v2_bot_challenge 1 "dice" 10 1 "normal" 1 1000) * (39 # 20)
    /\ (forall u, u <> 1%Z ->
                  balance (bot_of s') u = balance (bot_of (persisted scenario_A_started)) u)
    /\ house_balance (bot_of s')
       == house_balance (bot_of (persisted scenario_A_started))
          - (wager (new_v2_bot_challenge 1 "dice" 10 1 "normal" 1 1000) * (39 # 20)
             - wager (new_v2_bot_challenge 1 "dice" 10 1 "normal" 1 1000))
    /\ Dict.get "v2_bot_dice_1_1000" (pending_pvp (bot_of s')) = None
    /\ (forall k, k <> "v2_bot_dice_1_1000"%string ->
                  Dict.get k (pending_pvp (bot_of s'))
                  = Dict.get k (db_pending_pvp (persisted scenario_A_started)))
    /\ db_pending_pvp s' = pending_pvp (bot_of s').
Proof.
  apply (bot_series_win_settlement (persisted scenario_A_started) 1 "v2_bot_dice_1_1000"
           (new_v2_bot_challenge 1 "dice" 10 1 "normal" 1 1000)
           (new_v2_bot_challenge 1 "dice" 10 1 "normal" 1 1000)
           (fun _ => 6%Z) (fun _ => 3%Z) 1 0 0 1 "dice" "normal").
  - vm_compute. constructor; [intros [] | constructor].
  - reflexivity.
  - reflexivity.
  - reflexivity.
  - reflexivity.
  - reflexivity.
  - reflexivity.
  - reflexivity.
  - reflexivity.
  - reflexivity.
  - reflexivity.
  - vm_compute. discriminate.
Defined.

(** The settlement at the end of [generic_v2_pvp_loop] credits the winner
    with the wager, not with [wager * 1.95]; [payout] is computed and not
    used.  The house balance is not touched. *)
Lemma pvp_settlement_credits_the_wager :
  answer (generic_v2_pvp_settle "v2_pvp_dice_1_1000") pvp_series_won = Ok Done /\
  balance (exec (generic_v2_pvp_settle "v2_pvp_dice_1_1000") pvp_series_won) 1
  == balance pvp_series_won 1 + 10 /\
  house_balance (exec (generic_v2_pvp_settle "v2_pvp_dice_1_1000") pvp_series_won)
  == house_balance pvp_series_won /\
  Dict.get "v2_pvp_dice_1_1000"
    (pending_pvp (exec (generic_v2_pvp_settle "v2_pvp_dice_1_1000") pvp_series_won)) = None.
Proof.
  repeat split; reflexivity.
Qed.




(** [decline] never touches the ledger: whoever asks, and whatever the
    answer, all balances and the house balance stay as they were. *)
Lemma decline_leaves_ledger (s : bot) (uid : Z) (cid : string) :
  balance (exec (decline uid cid) s) = balance s
  /\ house_balance (exec (decline uid cid) s) = house_balance s.
Proof.
  unfold exec, decline. run_effects.
  destruct (Dict.get cid (pending_pvp s)) as [ch | ]; [ | split; reflexivity].
  destruct (challenger ch) as [owner | ]; [ | split; reflexivity].
  destruct (owner =? uid)%Z; [ | split; reflexivity].
  destruct (Dict.del cid (pending_pvp s)); split; reflexivity.
Qed.

(** A request of someone other than the creator is refused and changes
    nothing. *)
Lemma decline_by_other_refused (s : bot) (uid owner : Z) (cid : string) (ch : challenge) :
  Dict.get cid (pending_pvp s) = Some ch -> challenger ch = Some owner -> uid <> owner ->
  decline uid cid s = (s, Ok Refused).
Proof.
  intros G C N. unfold decline. run_effects. rewrite G, C.
  destruct (Z.eqb_spec owner uid); [congruence | reflexivity].
Qed.

(** C5, the code at the failing input.  User 1 holds [100], opens a dice
    challenge for [5] (balance [95]); nobody accepts.  A cancel request of
    user 2 is refused and changes nothing.  The cancel request of user 1
    removes the session and leaves the balance at [95]: the escrowed
    wager is not refunded.  The sweeper, on the same unaccepted challenge,
    does refund it. *)
Theorem decline_by_creator_keeps_escrow :
  balance fresh_bot 1 == 100 /\
  balance open_challenge_created 1 == 95 /\
  Dict.contains "dice_open_1_1000" (pending_pvp open_challenge_created) = true /\
  decline 2 "dice_open_1_1000" open_challenge_created
  = (open_challenge_created, Ok Refused) /\
  answer (decline 1 "dice_open_1_1000") open_challenge_created = Ok Done /\
  Dict.get "dice_open_1_1000"
    (pending_pvp (exec (decline 1 "dice_open_1_1000") open_challenge_created)) = None /\
  balance (exec (decline 1 "dice_open_1_1000") open_challenge_created) 1 == 95 /\
  ~ balance (exec (decline 1 "dice_open_1_1000") open_challenge_created) 1 == 100 /\
  balance (check_expired_challenges 2000 300 open_challenge_created) 1 == 100.
Proof.
  repeat split; try reflexivity.
  vm_compute. discriminate.
Qed.

End Lifecycle.

(** ** Session ids *)

Section SessionIds.

Lemma py_split_nonempty (sep : ascii) (s : string) : py_split sep s <> [].
Proof.
  destruct s as [ | c s]; simpl; [discriminate | ].
  destruct (Ascii.eqb c sep); [discriminate | ].
  destruct (py_split sep s); discriminate.
Qed.

(** Splitting around a separator splits the two sides. *)
Lemma py_split_app (sep : ascii) (a b : string) :
  py_split sep (a ++ String sep b) = py_split sep a ++ py_split sep b.
Proof.
  induction a as [ | c a IH]; simpl.
  - rewrite Ascii.eqb_refl. reflexivity.
  - destruct (Ascii.eqb c sep).
    + rewrite IH. reflexivity.
    + rewrite IH. pose proof (py_split_nonempty sep a) as NE.
      destruct (py_split sep a) as [ | tok toks]; [contradiction | reflexivity].
Qed.

Lemma py_split_free (sep : ascii) (s : string) :
  free_of sep s = true -> py_split sep s = [s].
Proof.
  induction s as [ | c s IH]; simpl; [reflexivity | ].
  destruct (Ascii.eqb c sep); simpl; [discriminate | ].
  intros F. rewrite (IH F). reflexivity.
Qed.

Lemma string_of_uint_free (d : Decimal.uint) :
  free_of "_" (NilEmpty.string_of_uint d) = true.
Proof.
  induction d; simpl; try rewrite IHd; reflexivity.
Qed.

(** [str(n)] has no underscore. *)
Lemma py_str_free (n : Z) : free_of "_" (py_str n) = true.
Proof.
  unfold py_str, NilZero.string_of_int, NilZero.string_of_uint.
  destruct (Z.to_int n) as [d | d]; destruct d;
    try reflexivity; simpl; apply string_of_uint_free.
Qed.

Lemma py_split_id_tail (pre : string) (user_id : Z) (now : Q) :
  py_split "_" (pre ++ id_tail user_id now)
  = py_split "_" pre ++ [py_str user_id; py_str (py_int now)].
Proof.
  unfold id_tail. change ("_" ++ py_str user_id ++ "_" ++ py_str (py_int now))%string
    with (String "_" (py_str user_id ++ String "_" (py_str (py_int now)))).
  rewrite py_split_app, py_split_app.
  rewrite (py_split_free "_" (py_str user_id)) by apply py_str_free.
  rewrite (py_split_free "_" (py_str (py_int now))) by apply py_str_free.
  reflexivity.
Qed.

Lemma string_app_assoc (a b c : string) : ((a ++ b) ++ c = a ++ (b ++ c))%string.
Proof.
  induction a as [ | x a IH]; simpl; [reflexivity | rewrite IH; reflexivity].
Qed.

(** The specification's format has exactly three tokens. *)
Lemma spec_id_format_needs_three (s : string) :
  List.length (py_split "_" s) <> 3%nat -> spec_id_format s = false.
Proof.
  unfold spec_id_format.
  destruct (py_split "_" s) as [ | a [ | b [ | c [ | d l]]]]; simpl; intros H;
    try reflexivity.
  contradiction.
Qed.

(** Every creation site writes at least two tokens before the creator id. *)
Lemma kind_tokens_two (site : creation_site) :
  (2 <= List.length (kind_tokens site))%nat.
Proof.
  destruct site as [ | | | g | g | g]; simpl; try lia.
  rewrite length_app. simpl.
  pose proof (py_split_nonempty "_" g).
  destruct (py_split "_" g); [contradiction | simpl; lia].
Qed.

(** C7, counterexample.  The ids the three cited creation sites make for
    user 7 at second 1000 are [dice_open_7_1000], [v2_bot_dice_7_1000]
    and [v2_pvp_dice_7_1000]: none is [<kind>_<creatorId>_<epoch>] with
    [kind] one of [open], [pvp], [bot], while [bot_7_1000] would be. *)
Lemma created_ids_not_in_spec_format :
  session_id OpenDice 7 1000 = "dice_open_7_1000"%string /\
  session_id (GenericBot "dice") 7 1000 = "v2_bot_dice_7_1000"%string /\
  session_id (GenericPvp "dice") 7 1000 = "v2_pvp_dice_7_1000"%string /\
  spec_id_format (session_id OpenDice 7 1000) = false /\
  spec_id_format (session_id (GenericBot "dice") 7 1000) = false /\
  spec_id_format (session_id (GenericPvp "dice") 7 1000) = false /\
  spec_id_format "bot_7_1000" = true.
Proof.
  repeat split; reflexivity.
Qed.

(** C7, as amended.  Every session id the system creates, split at the
    underscores, is the tokens of its creation site ([v2 bot],
    [v2 bot <game>], [v2 pvp <game>], [dice open] or [<game_type> open])
    followed by the creator id and the creation epoch seconds, both in
    decimal: the kind word [open], [pvp] or [bot] is there, but it is not
    the first and only token before the creator id, and no created id
    has the three-token form [<kind>_<creatorId>_<epoch>]. *)
Theorem session_id_tokens (site : creation_site) (user_id : Z) (now : Q) :
  py_split "_" (session_id site user_id now)
  = kind_tokens site ++ [py_str user_id; py_str (py_int now)]
  /\ (In "open"%string (kind_tokens site) \/ In "pvp"%string (kind_tokens site)
      \/ In "bot"%string (kind_tokens site))
  /\ spec_id_format (session_id site user_id now) = false.
Proof.
  assert (E : py_split "_" (session_id site user_id now)
              = kind_tokens site ++ [py_str user_id; py_str (py_int now)]).
  { destruct site as [ | | | g | g | g]; unfold session_id, kind_tokens.
    - rewrite py_split_id_tail. reflexivity.
    - rewrite py_split_id_tail. reflexivity.
    - rewrite py_split_id_tail. reflexivity.
    - rewrite <- string_app_assoc, py_split_id_tail.
      change (g ++ "_open")%string with (g ++ String "_" "open")%string.
      rewrite py_split_app. reflexivity.
    - change ("v2_bot_" ++ g ++ id_tail user_id now)%string
        with ("v2_bot" ++ String "_" (g ++ id_tail user_id now))%string.
      rewrite py_split_app, py_split_id_tail. reflexivity.
    - change ("v2_pvp_" ++ g ++ id_tail user_id now)%string
        with ("v2_pvp" ++ String "_" (g ++ id_tail user_id now))%string.
      rewrite py_split_app, py_split_id_tail. reflexivity. }
  split; [exact E | split].
  - destruct site; simpl; try (rewrite in_app_iff; simpl); tauto.
  - apply spec_id_format_needs_three. rewrite E, length_app. simpl.
    pose proof (kind_tokens_two site). lia.
Qed.

End SessionIds.

(** ** ExpirationSweeper *)

Section SweeperFacts.

Variable now : Q.
Variable limit : Z.

(** The auto-cashout branch for one expired bot series: the player is
    credited with the cashout value of the current score, the house
    balance changes by [-(value - wager)], the store is not touched yet,
    and the session id is appended to [expired_challenges] twice (lines
    308 and 325). *)
Lemma sweep_v2_auto_cashout (cid : string) (ch : challenge) (expired : list string)
    (s : bot) (ws : Q) (pid p b t : Z) :
  String.prefix "v2_bot_" cid = true ->
  wait_started ch = Some ws ->
  Qgt_bool (now - ws) (inject_Z (timeout_limit limit ch)) = true ->
  player ch = Some pid ->
  waiting_for_cashout ch = true ->
  p_pts ch = Some p -> b_pts ch = Some b -> pts ch = Some t ->
  exists s',
    sweep_v2 now limit cid ch expired s = (s', Ok ((expired ++ [cid]) ++ [cid]))
    /\ balance s' pid == balance s pid + calculate_cashout p b t (wager ch)
    /\ (forall u, u <> pid -> balance s' u = balance s u)
    /\ house_balance s'
       == house_balance s - (calculate_cashout p b t (wager ch) - wager ch)
    /\ pending_pvp s' = pending_pvp s.
Proof.
  intros Pre W T Pl C Pp Bp Tp.
  unfold sweep_v2. rewrite W, T, Pre, Pl, C, Pp, Bp, Tp. run_effects.
  eexists. split; [reflexivity | ].
  cbn [pending_pvp balance house_balance].
  refine (conj _ (conj _ (conj _ _))).
  - rewrite Z.eqb_refl. reflexivity.
  - intros u N. destruct (Z.eqb_spec u pid); [contradiction | reflexivity].
  - ring.
  - reflexivity.
Qed.

(** Outside the auto-cashout branch the "Generic V2 Timeout" code never
    books anything to the house: a forfeited wager of a PvP series, or of
    an abandoned bot series, is credited to nobody. *)
Lemma sweep_v2_keeps_house (cid : string) (ch : challenge) (expired : list string)
    (s : bot) :
  String.prefix "v2_bot_" cid = false \/ waiting_for_cashout ch = false ->
  house_balance (fst (sweep_v2 now limit cid ch expired s)) = house_balance s.
Proof.
  intros H. unfold sweep_v2.
  destruct (wait_started ch) as [ws | ]; [ | reflexivity].
  destruct (Qgt_bool (now - ws) (inject_Z (timeout_limit limit ch))); [ | reflexivity].
  destruct (String.prefix "v2_bot_" cid) eqn:Pre.
  - destruct H as [H | H]; [discriminate | ]. rewrite H. run_effects.
    destruct (player ch); [ | reflexivity].
    destruct (wager_deducted ch); [ | reflexivity].
    destruct (get_or 0 (cur_rolls ch) >=? get_or 0 (rolls ch))%Z; reflexivity.
  - run_effects.
    destruct (challenger ch); [ | reflexivity].
    destruct (waiting_p1 ch).
    + destruct (p2_deducted ch); [ | reflexivity].
      destruct (opponent ch); reflexivity.
    + destruct (waiting_p2 ch); [ | reflexivity].
      destruct (p1_deducted ch); reflexivity.
Qed.

(** The older handlers' case 2: when the challenger of an accepted
    challenge stalls, the house is credited with the wager and the
    acceptor gets the wager back. *)
Lemma sweep_legacy_challenger_forfeits (cid : string) (ch : challenge)
    (expired : list string) (s : bot) (ws : Q) (c a : Z) :
  opponent ch = Some a ->
  challenger ch = Some c ->
  emoji_wait_started ch = Some ws ->
  waiting_for_challenger_emoji ch = true ->
  Qgt_bool (now - ws) (inject_Z limit) = true ->
  exists s',
    sweep_legacy now limit cid ch expired s = (s', Ok (expired ++ [cid]))
    /\ house_balance s' == house_balance s + wager ch
    /\ balance s' a == balance s a + wager ch
    /\ (forall u, u <> a -> balance s' u = balance s u).
Proof.
  intros O C W F T. unfold sweep_legacy. rewrite O, C, W, F, T.
  destruct (created_at ch); run_effects;
    (eexists; split; [reflexivity | ]);
    cbn [pending_pvp balance house_balance];
    (refine (conj _ (conj _ _));
     [ reflexivity
     | rewrite Z.eqb_refl; reflexivity
     | intros u N; destruct (Z.eqb_spec u a); [contradiction | reflexivity] ]).
Qed.

End SweeperFacts.

(** C3, the code at the failing input.  Three sessions are past their
    deadline at second 5000: the bot series of users 1 and 2, both at the
    cashout prompt, and the open challenge of user 3.  The scan puts the
    id of each bot series on [expired_challenges] twice; the removal loop
    deletes the first, raises [KeyError] on its second occurrence, and
    the [except] ends the sweep: the series of user 2 and the challenge
    of user 3 stay in the store although both were paid, and the next
    sweep pays them again. *)
Theorem sweep_schedules_removal_twice :
  scheduled_removals 5000 300 two_cashouts_and_open
  = Some ["v2_bot_dice_1_1000"; "v2_bot_dice_1_1000";
          "v2_bot_dice_2_1000"; "v2_bot_dice_2_1000"; "dice_open_3_1000"]%string /\
  Dict.keys (pending_pvp (check_expired_challenges 5000 300 two_cashouts_and_open))
  = ["v2_bot_dice_2_1000"; "dice_open_3_1000"]%string /\
  balance two_cashouts_and_open 3 == 95 /\
  balance (check_expired_challenges 5000 300 two_cashouts_and_open) 3 == 100 /\
  balance (check_expired_challenges 5000 300
             (check_expired_challenges 5000 300 two_cashouts_and_open)) 3 == 105.
Proof.
  repeat split; reflexivity.
Qed.

(** C10, the code at the failing input.  In the same sweep the series of
    user 2, waiting at the cashout prompt, is cashed out automatically
    (credit [14.25], the value [calculate_cashout] gives for 2-1 of 3 and
    a wager of 10; house [-(14.25 - 10)] for each of the two series), but
    it is not removed: its removal is never reached.  The next sweep
    cashes it out a second time. *)
Theorem sweep_auto_cashout_not_removed :
  calculate_cashout 2 1 3 10 == 1425 # 100 /\
  balance (check_expired_challenges 5000 300 two_cashouts_and_open) 2
  == balance two_cashouts_and_open 2 + (1425 # 100) /\
  house_balance (check_expired_challenges 5000 300 two_cashouts_and_open)
  == house_balance two_cashouts_and_open - (425 # 100) - (425 # 100) /\
  Dict.get "v2_bot_dice_1_1000"
    (pending_pvp (check_expired_challenges 5000 300 two_cashouts_and_open)) = None /\
  Dict.get "v2_bot_dice_2_1000"
    (pending_pvp (check_expired_challenges 5000 300 two_cashouts_and_open))
  = Some (bot_series_at_cashout 2) /\
  balance (check_expired_challenges 5000 300
             (check_expired_challenges 5000 300 two_cashouts_and_open)) 2
  == balance two_cashouts_and_open 2 + (1425 # 100) + (1425 # 100).
Proof.
  repeat split; reflexivity.
Qed.

(** C4, the code at the failing input.  Scenario D: both players of a PvP
    series have paid [10], the challenger is to roll and lets the
    deadline pass.  The sweeper gives the opponent the wager back and
    removes the session, but the house balance stays as it was: the
    challenger's wager is credited to nobody.  On the single-shot
    challenge of the older handlers, in the same situation, the house is
    credited with the wager. *)
Theorem sweep_pvp_forfeit_not_booked :
  balance (check_expired_challenges 2000 300 scenario_D) 2
  == balance scenario_D 2 + 10 /\
  balance (check_expired_challenges 2000 300 scenario_D) 1 == balance scenario_D 1 /\
  pending_pvp (check_expired_challenges 2000 300 scenario_D) = [] /\
  house_balance (check_expired_challenges 2000 300 scenario_D)
  == house_balance scenario_D /\
  ~ house_balance (check_expired_challenges 2000 300 scenario_D)
    == house_balance scenario_D + 10 /\
  house_balance (check_expired_challenges 2000 300 scenario_D_legacy)
  == house_balance scenario_D_legacy + 10 /\
  balance (check_expired_challenges 2000 300 scenario_D_legacy) 2
  == balance scenario_D_legacy 2 + 10.
Proof.
  repeat split; try reflexivity.
  vm_compute. discriminate.
Qed.

(* ================================================================== *)
(** * Further properties of the code *)

(** ** CashoutValuator, round resolution *)

Section MoreCashout.

(** X1.  The table of [calculate_cashout] is a probability table: for
    remaining needs within 1..3, the chance it gives the player and the
    chance it gives the opponent in the mirrored state add up to 1. *)
Theorem cashout_prob_complementary (a b : Z) :
  (1 <= a <= 3)%Z -> (1 <= b <= 3)%Z ->
  cashout_prob a b + cashout_prob b a == 1.
Proof.
  intros Ha Hb.
  assert (Ea : (a = 1 \/ a = 2 \/ a = 3)%Z) by lia.
  assert (Eb : (b = 1 \/ b = 2 \/ b = 3)%Z) by lia.
  destruct Ea as [-> | [-> | ->]]; destruct Eb as [-> | [-> | ->]]; reflexivity.
Qed.

Lemma cashout_prob_complementary_witness :
  cashout_prob 1 3 + cashout_prob 3 1 == 1.
Proof.
  apply (cashout_prob_complementary 1 3); lia.
Defined.

Lemma cashout_prob_tied (a : Z) : cashout_prob a a = 1 # 2.
Proof.
  unfold cashout_prob.
  repeat match goal with
         | |- context [if ?c then _ else _] => destruct c eqn:?
         end; try reflexivity;
  repeat match goal with
         | H : (_ && _)%bool = true |- _ => apply andb_true_iff in H; destruct H
         | H : (_ =? _)%Z = true |- _ => apply Z.eqb_eq in H
         end; lia.
Qed.

(** X2.  At a tied score, whatever the target (also beyond the table),
    the cashout value of a wager that is not negative is
    [round(wager * 0.95, 2)] on binary64: the probability used is [0.5],
    and [0.5 * (wager * 2)] is the wager again, without rounding error,
    for every double below [2^1023] and for [inf].  For a wager of [0.5]
    that is [0.47], where rounding the exact [0.475] would give [0.48]. *)
Theorem cashout_binary64_at_tied_score (p t : Z) (w : F64.t) :
  (p < t)%Z ->
  F64.signed false w ->
  valid_binary F64.prec F64.emax w = true ->
  F64.below_top_binade w ->
  calculate_cashout_binary64 p p t w = F64.round2 (F64.mul w (F64.of_Q (95 # 100)))
  /\ calculate_cashout_binary64 0 0 3 (F64.of_Q (1 # 2)) = F64.of_Q (47 # 100).
Proof.
  intros Hp Hw V B. split; [ | vm_compute; reflexivity].
  rewrite calculate_cashout_binary64_mid by assumption.
  rewrite max0_of_signed_false by (apply cashout_val_binary64_signed, Hw).
  rewrite cashout_prob_tied.
  destruct w as [s | s | | s m e]; simpl in Hw; try contradiction; subst s.
  - reflexivity.
  - reflexivity.
  - rewrite (mul_half_double false m e V B). reflexivity.
Qed.

Lemma cashout_binary64_at_tied_score_witness :
  calculate_cashout_binary64 0 0 5 (F64.of_Q (13 # 10))
  = F64.round2 (F64.mul (F64.of_Q (13 # 10)) (F64.of_Q (95 # 100)))
  /\ calculate_cashout_binary64 0 0 3 (F64.of_Q (1 # 2)) = F64.of_Q (47 # 100).
Proof.
  apply (cashout_binary64_at_tied_score 0 5 (F64.of_Q (13 # 10))).
  - lia.
  - vm_compute. reflexivity.
  - vm_compute. reflexivity.
  - vm_compute. reflexivity.
Defined.

(** X3.  Mid-series, a wager that is not greater than [0] (a negative
    double, a zero of either sign, [-inf] or a nan) has the cashout value
    [0]: [max(0, ...)] clamps it.  For every wager the value is neither
    negative nor a nan. *)
Theorem cashout_binary64_clamps (p b t : Z) (w : F64.t) :
  (p < t)%Z -> (b < t)%Z ->
  (SFltb (S754_zero false) w = false ->
   calculate_cashout_binary64 p b t w = S754_zero false)
  /\ F64.signed false (calculate_cashout_binary64 p b t w).
Proof.
  intros Hp Hb. rewrite calculate_cashout_binary64_mid by assumption.
  split; [ | apply max0_signed].
  intros N.
  destruct w as [s | [ | ] | | [ | ] m e]; try discriminate N.
  - destruct (cashout_prob_binary64 (t - p) (t - b)) as (m & e & -> & _ & _).
    destruct s; reflexivity.
  - apply max0_of_signed_true, cashout_val_binary64_signed. reflexivity.
  - destruct (cashout_prob_binary64 (t - p) (t - b)) as (m & e & -> & _ & _). reflexivity.
  - apply max0_of_signed_true, cashout_val_binary64_signed. reflexivity.
Qed.

Lemma cashout_binary64_clamps_witness :
  (SFltb (S754_zero false) (F64.of_Q (- (7 # 3))) = false ->
   calculate_cashout_binary64 1 0 3 (F64.of_Q (- (7 # 3))) = S754_zero false)
  /\ F64.signed false (calculate_cashout_binary64 1 0 3 (F64.of_Q (- (7 # 3)))).
Proof.
  apply (cashout_binary64_clamps 1 0 3 (F64.of_Q (- (7 # 3)))); lia.
Defined.

(** X4.  In either mode a round is a draw exactly when the two totals are
    equal, and a round that one side wins in normal mode is won by the
    other side in every other mode. *)
Theorem round_win_modes (md : string) (p_tot b_tot : Z) :
  (round_win md p_tot b_tot = None <-> p_tot = b_tot)
  /\ (md <> "normal"%string ->
      round_win md p_tot b_tot = option_map negb (round_win "normal" p_tot b_tot))
  /\ round_win md b_tot p_tot = option_map negb (round_win md p_tot b_tot).
Proof.
  unfold round_win. cbn [String.eqb Ascii.eqb Bool.eqb].
  destruct (String.eqb_spec md "normal") as [E | N];
    destruct (Z.gtb_spec p_tot b_tot); destruct (Z.gtb_spec b_tot p_tot);
    destruct (Z.ltb_spec p_tot b_tot); destruct (Z.ltb_spec b_tot p_tot);
    try lia; (split; [split; [intros; try discriminate; lia | intros; try reflexivity; lia]
                     | split; [intros; try reflexivity; congruence | reflexivity]]).
Qed.

End MoreCashout.

(** ** The game-mode carousel *)

Section Carousel.

Lemma py_index_bound (x : string) (l : list string) (i : nat) :
  py_index x l = Some i -> (i < List.length l)%nat.
Proof.
  revert i. induction l as [ | y l IH]; simpl; intros i H; [discriminate | ].
  destruct (String.eqb x y).
  - injection H as <-. lia.
  - destruct (py_index x l) as [j | ]; [ | discriminate].
    injection H as <-. specialize (IH j eq_refl). lia.
Qed.

(** X5.  Stepping the game-mode carousel forward and then back, or back
    and then forward, returns to the mode one started from, for each of
    the six modes; and whatever string is passed, known or not, both
    steps answer with one of the six modes. *)
Theorem game_mode_steps_invert (m : string) :
  (In m game_modes ->
   _get_prev_game_mode (_get_next_game_mode m) = m
   /\ _get_next_game_mode (_get_prev_game_mode m) = m)
  /\ In (_get_next_game_mode m) game_modes
  /\ In (_get_prev_game_mode m) game_modes.
Proof.
  split; [ | split].
  - intros I. unfold game_modes in I. simpl in I.
    repeat (destruct I as [<- | I]; [split; reflexivity | ]). contradiction.
  - unfold _get_next_game_mode.
    destruct (py_index m game_modes) as [i | ] eqn:E; [ | simpl; tauto].
    apply nth_In. apply Nat.mod_upper_bound. discriminate.
  - unfold _get_prev_game_mode.
    destruct (py_index m game_modes) as [i | ] eqn:E; [ | simpl; tauto].
    apply nth_In.
    pose proof (Z.mod_pos_bound (Z.of_nat i - 1) (Z.of_nat (List.length game_modes))) as B.
    assert (P : (0 < Z.of_nat (List.length game_modes))%Z) by (simpl; lia).
    specialize (B P). lia.
Qed.

End Carousel.

(** ** Roulette, coin flip, tips *)

Section HouseGames.

(** X6.  The wheel has 38 distinct pockets; each even-money bet (red,
    black, odd, even, low, high) is paid on exactly 18 of them and green
    on exactly 2; every pocket pays exactly one of the three colour
    bets. *)
Theorem roulette_pockets :
  NoDup all_numbers /\ List.length all_numbers = 38%nat
  /\ paying "red" = 18%nat /\ paying "black" = 18%nat /\ paying "green" = 2%nat
  /\ paying "odd" = 18%nat /\ paying "even" = 18%nat
  /\ paying "low" = 18%nat /\ paying "high" = 18%nat
  /\ (forall n, In n all_numbers ->
        (if (roulette_multiplier "red" n =? 0)%Z then 0 else 1)
        + (if (roulette_multiplier "black" n =? 0)%Z then 0 else 1)
        + (if (roulette_multiplier "green" n =? 0)%Z then 0 else 1) = 1)%nat.
Proof.
  split.
  { unfold all_numbers, reds, blacks, greens. simpl.
    repeat (constructor; [simpl; intuition discriminate | ]). constructor. }
  repeat (split; [reflexivity | ]).
  intros n I. unfold all_numbers, reds, blacks, greens in I. simpl in I.
  repeat (destruct I as [<- | I]; [reflexivity | ]). contradiction.
Qed.

(** X7.  [roulette_play] never books a spin.  A wager above the balance
    is refused; every other call raises [AttributeError] at line 4245,
    which reads [self.stickers], before the bet is resolved.  Either way
    no balance, not the house balance and not the store changes. *)
Theorem roulette_play_books_nothing (s : bot) (uid : Z) (w : Q) (choice : string)
    (result_num : Z) :
  exec (roulette_play uid w choice result_num) s = s
  /\ answer (roulette_play uid w choice result_num) s
     = if Qgt_bool w (balance s uid) then Ok Refused else Raised.
Proof.
  unfold exec, answer, roulette_play, stickers. run_effects.
  destruct (Qgt_bool w (balance s uid)); split; reflexivity.
Qed.

(** X8.  [coinflip_vs_bot] never changes a user's balance, whether the
    bet is refused, lost or won, and never touches the store: the wager
    is neither taken nor the win paid.  Only the house balance moves, and
    only when the bet is not refused (the wager is within the balance):
    by [+wager] on a loss and by [-wager] on a win. *)
Theorem coinflip_vs_bot_leaves_balances (s : bot) (uid : Z) (w : Q)
    (choice result : string) :
  balance (exec (coinflip_vs_bot uid w choice result) s) = balance s
  /\ pending_pvp (exec (coinflip_vs_bot uid w choice result) s) = pending_pvp s
  /\ house_balance (exec (coinflip_vs_bot uid w choice result) s)
     == house_balance s
        + (if Qgt_bool w (balance s uid) then 0
           else if String.eqb choice result then - w else w).
Proof.
  unfold exec, coinflip_vs_bot. run_effects.
  destruct (Qgt_bool w (balance s uid)) eqn:G.
  - cbn [fst balance house_balance pending_pvp].
    refine (conj eq_refl (conj eq_refl _)). ring.
  - destruct (String.eqb choice result);
      cbn [fst balance house_balance pending_pvp];
      refine (conj eq_refl (conj eq_refl _)); reflexivity.
Qed.

(** X9.  A confirmed tip between two different users moves exactly the
    amount from the sender to the recipient: their balances add up to
    what they added up to before, nobody else's balance and neither the
    house balance nor the store changes.  A sender who holds less than
    the amount is refused and nothing changes. *)
Theorem tip_confirm_transfers (s : bot) (uid target : Z) (amount : Q) :
  uid <> target ->
  (balance s uid < amount -> tip_confirm uid target amount s = (s, Ok Refused))
  /\ (amount <= balance s uid ->
      answer (tip_confirm uid target amount) s = Ok Done
      /\ balance (exec (tip_confirm uid target amount) s) uid == balance s uid - amount
      /\ balance (exec (tip_confirm uid target amount) s) target
         == balance s target + amount
      /\ balance (exec (tip_confirm uid target amount) s) uid
         + balance (exec (tip_confirm uid target amount) s) target
         == balance s uid + balance s target
      /\ (forall u, u <> uid -> u <> target ->
                    balance (exec (tip_confirm uid target amount) s) u = balance s u)
      /\ house_balance (exec (tip_confirm uid target amount) s) = house_balance s
      /\ pending_pvp (exec (tip_confirm uid target amount) s) = pending_pvp s).
Proof.
  intros N. unfold exec, answer, tip_confirm. run_effects.
  destruct (Qlt_bool (balance s uid) amount) eqn:L.
  - split; [reflexivity | ]. intros H. apply Qlt_bool_true in L. lra.
  - split; [intros H; apply Qlt_bool_false in L; lra | ]. intros _.
    cbn [fst snd balance house_balance pending_pvp].
    destruct (Z.eqb_spec uid target) as [E | _]; [contradiction | ].
    destruct (Z.eqb_spec target uid) as [E | _]; [congruence | ].
    rewrite !Z.eqb_refl.
    refine (conj eq_refl (conj _ (conj _ (conj _ (conj _ (conj eq_refl eq_refl)))))).
    + reflexivity.
    + reflexivity.
    + ring.
    + intros u Nu Nt.
      destruct (Z.eqb_spec u target); [contradiction | ].
      destruct (Z.eqb_spec u uid); [contradiction | reflexivity].
Qed.

Lemma tip_confirm_transfers_witness :
  (balance fresh_bot 1 < 30 -> tip_confirm 1 2 30 fresh_bot = (fresh_bot, Ok Refused))
  /\ (30 <= balance fresh_bot 1 ->
      answer (tip_confirm 1 2 30) fresh_bot = Ok Done
      /\ balance (exec (tip_confirm 1 2 30) fresh_bot) 1 == balance fresh_bot 1 - 30
      /\ balance (exec (tip_confirm 1 2 30) fresh_bot) 2 == balance fresh_bot 2 + 30
      /\ balance (exec (tip_confirm 1 2 30) fresh_bot) 1
         + balance (exec (tip_confirm 1 2 30) fresh_bot) 2
         == balance fresh_bot 1 + balance fresh_bot 2
      /\ (forall u, u <> 1%Z -> u <> 2%Z ->
                    balance (exec (tip_confirm 1 2 30) fresh_bot) u = balance fresh_bot u)
      /\ house_balance (exec (tip_confirm 1 2 30) fresh_bot) = house_balance fresh_bot
      /\ pending_pvp (exec (tip_confirm 1 2 30) fresh_bot) = pending_pvp fresh_bot).
Proof.
  apply (tip_confirm_transfers fresh_bot 1 2 30). discriminate.
Defined.

(** X10.  The handler itself does not refuse a tip to oneself (only
    [tip_command] does, before it shows the button): both copies of the
    user are read before either is written and the recipient's copy is
    written last, so the balance goes up by the amount. *)
Theorem tip_confirm_to_self_adds (s : bot) (uid : Z) (amount : Q) :
  amount <= balance s uid ->
  answer (tip_confirm uid uid amount) s = Ok Done
  /\ balance (exec (tip_confirm uid uid amount) s) uid == balance s uid + amount.
Proof.
  intros H. unfold exec, answer, tip_confirm. run_effects.
  destruct (Qlt_bool (balance s uid) amount) eqn:L.
  - apply Qlt_bool_true in L. lra.
  - cbn [fst snd balance]. rewrite Z.eqb_refl. split; reflexivity.
Qed.

Lemma tip_confirm_to_self_adds_witness :
  answer (tip_confirm 1 1 30) fresh_bot = Ok Done
  /\ balance (exec (tip_confirm 1 1 30) fresh_bot) 1 == balance fresh_bot 1 + 30.
Proof.
  apply (tip_confirm_to_self_adds fresh_bot 1 30). unfold Qle; simpl; lia.
Defined.

End HouseGames.

(** ** One round of a bot series *)

Section MoreRounds.

(** X11.  [v2_send_emoji] on a session that does not exist, or whose
    [player] is not the caller, is refused and changes nothing: no dice
    are recorded, no balance moves, the store is not reloaded. *)
Theorem v2_send_emoji_refuses_strangers (s : casino) (uid : Z) (cid : string)
    (p_dice b_dice : nat -> Z) :
  (forall ch, Dict.get cid (pending_pvp (bot_of s)) = Some ch -> owned_by uid ch = false) ->
  v2_send_emoji uid cid p_dice b_dice s = (s, Ok Refused).
Proof.
  intros H. destruct s as [s row]. cbn [bot_of] in H.
  unfold v2_send_emoji. run_db_effects.
  destruct (Dict.get cid (pending_pvp s)) as [ch | ]; [ | reflexivity].
  rewrite (H ch eq_refl). reflexivity.
Qed.

Lemma v2_send_emoji_refuses_strangers_witness :
  v2_send_emoji 2 "v2_bot_dice_1_1000" (fun _ => 6%Z) (fun _ => 3%Z)
    (persisted scenario_A_started)
  = (persisted scenario_A_started, Ok Refused).
Proof.
  apply (v2_send_emoji_refuses_strangers (persisted scenario_A_started) 2
           "v2_bot_dice_1_1000").
  intros ch H. vm_compute in H. injection H as <-. reflexivity.
Defined.

(** The round that the bot wins and that ends the series, resolved on the
    reloaded store. *)
Lemma resolve_round_bot_wins (s : bot) (uid : Z) (cid : string) (ch2 : challenge)
    (p_tot b_tot p b n : Z) (g md : string) :
  NoDup (Dict.keys (pending_pvp s)) ->
  Dict.get cid (pending_pvp s) = Some ch2 ->
  p_pts ch2 = Some p -> b_pts ch2 = Some b -> game ch2 = Some g ->
  rolls ch2 = Some n -> mode ch2 = Some md ->
  round_win md p_tot b_tot = Some false ->
  (p < get_or 1 (pts ch2) <= b + 1)%Z ->
  exists d',
    resolve_round uid cid ch2 p_tot b_tot s
    = (mkBot (balance s) (house_balance s + wager ch2) d', Ok tt)
    /\ Dict.get cid d' = None
    /\ (forall k, k <> cid -> Dict.get k d' = Dict.get k (pending_pvp s)).
Proof.
  intros OK G Pp Bp Ga Ro Mo Win Tgt.
  unfold resolve_round, game_over_message. rewrite Mo. cbn [get_or]. rewrite Win, Bp.
  run_effects. read_session. rewrite Pp, Ga, Ro, Mo. cbv beta iota zeta.
  destruct (Z.geb_spec p (get_or 1%Z (pts ch2))) as [C | _]; [lia | ].
  cbv beta iota zeta.
  destruct (Z.geb_spec (b + 1) (get_or 1%Z (pts ch2))) as [_ | C]; [ | lia].
  run_effects.
  destruct (dict_del_after_set cid (set_b_pts (b + 1) ch2) (pending_pvp s) OK)
    as (d' & D & Gd & Od & _).
  { rewrite G. discriminate. }
  rewrite D. exists d'. split; [reflexivity | split; assumption].
Qed.

(** X12.  When the bot wins the round that brings its points to the
    target, on a persisted session that holds the keys of the "Game
    over!" message, the handler books the wager to the house, changes no
    user's balance, and removes the session; the store it leaves, in
    memory and persisted, is the persisted row without the session. *)
Theorem bot_series_loss_settlement (s : casino) (uid : Z) (cid : string)
    (ch row_ch : challenge) (p_dice b_dice : nat -> Z) (n p b n' : Z) (g md : string) :
  NoDup (Dict.keys (db_pending_pvp s)) ->
  Dict.get cid (pending_pvp (bot_of s)) = Some ch ->
  player ch = Some uid ->
  rolls ch = Some n ->
  Dict.get cid (db_pending_pvp s) = Some row_ch ->
  p_pts row_ch = Some p ->
  b_pts row_ch = Some b ->
  game row_ch = Some g ->
  rolls row_ch = Some n' ->
  mode row_ch = Some md ->
  round_result ch row_ch p_dice b_dice = Some false ->
  (p < get_or 1 (pts row_ch) <= b + 1)%Z ->
  exists s',
    v2_send_emoji uid cid p_dice b_dice s = (s', Ok Done)
    /\ balance (bot_of s') = balance (bot_of s)
    /\ house_balance (bot_of s') == house_balance (bot_of s) + wager row_ch
    /\ Dict.get cid (pending_pvp (bot_of s')) = None
    /\ (forall k, k <> cid ->
                  Dict.get k (pending_pvp (bot_of s')) = Dict.get k (db_pending_pvp s))
    /\ db_pending_pvp s' = pending_pvp (bot_of s').
Proof.
  intros OK G Pl Ro GR Pp Bp Ga Ro' Mo Win Tgt.
  unfold round_result, player_round_total, bot_round_total in Win.
  rewrite Ro, Mo in Win. cbn [get_or] in Win.
  unfold v2_send_emoji, owned_by. run_db_effects.
  rewrite G. cbv beta iota zeta. rewrite Pl, Z.eqb_refl. cbv beta iota zeta delta [negb].
  read_session. rewrite Ro. run_db_effects.
  rewrite GR. cbv beta iota zeta.
  match goal with
  | |- context [resolve_round uid cid row_ch ?pt ?bt ?s0] =>
      destruct (resolve_round_bot_wins s0 uid cid row_ch pt bt p b n' g md)
        as (d' & R & Gd & Od); try assumption
  end.
  rewrite R. run_db_effects. eexists. split; [reflexivity | ].
  cbn [pending_pvp balance house_balance bot_of db_pending_pvp].
  refine (conj eq_refl (conj _ (conj Gd (conj Od eq_refl)))). reflexivity.
Qed.

Lemma bot_series_loss_settlement_witness :
  exists s',
    v2_send_emoji 1 "v2_bot_dice_1_1000" (fun _ => 2%Z) (fun _ => 5%Z)
      (persisted scenario_A_started)
    = (s', Ok Done)
    /\ balance (bot_of s') = balance (bot_of (persisted scenario_A_started))
    /\ house_balance (bot_of s')
       == house_balance (bot_of (persisted scenario_A_started))
          + wager (new_v2_bot_challenge 1 "dice" 10 1 "normal" 1 1000)
    /\ Dict.get "v2_bot_dice_1_1000" (pending_pvp (bot_of s')) = None
    /\ (forall k, k <> "v2_bot_dice_1_1000"%string ->
                  Dict.get k (pending_pvp (bot_of s'))
                  = Dict.get k (db_pending_pvp (persisted scenario_A_started)))
    /\ db_pending_pvp s' = pending_pvp (bot_of s').
Proof.
  apply (bot_series_loss_settlement (persisted scenario_A_started) 1 "v2_bot_dice_1_1000"
           (new_v2_bot_challenge 1 "dice" 10 1 "normal" 1 1000)
           (new_v2_bot_challenge 1 "dice" 10 1 "normal" 1 1000)
           (fun _ => 2%Z) (fun _ => 5%Z) 1 0 0 1 "dice" "normal").
  - vm_compute. constructor; [intros [] | constructor].
  - reflexivity.
  - reflexivity.
  - reflexivity.
  - reflexivity.
  - reflexivity.
  - reflexivity.
  - reflexivity.
  - reflexivity.
  - reflexivity.
  - reflexivity.
  - vm_compute. split; [reflexivity | discriminate].
Defined.

(** A round that leaves both sides below the target, resolved on the
    reloaded store. *)
Lemma resolve_round_continues (s : bot) (uid : Z) (cid : string) (ch2 : challenge)
    (p_tot b_tot p b t : Z) :
  p_pts ch2 = Some p -> b_pts ch2 = Some b -> pts ch2 = Some t ->
  (match round_win (get_or "normal"%string (mode ch2)) p_tot b_tot with
   | Some true => p + 1 | _ => p end < t)%Z ->
  (match round_win (get_or "normal"%string (mode ch2)) p_tot b_tot with
   | Some false => b + 1 | _ => b end < t)%Z ->
  exists ch',
    resolve_round uid cid ch2 p_tot b_tot s
    = (mkBot (balance s) (house_balance s) (Dict.set cid ch' (pending_pvp s)), Ok tt)
    /\ p_pts ch'
       = Some match round_win (get_or "normal"%string (mode ch2)) p_tot b_tot with
              | Some true => p + 1 | _ => p end%Z
    /\ b_pts ch'
       = Some match round_win (get_or "normal"%string (mode ch2)) p_tot b_tot with
              | Some false => b + 1 | _ => b end%Z
    /\ p_rolls ch' = []
    /\ wager ch' = wager ch2 /\ pts ch' = pts ch2 /\ player ch' = player ch2.
Proof.
  intros Pp Bp Pt HP HB. unfold resolve_round, next_round_message.
  destruct (round_win _ _ _) as [[ | ] | ];
    rewrite ?Pp, ?Bp; run_effects; read_session; rewrite ?Pp, ?Bp, ?Pt; cbn [get_or];
    cbv beta iota zeta;
    repeat (match goal with
            | |- context [(?x >=? ?y)%Z] =>
                destruct (Z.geb_spec x y) as [C | _]; [lia | ]
            end; cbv beta iota zeta);
    run_effects; read_session; rewrite ?Pp, ?Bp, ?Pt; run_effects;
    rewrite !dict_set_set;
    (eexists; split; [reflexivity | ]); read_session;
    repeat split; assumption || reflexivity.
Qed.

(** X13.  A round that leaves both sides below the target, on a
    persisted session that holds [p_pts], [b_pts] and [pts], moves no
    money: all balances and the house balance stay as they were.  The
    session the store then holds is the persisted one with the round
    winner's points one higher (a draw changes neither side's points),
    the recorded rolls cleared for the next round, and wager, target and
    owner as persisted; the rest of the store, in memory and persisted,
    is what the persisted row held. *)
Theorem bot_series_round_continues (s : casino) (uid : Z) (cid : string)
    (ch row_ch : challenge) (p_dice b_dice : nat -> Z) (n p b t : Z) :
  Dict.get cid (pending_pvp (bot_of s)) = Some ch ->
  player ch = Some uid ->
  rolls ch = Some n ->
  Dict.get cid (db_pending_pvp s) = Some row_ch ->
  p_pts row_ch = Some p ->
  b_pts row_ch = Some b ->
  pts row_ch = Some t ->
  (match round_result ch row_ch p_dice b_dice with Some true => p + 1 | _ => p end < t)%Z ->
  (match round_result ch row_ch p_dice b_dice with Some false => b + 1 | _ => b end < t)%Z ->
  exists s' ch',
    v2_send_emoji uid cid p_dice b_dice s = (s', Ok Done)
    /\ balance (bot_of s') = balance (bot_of s)
    /\ house_balance (bot_of s') = house_balance (bot_of s)
    /\ Dict.get cid (pending_pvp (bot_of s')) = Some ch'
    /\ p_pts ch'
       = Some match round_result ch row_ch p_dice b_dice with
              | Some true => p + 1 | _ => p end%Z
    /\ b_pts ch'
       = Some match round_result ch row_ch p_dice b_dice with
              | Some false => b + 1 | _ => b end%Z
    /\ p_rolls ch' = []
    /\ wager ch' = wager row_ch /\ pts ch' = pts row_ch /\ player ch' = player row_ch
    /\ (forall k, k <> cid ->
                  Dict.get k (pending_pvp (bot_of s')) = Dict.get k (db_pending_pvp s))
    /\ db_pending_pvp s' = pending_pvp (bot_of s').
Proof.
  intros G Pl Ro GR Pp Bp Pt HP HB.
  unfold round_result, player_round_total, bot_round_total in HP, HB |- *.
  rewrite Ro in HP, HB |- *.
  change (get_or 1%Z (Some n)) with n in HP, HB |- *.
  change (get_or 0%Z (Some n)) with n in HP, HB |- *.
  unfold v2_send_emoji, owned_by. run_db_effects.
  rewrite G. cbv beta iota zeta. rewrite Pl, Z.eqb_refl. cbv beta iota zeta delta [negb].
  read_session. rewrite Ro. run_db_effects.
  change (get_or 1%Z (Some n)) with n.
  rewrite GR. cbv beta iota zeta.
  match goal with
  | |- context [resolve_round uid cid row_ch ?pt ?bt ?s0] =>
      destruct (resolve_round_continues s0 uid cid row_ch pt bt p b t Pp Bp Pt HP HB)
        as (ch' & R & A1 & A2 & A3 & A4 & A5 & A6)
  end.
  rewrite R. run_db_effects. eexists. exists ch'. split; [reflexivity | ].
  cbn [pending_pvp balance house_balance bot_of db_pending_pvp].
  rewrite dict_get_set_same.
  refine (conj eq_refl (conj eq_refl (conj eq_refl (conj A1 (conj A2 (conj A3
            (conj A4 (conj A5 (conj A6 (conj _ eq_refl)))))))))).
  intros k N. apply dict_get_set_other. exact N.
Qed.

Lemma bot_series_round_continues_witness :
  exists s' ch',
    v2_send_emoji 1 "v2_bot_dice_1_1000" (fun _ => 4%Z) (fun _ => 4%Z)
      (persisted scenario_A_started)
    = (s', Ok Done)
    /\ balance (bot_of s') = balance (bot_of (persisted scenario_A_started))
    /\ house_balance (bot_of s') = house_balance (bot_of (persisted scenario_A_started))
    /\ Dict.get "v2_bot_dice_1_1000" (pending_pvp (bot_of s')) = Some ch'
    /\ p_pts ch'
       = Some match round_result (new_v2_bot_challenge 1 "dice" 10 1 "normal" 1 1000)
                                 (new_v2_bot_challenge 1 "dice" 10 1 "normal" 1 1000)
                                 (fun _ => 4%Z) (fun _ => 4%Z)
              with Some true => 0 + 1 | _ => 0 end%Z
    /\ b_pts ch'
       = Some match round_result (new_v2_bot_challenge 1 "dice" 10 1 "normal" 1 1000)
                                 (new_v2_bot_challenge 1 "dice" 10 1 "normal" 1 1000)
                                 (fun _ => 4%Z) (fun _ => 4%Z)
              with Some false => 0 + 1 | _ => 0 end%Z
    /\ p_rolls ch' = []
    /\ wager ch' = wager (new_v2_bot_challenge 1 "dice" 10 1 "normal" 1 1000)
    /\ pts ch' = pts (new_v2_bot_challenge 1 "dice" 10 1 "normal" 1 1000)
    /\ player ch' = player (new_v2_bot_challenge 1 "dice" 10 1 "normal" 1 1000)
    /\ (forall k, k <> "v2_bot_dice_1_1000"%string ->
                  Dict.get k (pending_pvp (bot_of s'))
                  = Dict.get k (db_pending_pvp (persisted scenario_A_started)))
    /\ db_pending_pvp s' = pending_pvp (bot_of s').
Proof.
  apply (bot_series_round_continues (persisted scenario_A_started) 1 "v2_bot_dice_1_1000"
           (new_v2_bot_challenge 1 "dice" 10 1 "normal" 1 1000)
           (new_v2_bot_challenge 1 "dice" 10 1 "normal" 1 1000)
           (fun _ => 4%Z) (fun _ => 4%Z) 1 0 0 1).
  - reflexivity.
  - reflexivity.
  - reflexivity.
  - reflexivity.
  - reflexivity.
  - reflexivity.
  - reflexivity.
  - vm_compute. reflexivity.
  - vm_compute. reflexivity.
Defined.

Lemma dict_del_other (k k0 : string) (d d' : Dict.t) :
  Dict.del k d = Some d' -> k0 <> k -> Dict.get k0 d' = Dict.get k0 d.
Proof.
  revert d'. induction d as [ | [k' v'] d IH]; simpl; intros d' H N; [discriminate | ].
  destruct (String.eqb_spec k k') as [E | NE].
  - injection H as <-. subst k'.
    destruct (String.eqb_spec k0 k); [contradiction | reflexivity].
  - destruct (Dict.del k d) as [d'' | ]; [ | discriminate].
    injection H as <-. simpl.
    destruct (String.eqb k0 k'); [reflexivity | ]. apply IH; [reflexivity | exact N].
Qed.

(** Resolving a round touches no session but the one it resolves,
    whether it returns or raises. *)
Lemma resolve_round_frame (s : bot) (uid : Z) (cid : string) (ch2 : challenge)
    (p_tot b_tot : Z) (k : string) :
  k <> cid ->
  Dict.get k (pending_pvp (fst (resolve_round uid cid ch2 p_tot b_tot s)))
  = Dict.get k (pending_pvp s).
Proof.
  intros N. unfold resolve_round, game_over_message, next_round_message.
  repeat (run_effects; cbn [fst snd]; destruct_innermost);
    run_effects; cbn [fst snd pending_pvp];
    rewrite ?dict_get_set_other by exact N; try reflexivity.
  all: try (erewrite dict_del_other by (eassumption || exact N);
            rewrite ?dict_get_set_other by exact N; reflexivity).
Qed.

(** X27.  A round of a bot series that gets past the ownership check and
    returns leaves, in memory and persisted, only what the persisted row
    held, with the session of the series updated or removed: line 5206
    replaces the dict in memory by the row.  Every session that was in
    memory only is dropped.  [create_open_dice_challenge] never persists,
    so an open dice challenge is dropped by such a round of any player,
    and its creator's wager stays debited. *)
Theorem round_forgets_unpersisted_sessions (s s' : casino) (uid : Z) (cid : string)
    (p_dice b_dice : nat -> Z) :
  v2_send_emoji uid cid p_dice b_dice s = (s', Ok Done) ->
  (forall k, k <> cid ->
     Dict.get k (pending_pvp (bot_of s')) = Dict.get k (db_pending_pvp s))
  /\ db_pending_pvp s' = pending_pvp (bot_of s').
Proof.
  unfold v2_send_emoji. run_db_effects.
  destruct (Dict.get cid (pending_pvp (bot_of s))) as [ch | ]; [ | discriminate].
  destruct (negb (owned_by uid ch)); [discriminate | ].
  run_db_effects. read_session.
  destruct (rolls ch) as [n | ]; [ | discriminate]. run_db_effects.
  destruct (Dict.get cid (db_pending_pvp s)) as [ch2 | ].
  - match goal with
    | |- context [resolve_round uid cid ch2 ?pt ?bt ?s0] =>
        pose proof (fun k => resolve_round_frame s0 uid cid ch2 pt bt k) as F;
        destruct (resolve_round uid cid ch2 pt bt s0) as [s1 [[] | ]]
    end; [ | discriminate].
    run_db_effects. intros E. injection E as <-.
    cbn [fst pending_pvp bot_of db_pending_pvp] in *. split; [exact F | reflexivity].
  - intros E. injection E as <-. cbn [pending_pvp bot_of db_pending_pvp].
    split; reflexivity.
Qed.

(** User 1 plays a drawn round of Scenario A while the open challenge of
    user 2 is in memory: afterwards the challenge is gone and user 2 is
    still down by the wager of 5. *)
Lemma round_forgets_unpersisted_sessions_witness :
  ((forall k, k <> "v2_bot_dice_1_1000"%string ->
      Dict.get k
        (pending_pvp
           (bot_of (fst (v2_send_emoji 1 "v2_bot_dice_1_1000" (fun _ => 4%Z) (fun _ => 4%Z)
                           series_and_unpersisted_challenge))))
      = Dict.get k (db_pending_pvp series_and_unpersisted_challenge))
   /\ db_pending_pvp
        (fst (v2_send_emoji 1 "v2_bot_dice_1_1000" (fun _ => 4%Z) (fun _ => 4%Z)
                series_and_unpersisted_challenge))
      = pending_pvp
          (bot_of (fst (v2_send_emoji 1 "v2_bot_dice_1_1000" (fun _ => 4%Z) (fun _ => 4%Z)
                          series_and_unpersisted_challenge))))
  /\ Dict.get "dice_open_2_1001" (pending_pvp (bot_of series_and_unpersisted_challenge))
     = Some (new_open_dice_challenge 2 5 1001)
  /\ Dict.get "dice_open_2_1001"
       (pending_pvp
          (bot_of (fst (v2_send_emoji 1 "v2_bot_dice_1_1000" (fun _ => 4%Z) (fun _ => 4%Z)
                          series_and_unpersisted_challenge))))
     = None
  /\ balance
       (bot_of (fst (v2_send_emoji 1 "v2_bot_dice_1_1000" (fun _ => 4%Z) (fun _ => 4%Z)
                       series_and_unpersisted_challenge))) 2
     == 95.
Proof.
  split.
  - apply (round_forgets_unpersisted_sessions series_and_unpersisted_challenge
             (fst (v2_send_emoji 1 "v2_bot_dice_1_1000" (fun _ => 4%Z) (fun _ => 4%Z)
                     series_and_unpersisted_challenge))
             1 "v2_bot_dice_1_1000" (fun _ => 4%Z) (fun _ => 4%Z)).
    vm_compute. reflexivity.
  - split; [reflexivity | split; reflexivity].
Defined.

End MoreRounds.

(** ** Starting a bot series *)

Section Starting.

Lemma prefix_app (a b : string) : String.prefix a (a ++ b) = true.
Proof.
  induction a as [ | c a IH]; simpl.
  - destruct b; reflexivity.
  - destruct (ascii_dec c c) as [_ | N]; [exact IH | contradiction].
Qed.

Lemma session_id_bot_prefix (game : string) (uid : Z) (now : Q) :
  String.prefix "v2_bot_" (session_id (GenericBot game) uid now) = true.
Proof. unfold session_id. apply prefix_app. Qed.

Lemma has_active_bot_game_set (uid : Z) (k : string) (v : challenge) (d : Dict.t) :
  String.prefix "v2_bot_" k = true -> player v = Some uid ->
  has_active_bot_game uid (Dict.set k v d) = true.
Proof.
  intros Pre Pl. unfold has_active_bot_game.
  induction d as [ | [k' v'] d IH]; simpl.
  - rewrite Pre, Pl, Z.eqb_refl. reflexivity.
  - destruct (String.eqb k k'); simpl.
    + rewrite Pre, Pl, Z.eqb_refl. reflexivity.
    + rewrite IH. apply orb_true_r.
Qed.

Lemma active_bot_game_in_game (uid : Z) (bj : bool) (d : Dict.t) :
  has_active_bot_game uid d = true -> is_user_in_game uid bj d = true.
Proof.
  unfold has_active_bot_game, is_user_in_game, owned_by. intros H.
  apply orb_true_iff. left.
  apply existsb_exists in H. destruct H as (e & I & H).
  apply existsb_exists. exists e. split; [exact I | ].
  rewrite H. reflexivity.
Qed.

(** X14.  A user without an active bot series whose balance covers the
    wager gets a series started: exactly the wager is taken from the
    user, nobody else's balance and not the house balance changes, and
    the new session (no points, no rolls, wager marked as deducted) is
    stored under the id [v2_bot_<game>_<user>_<second>].  From then on
    the user counts as being in a game, and every further start by the
    same user, whatever its parameters, is refused and changes nothing:
    a user has at most one bot series at a time. *)
Theorem start_generic_v2_bot_one_at_a_time (s : bot) (uid : Z) (game : string)
    (w : Q) (n : Z) (md : string) (t : Z) (now : Q) :
  has_active_bot_game uid (pending_pvp s) = false ->
  w <= balance s uid ->
  exists s',
    start_generic_v2_bot uid game w n md t now s = (s', Ok Done)
    /\ balance s' uid == balance s uid - w
    /\ (forall u, u <> uid -> balance s' u = balance s u)
    /\ house_balance s' = house_balance s
    /\ Dict.get (session_id (GenericBot game) uid now) (pending_pvp s')
       = Some (new_v2_bot_challenge uid game w n md t now)
    /\ (forall k, k <> session_id (GenericBot game) uid now ->
                  Dict.get k (pending_pvp s') = Dict.get k (pending_pvp s))
    /\ (forall bj, is_user_in_game uid bj (pending_pvp s') = true)
    /\ (forall game' w' n' md' t' now',
          start_generic_v2_bot uid game' w' n' md' t' now' s' = (s', Ok Refused)).
Proof.
  intros NA Bal. unfold start_generic_v2_bot at 1. rewrite NA. run_effects.
  destruct (Qgt_bool w (balance s uid)) eqn:G.
  { apply Qlt_bool_true in G. lra. }
  eexists. split; [reflexivity | ].
  cbn [pending_pvp balance house_balance].
  assert (A : has_active_bot_game uid
                (Dict.set (session_id (GenericBot game) uid now)
                          (new_v2_bot_challenge uid game w n md t now) (pending_pvp s))
              = true).
  { apply has_active_bot_game_set; [apply session_id_bot_prefix | reflexivity]. }
  refine (conj _ (conj _ (conj eq_refl (conj _ (conj _ (conj _ _)))))).
  - rewrite Z.eqb_refl. reflexivity.
  - intros u N. destruct (Z.eqb_spec u uid); [contradiction | reflexivity].
  - apply dict_get_set_same.
  - intros k N. apply dict_get_set_other. exact N.
  - intros bj. apply active_bot_game_in_game. exact A.
  - intros game' w' n' md' t' now'. unfold start_generic_v2_bot.
    cbn [pending_pvp]. rewrite A. reflexivity.
Qed.

Lemma start_generic_v2_bot_one_at_a_time_witness :
  exists s',
    start_generic_v2_bot 1 "dice" 10 1 "normal" 1 1000 fresh_bot = (s', Ok Done)
    /\ balance s' 1 == balance fresh_bot 1 - 10
    /\ (forall u, u <> 1%Z -> balance s' u = balance fresh_bot u)
    /\ house_balance s' = house_balance fresh_bot
    /\ Dict.get (session_id (GenericBot "dice") 1 1000) (pending_pvp s')
       = Some (new_v2_bot_challenge 1 "dice" 10 1 "normal" 1 1000)
    /\ (forall k, k <> session_id (GenericBot "dice") 1 1000 ->
                  Dict.get k (pending_pvp s') = Dict.get k (pending_pvp fresh_bot))
    /\ (forall bj, is_user_in_game 1 bj (pending_pvp s') = true)
    /\ (forall game' w' n' md' t' now',
          start_generic_v2_bot 1 game' w' n' md' t' now' s' = (s', Ok Refused)).
Proof.
  apply (start_generic_v2_bot_one_at_a_time fresh_bot 1 "dice" 10 1 "normal" 1 1000).
  - reflexivity.
  - unfold Qle; simpl; lia.
Defined.

(** X15.  A start is refused, and nothing changes, when the user has an
    active bot series or when the wager exceeds the user's balance. *)
Theorem start_generic_v2_bot_refusals (s : bot) (uid : Z) (game : string)
    (w : Q) (n : Z) (md : string) (t : Z) (now : Q) :
  has_active_bot_game uid (pending_pvp s) = true \/ balance s uid < w ->
  start_generic_v2_bot uid game w n md t now s = (s, Ok Refused).
Proof.
  intros H. unfold start_generic_v2_bot.
  destruct (has_active_bot_game uid (pending_pvp s)); [reflexivity | ].
  destruct H as [H | H]; [discriminate | ]. run_effects.
  destruct (Qgt_bool w (balance s uid)) eqn:G; [reflexivity | ].
  apply Qlt_bool_false in G. lra.
Qed.

Lemma start_generic_v2_bot_refusals_witness :
  start_generic_v2_bot 1 "dice" 500 1 "normal" 1 1000 fresh_bot = (fresh_bot, Ok Refused).
Proof.
  apply (start_generic_v2_bot_refusals fresh_bot 1 "dice" 500 1 "normal" 1 1000).
  right. unfold Qlt; simpl; lia.
Defined.

End Starting.

(** ** The sweeper on stores without the cashout flag *)

Section MoreSweeps.

Variable now : Q.
Variable limit : Z.

Lemma sweep_entry_within_limits (e : string * challenge) (expired : list string) (s : bot) :
  within_limits now limit e -> sweep_entry now limit e expired s = (s, Ok expired).
Proof.
  destruct e as [cid ch]. unfold within_limits, sweep_entry.
  destruct (String.prefix "v2_bot_" cid || String.prefix "v2_pvp_" cid)%bool.
  - intros H. unfold sweep_v2.
    destruct (wait_started ch) as [ws | ]; [ | reflexivity].
    specialize (H ws eq_refl).
    destruct (Qgt_bool (now - ws) (inject_Z (timeout_limit limit ch))) eqn:G;
      [ | reflexivity].
    apply Qlt_bool_true in G. lra.
  - intros [H1 H2]. unfold sweep_legacy.
    assert (F1 : forall t, created_at ch = Some t ->
                           Qgt_bool (now - t) (inject_Z limit) = false).
    { intros t E. apply Qlt_bool_false. apply H1. exact E. }
    assert (F2 : forall t, emoji_wait_started ch = Some t ->
                           Qgt_bool (now - t) (inject_Z limit) = false).
    { intros t E. apply Qlt_bool_false. apply H2. exact E. }
    destruct (created_at ch) as [c | ]; destruct (opponent ch) as [o | ];
      rewrite ?(F1 _ eq_refl); try reflexivity;
      destruct (emoji_wait_started ch) as [w | ]; try reflexivity;
      rewrite (F2 _ eq_refl);
      destruct (waiting_for_challenger_emoji ch); try reflexivity;
      destruct (waiting_for_emoji ch); reflexivity.
Qed.

Lemma sweep_scan_within_limits (entries : list (string * challenge))
    (expired : list string) (s : bot) :
  Forall (within_limits now limit) entries ->
  sweep_scan now limit entries expired s = (s, Ok expired).
Proof.
  induction 1 as [ | e rest He _ IH]; simpl; [reflexivity | ].
  unfold bind. rewrite (sweep_entry_within_limits e expired s He). exact IH.
Qed.

(** X16.  A sweep over a store in which no session has a timestamp older
    than the limit that applies to it (15 minutes for a series with rolls
    or points, the configured limit otherwise) changes nothing: no
    balance, not the house balance, not the store. *)
Theorem sweep_leaves_fresh_sessions (s : bot) :
  Forall (within_limits now limit) (pending_pvp s) ->
  check_expired_challenges now limit s = s.
Proof.
  intros H. unfold check_expired_challenges, sweep_body, bind.
  rewrite (sweep_scan_within_limits _ [] s H). reflexivity.
Qed.

(** One entry without the cashout flag is scheduled at most once, and the
    scan leaves the store to the removal loop. *)
Lemma sweep_entry_schedule (cid : string) (ch : challenge) (expired : list string) (s : bot) :
  waiting_for_cashout ch = false ->
  pending_pvp (fst (sweep_entry now limit (cid, ch) expired s)) = pending_pvp s
  /\ match snd (sweep_entry now limit (cid, ch) expired s) with
     | Ok l => l = expired \/ l = expired ++ [cid]
     | Raised => True
     end.
Proof.
  intros NC. unfold sweep_entry, sweep_v2, sweep_legacy, truthy_id. rewrite NC.
  repeat (run_effects; cbn [fst snd]; destruct_innermost);
    run_effects; cbn [fst snd pending_pvp]; auto.
Qed.

Lemma sweep_scan_schedule (entries : list (string * challenge)) :
  forall (expired : list string) (s : bot),
    NoDup (map fst entries) ->
    (forall e, In e entries -> waiting_for_cashout (snd e) = false) ->
    pending_pvp (fst (sweep_scan now limit entries expired s)) = pending_pvp s
    /\ match snd (sweep_scan now limit entries expired s) with
       | Ok l => exists sub, l = expired ++ sub /\ NoDup sub /\ incl sub (map fst entries)
       | Raised => True
       end.
Proof.
  induction entries as [ | [cid ch] rest IH]; intros expired s ND NC.
  - simpl. split; [reflexivity | ]. exists []. rewrite app_nil_r.
    repeat split; [constructor | intros x []].
  - simpl in ND. inversion ND as [ | x l NI ND']; subst.
    pose proof (sweep_entry_schedule cid ch expired s (NC (cid, ch) (or_introl eq_refl)))
      as [P1 S1].
    cbn [sweep_scan]. unfold bind.
    destruct (sweep_entry now limit (cid, ch) expired s) as [s1 [l1 | ]];
      cbn [fst snd] in *; [ | split; [exact P1 | exact I]].
    destruct (IH l1 s1 ND' (fun e I => NC e (or_intror I))) as [P2 S2].
    split; [congruence | ].
    destruct (sweep_scan now limit rest l1 s1) as [s2 [l2 | ]]; cbn [fst snd] in *;
      [ | exact I].
    destruct S2 as (sub & -> & NDs & Inc).
    destruct S1 as [-> | ->].
    + exists sub. repeat split; [exact NDs | ].
      intros k Ik. right. apply Inc. exact Ik.
    + exists (cid :: sub). rewrite <- app_assoc. repeat split.
      * constructor; [ | exact NDs]. intros Ik. apply NI. apply Inc. exact Ik.
      * intros k [<- | Ik]; [left; reflexivity | right; apply Inc; exact Ik].
Qed.

Lemma remove_expired_all (l : list string) :
  forall s : bot,
    NoDup l -> NoDup (Dict.keys (pending_pvp s)) ->
    (forall k, In k l -> Dict.get k (pending_pvp s) <> None) ->
    exists d',
      remove_expired l s = (mkBot (balance s) (house_balance s) d', Ok tt)
      /\ (forall k, In k l -> Dict.get k d' = None)
      /\ (forall k, ~ In k l -> Dict.get k d' = Dict.get k (pending_pvp s))
      /\ NoDup (Dict.keys d').
Proof.
  induction l as [ | k l IH]; intros s NDl NDs H.
  - exists (pending_pvp s). destruct s. simpl. repeat split; auto. intros k [].
  - inversion NDl as [ | x l' NI NDl']; subst.
    destruct (dict_del_present k (pending_pvp s) NDs (H k (or_introl eq_refl)))
      as (d1 & D & G & O & ND1).
    cbn [remove_expired]. unfold bind, del_pending. rewrite D.
    destruct (IH (mkBot (balance s) (house_balance s) d1) NDl' ND1) as (d' & R & A & B & C).
    { intros k0 I. cbn [pending_pvp]. rewrite O; [apply H; right; exact I | ].
      intros ->. contradiction. }
    cbn [balance house_balance pending_pvp] in R, B.
    exists d'. rewrite R. repeat split; [ | | exact C].
    + intros k0 [<- | I]; [ | apply A; exact I].
      destruct (in_dec string_dec k l) as [I | NI']; [contradiction | ].
      rewrite (B k NI'). exact G.
    + intros k0 N. rewrite B by (intros I; apply N; right; exact I).
      apply O. intros ->. apply N. left. reflexivity.
Qed.

(** X17.  On a store none of whose sessions carries the [waiting_for_cashout]
    flag, a sweep whose scan raises nothing schedules every id at most
    once, and the removal loop removes exactly the scheduled sessions:
    each of them is gone afterwards and every other session is still
    there, unchanged. *)
Theorem sweep_removes_what_it_schedules (s : bot) (l : list string) :
  store_ok s ->
  (forall e, In e (pending_pvp s) -> waiting_for_cashout (snd e) = false) ->
  scheduled_removals now limit s = Some l ->
  NoDup l
  /\ (forall k, In k l ->
                Dict.get k (pending_pvp (check_expired_challenges now limit s)) = None)
  /\ (forall k, ~ In k l ->
                Dict.get k (pending_pvp (check_expired_challenges now limit s))
                = Dict.get k (pending_pvp s)).
Proof.
  intros OK NC Sch. unfold scheduled_removals in Sch.
  destruct (sweep_scan_schedule (pending_pvp s) [] s OK NC) as [P S].
  unfold check_expired_challenges, sweep_body, bind.
  destruct (sweep_scan now limit (pending_pvp s) [] s) as [s1 [l1 | ]];
    [ | discriminate].
  injection Sch as ->. cbn [fst snd] in P, S.
  destruct S as (sub & E & NDs & Inc). simpl in E. subst sub.
  destruct (remove_expired_all l s1 NDs) as (d' & R & A & B & _).
  - rewrite P. exact OK.
  - intros k I. rewrite P. apply dict_get_in_keys. apply Inc. exact I.
  - rewrite R. cbn [fst pending_pvp]. rewrite P in B. auto.
Qed.

End MoreSweeps.

Lemma sweep_removes_what_it_schedules_witness :
  NoDup ["dice_open_1_1000"%string]
  /\ (forall k, In k ["dice_open_1_1000"%string] ->
                Dict.get k (pending_pvp (check_expired_challenges 2000 300
                                           open_challenge_created)) = None)
  /\ (forall k, ~ In k ["dice_open_1_1000"%string] ->
                Dict.get k (pending_pvp (check_expired_challenges 2000 300
                                           open_challenge_created))
                = Dict.get k (pending_pvp open_challenge_created)).
Proof.
  apply (sweep_removes_what_it_schedules 2000 300 open_challenge_created ["dice_open_1_1000"%string]).
  - unfold store_ok. vm_compute. constructor; [intros [] | constructor].
  - intros e I. vm_compute in I. destruct I as [<- | []]. reflexivity.
  - reflexivity.
Defined.

Lemma sweep_leaves_fresh_sessions_witness :
  check_expired_challenges 1200 300 open_challenge_created = open_challenge_created.
Proof.
  apply (sweep_leaves_fresh_sessions 1200 300 open_challenge_created).
  constructor; [ | constructor].
  split; intros t E; vm_compute in E; [ | discriminate].
  injection E as <-. unfold Qle; simpl; lia.
Defined.

(** ** From creation to expiry *)

Section Journeys.

(** A key that is not there is written at the end. *)
Lemma dict_set_absent (k : string) (v : challenge) (d : Dict.t) :
  Dict.get k d = None -> Dict.set k v d = d ++ [(k, v)].
Proof.
  induction d as [ | [k' v'] d IH]; simpl; intros H; [reflexivity | ].
  destruct (String.eqb k k'); [discriminate | ]. rewrite (IH H). reflexivity.
Qed.

Lemma dict_get_last (k : string) (v : challenge) (d : Dict.t) :
  Dict.get k d = None -> Dict.get k (d ++ [(k, v)]) = Some v.
Proof.
  induction d as [ | [k' v'] d IH]; simpl; intros H.
  - rewrite String.eqb_refl. reflexivity.
  - destruct (String.eqb k k'); [discriminate | exact (IH H)].
Qed.

Lemma dict_set_last (k : string) (v v' : challenge) (d : Dict.t) :
  Dict.get k d = None -> Dict.set k v' (d ++ [(k, v)]) = d ++ [(k, v')].
Proof.
  induction d as [ | [k0 v0] d IH]; simpl; intros H.
  - rewrite String.eqb_refl. reflexivity.
  - destruct (String.eqb k k0); [discriminate | ]. rewrite (IH H). reflexivity.
Qed.

Lemma dict_del_last (k : string) (v : challenge) (d : Dict.t) :
  Dict.get k d = None -> Dict.del k (d ++ [(k, v)]) = Some d.
Proof.
  induction d as [ | [k' v'] d IH]; simpl; intros H.
  - rewrite String.eqb_refl. reflexivity.
  - destruct (String.eqb k k'); [discriminate | ]. rewrite (IH H). reflexivity.
Qed.

Lemma sweep_scan_app (now : Q) (limit : Z) (l1 l2 : list (string * challenge)) :
  forall (expired : list string) (s : bot),
    sweep_scan now limit (l1 ++ l2) expired s
    = (expired' <- sweep_scan now limit l1 expired ;; sweep_scan now limit l2 expired') s.
Proof.
  induction l1 as [ | e l1 IH]; intros expired s; [reflexivity | ].
  cbn [app sweep_scan]. unfold bind.
  destruct (sweep_entry now limit e expired s) as [s1 [x | ]]; [ | reflexivity].
  rewrite IH. reflexivity.
Qed.

(** The sweep of a store whose last session is due and whose other
    sessions are not: the scan passes the others by, handles the last
    one, and the removal loop deletes it. *)
Lemma sweep_last_entry (now : Q) (limit : Z) (s s1 : bot) (d : Dict.t)
    (cid : string) (ch : challenge) :
  pending_pvp s = d ++ [(cid, ch)] ->
  Forall (within_limits now limit) d ->
  Dict.get cid d = None ->
  sweep_entry now limit (cid, ch) [] s = (s1, Ok [cid]) ->
  pending_pvp s1 = pending_pvp s ->
  check_expired_challenges now limit s = mkBot (balance s1) (house_balance s1) d.
Proof.
  intros P F A E P1. unfold check_expired_challenges, sweep_body, bind.
  rewrite P, sweep_scan_app. unfold bind.
  rewrite (sweep_scan_within_limits now limit d [] s F).
  cbn [sweep_scan]. unfold bind. rewrite E.
  cbn [ret remove_expired]. unfold bind, del_pending. rewrite P1, P.
  rewrite (dict_del_last cid ch d A). reflexivity.
Qed.

Lemma open_dice_id_not_v2 (uid : Z) (now : Q) :
  (String.prefix "v2_bot_" (session_id OpenDice uid now)
   || String.prefix "v2_pvp_" (session_id OpenDice uid now))%bool = false.
Proof. reflexivity. Qed.

(** X18.  An open dice challenge that nobody accepts costs its creator
    nothing, in a store that holds no session under the new id and in
    which no other session is due at the sweep: creation takes the wager,
    and the first sweep after the limit has passed gives exactly the
    wager back, removes the session, and leaves every other balance, the
    house balance and the other sessions as they were. *)
Theorem open_challenge_expiry_refunds (s : bot) (uid : Z) (w t0 t1 : Q) (limit : Z) :
  Dict.get (session_id OpenDice uid t0) (pending_pvp s) = None ->
  Forall (within_limits t1 limit) (pending_pvp s) ->
  w <= balance s uid ->
  inject_Z limit < t1 - t0 ->
  exists s1,
    create_open_dice_challenge uid w t0 s = (s1, Ok Done)
    /\ balance s1 uid == balance s uid - w
    /\ balance (check_expired_challenges t1 limit s1) uid == balance s uid
    /\ (forall u, u <> uid -> balance (check_expired_challenges t1 limit s1) u = balance s u)
    /\ house_balance (check_expired_challenges t1 limit s1) = house_balance s
    /\ pending_pvp (check_expired_challenges t1 limit s1) = pending_pvp s.
Proof.
  intros A F Bal Late. unfold create_open_dice_challenge. run_effects.
  destruct (Qgt_bool w (balance s uid)) eqn:G.
  { apply Qlt_bool_true in G. lra. }
  rewrite (dict_set_absent _ _ _ A).
  eexists. split; [reflexivity | ].
  assert (L : Qgt_bool (t1 - t0) (inject_Z limit) = true) by (apply Qlt_bool_true; exact Late).
  match goal with
  | |- context [check_expired_challenges t1 limit ?s1] =>
      rewrite (sweep_last_entry t1 limit s1
                 (mkBot (fun u => if (u =? uid)%Z then balance s1 uid + w else balance s1 u)
                        (house_balance s1) (pending_pvp s1))
                 (pending_pvp s)
                 (session_id OpenDice uid t0) (new_open_dice_challenge uid w t0)
                 eq_refl F A)
  end.
  - cbn [balance house_balance pending_pvp]. rewrite !Z.eqb_refl.
    refine (conj _ (conj _ (conj _ (conj eq_refl eq_refl)))).
    + reflexivity.
    + ring.
    + intros u N. destruct (Z.eqb_spec u uid); [contradiction | reflexivity].
  - unfold sweep_entry. rewrite open_dice_id_not_v2.
    unfold sweep_legacy. read_new_session. rewrite L. run_effects. reflexivity.
  - reflexivity.
Qed.

Lemma bot_id_is_v2 (game : string) (uid : Z) (now : Q) :
  (String.prefix "v2_bot_" (session_id (GenericBot game) uid now)
   || String.prefix "v2_pvp_" (session_id (GenericBot game) uid now))%bool = true.
Proof. rewrite session_id_bot_prefix. reflexivity. Qed.

(** X19.  A bot series (at least one roll per round) that is started and
    then left alone until the limit has passed, in a store that holds no
    session under the new id and in which no other session is due at the
    sweep, is removed by the sweep without a refund: the player stays
    debited by the wager, and the wager is booked to nobody, the house
    balance included; the other sessions stay as they were. *)
Theorem untouched_bot_series_expiry_forfeits (s : bot) (uid : Z) (game : string)
    (w : Q) (n : Z) (md : string) (t : Z) (t0 t1 : Q) (limit : Z) :
  has_active_bot_game uid (pending_pvp s) = false ->
  Dict.get (session_id (GenericBot game) uid t0) (pending_pvp s) = None ->
  Forall (within_limits t1 limit) (pending_pvp s) ->
  w <= balance s uid ->
  (0 < n)%Z ->
  inject_Z limit < t1 - t0 ->
  exists s1,
    start_generic_v2_bot uid game w n md t t0 s = (s1, Ok Done)
    /\ balance (check_expired_challenges t1 limit s1) uid == balance s uid - w
    /\ (forall u, u <> uid -> balance (check_expired_challenges t1 limit s1) u = balance s u)
    /\ house_balance (check_expired_challenges t1 limit s1) = house_balance s
    /\ pending_pvp (check_expired_challenges t1 limit s1) = pending_pvp s.
Proof.
  intros NA A F Bal Hn Late. unfold start_generic_v2_bot. rewrite NA.
  run_effects.
  destruct (Qgt_bool w (balance s uid)) eqn:G.
  { apply Qlt_bool_true in G. lra. }
  rewrite (dict_set_absent _ _ _ A).
  eexists. split; [reflexivity | ].
  assert (L : Qgt_bool (t1 - t0) (inject_Z limit) = true) by (apply Qlt_bool_true; exact Late).
  match goal with
  | |- context [check_expired_challenges t1 limit ?s1] =>
      rewrite (sweep_last_entry t1 limit s1 s1 (pending_pvp s)
                 (session_id (GenericBot game) uid t0)
                 (new_v2_bot_challenge uid game w n md t t0) eq_refl F A)
  end.
  - cbn [balance house_balance pending_pvp]. rewrite !Z.eqb_refl.
    refine (conj _ (conj _ (conj eq_refl eq_refl))).
    + reflexivity.
    + intros u N. destruct (Z.eqb_spec u uid); [contradiction | reflexivity].
  - unfold sweep_entry. rewrite bot_id_is_v2.
    unfold sweep_v2, wait_started, timeout_limit. read_new_session.
    cbn [Z.gtb Z.compare orb]. rewrite L, session_id_bot_prefix. run_effects.
    destruct (Z.geb_spec 0 n); [lia | reflexivity].
  - reflexivity.
Qed.

End Journeys.

(** User 9 has an open dice challenge of time 1900 in the store, which
    is not due at time 2000. *)
Lemma open_challenge_expiry_refunds_witness :
  exists s1,
    create_open_dice_challenge 1 5 1000
      (mkBot (fun _ => 100) 10000
         [("dice_open_9_1900"%string, new_open_dice_challenge 9 20 1900)])
    = (s1, Ok Done)
    /\ balance s1 1
       == balance (mkBot (fun _ => 100) 10000
                     [("dice_open_9_1900"%string, new_open_dice_challenge 9 20 1900)]) 1
          - 5
    /\ balance (check_expired_challenges 2000 300 s1) 1
       == balance (mkBot (fun _ => 100) 10000
                     [("dice_open_9_1900"%string, new_open_dice_challenge 9 20 1900)]) 1
    /\ (forall u, u <> 1%Z ->
          balance (check_expired_challenges 2000 300 s1) u
          = balance (mkBot (fun _ => 100) 10000
                       [("dice_open_9_1900"%string, new_open_dice_challenge 9 20 1900)]) u)
    /\ house_balance (check_expired_challenges 2000 300 s1)
       = house_balance (mkBot (fun _ => 100) 10000
                          [("dice_open_9_1900"%string, new_open_dice_challenge 9 20 1900)])
    /\ pending_pvp (check_expired_challenges 2000 300 s1)
       = pending_pvp (mkBot (fun _ => 100) 10000
                        [("dice_open_9_1900"%string, new_open_dice_challenge 9 20 1900)]).
Proof.
  apply (open_challenge_expiry_refunds
           (mkBot (fun _ => 100) 10000
              [("dice_open_9_1900"%string, new_open_dice_challenge 9 20 1900)])
           1 5 1000 2000 300).
  - reflexivity.
  - constructor; [ | constructor].
    split; intros t E; vm_compute in E; [ | discriminate].
    injection E as <-. unfold Qle; simpl; lia.
  - unfold Qle; simpl; lia.
  - unfold Qlt; simpl; lia.
Defined.

Lemma untouched_bot_series_expiry_forfeits_witness :
  exists s1,
    start_generic_v2_bot 1 "dice" 10 1 "normal" 1 1000
      (mkBot (fun _ => 100) 10000
         [("dice_open_9_1900"%string, new_open_dice_challenge 9 20 1900)])
    = (s1, Ok Done)
    /\ balance (check_expired_challenges 2000 300 s1) 1
       == balance (mkBot (fun _ => 100) 10000
                     [("dice_open_9_1900"%string, new_open_dice_challenge 9 20 1900)]) 1
          - 10
    /\ (forall u, u <> 1%Z ->
          balance (check_expired_challenges 2000 300 s1) u
          = balance (mkBot (fun _ => 100) 10000
                       [("dice_open_9_1900"%string, new_open_dice_challenge 9 20 1900)]) u)
    /\ house_balance (check_expired_challenges 2000 300 s1)
       = house_balance (mkBot (fun _ => 100) 10000
                          [("dice_open_9_1900"%string, new_open_dice_challenge 9 20 1900)])
    /\ pending_pvp (check_expired_challenges 2000 300 s1)
       = pending_pvp (mkBot (fun _ => 100) 10000
                        [("dice_open_9_1900"%string, new_open_dice_challenge 9 20 1900)]).
Proof.
  apply (untouched_bot_series_expiry_forfeits
           (mkBot (fun _ => 100) 10000
              [("dice_open_9_1900"%string, new_open_dice_challenge 9 20 1900)])
           1 "dice" 10 1 "normal" 1 1000 2000 300).
  - reflexivity.
  - reflexivity.
  - constructor; [ | constructor].
    split; intros t E; vm_compute in E; [ | discriminate].
    injection E as <-. unfold Qle; simpl; lia.
  - unfold Qle; simpl; lia.
  - lia.
  - unfold Qlt; simpl; lia.
Defined.

(** ** Accepting a challenge *)

Section Accepting.

Lemma dict_set_singleton (k : string) (v v' : challenge) :
  Dict.set k v' [(k, v)] = [(k, v')].
Proof. simpl. rewrite String.eqb_refl. reflexivity. Qed.

(** X20.  [accept_dice_challenge] is refused, and nothing changes, when
    the challenge does not exist, when
    it was created more than 300 seconds ago, when the acceptor is its
    creator, or when the acceptor's balance does not cover the wager. *)
Theorem accept_dice_challenge_refusals (s : bot) (a : Z) (cid : string) (now : Q) :
  Dict.get cid (pending_pvp s) = None
  \/ (exists ch c,
        Dict.get cid (pending_pvp s) = Some ch /\ challenger ch = Some c
        /\ ((exists t, created_at ch = Some t /\ 300 < now - t)
            \/ a = c \/ balance s a < wager ch)) ->
  accept_dice_challenge a cid now s = (s, Ok Refused).
Proof.
  intros [N | (ch & c & G & C & H)]; unfold accept_dice_challenge; run_effects.
  - rewrite N. reflexivity.
  - rewrite G, C. cbv beta iota zeta.
    destruct (created_at ch) as [t | ] eqn:Ct.
    + destruct (Qgt_bool (now - t) 300) eqn:Q; [reflexivity | ].
      apply Qlt_bool_false in Q.
      destruct H as [(t' & E & L) | [-> | L]].
      * injection E as <-. lra.
      * rewrite Z.eqb_refl. reflexivity.
      * destruct (a =? c)%Z; [reflexivity | ].
        destruct (Qgt_bool (wager ch) (balance s a)) eqn:W; [reflexivity | ].
        apply Qlt_bool_false in W. lra.
    + destruct H as [(t' & E & L) | [-> | L]].
      * discriminate.
      * rewrite Z.eqb_refl. reflexivity.
      * destruct (a =? c)%Z; [reflexivity | ].
        destruct (Qgt_bool (wager ch) (balance s a)) eqn:W; [reflexivity | ].
        apply Qlt_bool_false in W. lra.
Qed.

Lemma accept_dice_challenge_refusals_witness :
  accept_dice_challenge 1 "dice_open_1_1000" 1010 open_challenge_created
  = (open_challenge_created, Ok Refused).
Proof.
  apply (accept_dice_challenge_refusals open_challenge_created 1 "dice_open_1_1000" 1010).
  right. exists (new_open_dice_challenge 1 5 1000), 1%Z.
  split; [reflexivity | split; [reflexivity | ]]. right. left. reflexivity.
Defined.

(** X21.  An acceptor other than the creator, whose balance covers the
    wager, of a challenge created at most 300 seconds ago is debited
    exactly the wager; no other balance and not the house balance
    changes; the session names the acceptor as opponent and waits for the
    challenger's roll from the time of acceptance.  The handler does not
    look at the [opponent] the session already has: on a challenge that
    was accepted before, the earlier acceptor is replaced and keeps the
    debit. *)
Theorem accept_dice_challenge_effect (s : bot) (a c : Z) (cid : string)
    (now : Q) (ch : challenge) :
  Dict.get cid (pending_pvp s) = Some ch ->
  challenger ch = Some c ->
  a <> c ->
  (forall t, created_at ch = Some t -> now - t <= 300) ->
  wager ch <= balance s a ->
  exists s',
    accept_dice_challenge a cid now s = (s', Ok Done)
    /\ balance s' a == balance s a - wager ch
    /\ (forall u, u <> a -> balance s' u = balance s u)
    /\ house_balance s' = house_balance s
    /\ Dict.get cid (pending_pvp s') = Some (mark_accepted a now ch)
    /\ opponent (mark_accepted a now ch) = Some a
    /\ waiting_for_challenger_emoji (mark_accepted a now ch) = true
    /\ emoji_wait_started (mark_accepted a now ch) = Some now
    /\ (forall k, k <> cid -> Dict.get k (pending_pvp s') = Dict.get k (pending_pvp s)).
Proof.
  intros G C N Fresh Bal. unfold accept_dice_challenge. run_effects.
  rewrite G, C. cbv beta iota zeta.
  assert (F : match created_at ch with
              | Some created => Qgt_bool (now - created) 300
              | None => false
              end = false).
  { destruct (created_at ch) as [t | ]; [ | reflexivity].
    apply Qlt_bool_false. apply Fresh. reflexivity. }
  rewrite F.
  destruct (Z.eqb_spec a c); [contradiction | ].
  destruct (Qgt_bool (wager ch) (balance s a)) eqn:W.
  { apply Qlt_bool_true in W. lra. }
  eexists. split; [reflexivity | ].
  cbn [pending_pvp balance house_balance].
  refine (conj _ (conj _ (conj eq_refl (conj _ (conj eq_refl (conj eq_refl
            (conj eq_refl _))))))).
  - rewrite Z.eqb_refl. reflexivity.
  - intros u Nu. destruct (Z.eqb_spec u a); [contradiction | reflexivity].
  - apply dict_get_set_same.
  - intros k Nk. apply dict_get_set_other. exact Nk.
Qed.

Lemma accept_dice_challenge_effect_witness :
  exists s',
    accept_dice_challenge 2 "dice_open_1_1000" 1010 open_challenge_created = (s', Ok Done)
    /\ balance s' 2 == balance open_challenge_created 2
                       - wager (new_open_dice_challenge 1 5 1000)
    /\ (forall u, u <> 2%Z -> balance s' u = balance open_challenge_created u)
    /\ house_balance s' = house_balance open_challenge_created
    /\ Dict.get "dice_open_1_1000" (pending_pvp s')
       = Some (mark_accepted 2 1010 (new_open_dice_challenge 1 5 1000))
    /\ opponent (mark_accepted 2 1010 (new_open_dice_challenge 1 5 1000)) = Some 2%Z
    /\ waiting_for_challenger_emoji
         (mark_accepted 2 1010 (new_open_dice_challenge 1 5 1000)) = true
    /\ emoji_wait_started (mark_accepted 2 1010 (new_open_dice_challenge 1 5 1000))
       = Some 1010
    /\ (forall k, k <> "dice_open_1_1000"%string ->
                  Dict.get k (pending_pvp s')
                  = Dict.get k (pending_pvp open_challenge_created)).
Proof.
  apply (accept_dice_challenge_effect open_challenge_created 2 1 "dice_open_1_1000" 1010
           (new_open_dice_challenge 1 5 1000)).
  - reflexivity.
  - reflexivity.
  - discriminate.
  - intros t E. injection E as <-. unfold Qle; simpl; lia.
  - unfold Qle; simpl; lia.
Defined.

(** X22.  From creation to forfeiture, in a store that holds no session
    under the new id and in which no other session is due at the sweep:
    a user opens a dice challenge, another user accepts it within 300
    seconds, and the challenger lets the limit pass without rolling.
    After the sweep the acceptor holds what they held before, the
    challenger is down by the wager, the house is up by the wager, nobody
    else's balance has changed and the session is gone, the other
    sessions being as they were: the money of the three adds up to what
    it was. *)
Theorem accepted_challenge_stall_forfeits (s : bot) (c a : Z) (w t0 t1 t2 : Q)
    (limit : Z) :
  Dict.get (session_id OpenDice c t0) (pending_pvp s) = None ->
  Forall (within_limits t2 limit) (pending_pvp s) ->
  a <> c ->
  w <= balance s c ->
  w <= balance s a ->
  t1 - t0 <= 300 ->
  inject_Z limit < t2 - t1 ->
  exists s1 s2,
    create_open_dice_challenge c w t0 s = (s1, Ok Done)
    /\ accept_dice_challenge a (session_id OpenDice c t0) t1 s1 = (s2, Ok Done)
    /\ balance (check_expired_challenges t2 limit s2) a == balance s a
    /\ balance (check_expired_challenges t2 limit s2) c == balance s c - w
    /\ (forall u, u <> a -> u <> c ->
                  balance (check_expired_challenges t2 limit s2) u = balance s u)
    /\ house_balance (check_expired_challenges t2 limit s2) == house_balance s + w
    /\ pending_pvp (check_expired_challenges t2 limit s2) = pending_pvp s.
Proof.
  intros A F N Bc Ba Fresh Late.
  unfold create_open_dice_challenge. run_effects.
  destruct (Qgt_bool w (balance s c)) eqn:G.
  { apply Qlt_bool_true in G. lra. }
  rewrite (dict_set_absent _ _ _ A).
  eexists. eexists. split; [reflexivity | ].
  unfold accept_dice_challenge. run_effects.
  rewrite (dict_get_last _ _ _ A). read_new_session.
  assert (E : Qgt_bool (t1 - t0) 300 = false) by (apply Qlt_bool_false; exact Fresh).
  rewrite E. cbv beta iota zeta. cbn [pending_pvp balance house_balance].
  destruct (Z.eqb_spec a c); [contradiction | ].
  destruct (Qgt_bool w (balance s a)) eqn:W.
  { apply Qlt_bool_true in W. lra. }
  cbn [pending_pvp balance house_balance]. rewrite (dict_set_last _ _ _ _ A).
  split; [reflexivity | ].
  assert (L : Qgt_bool (t2 - t1) (inject_Z limit) = true) by (apply Qlt_bool_true; exact Late).
  match goal with
  | |- context [check_expired_challenges t2 limit ?s2] =>
      rewrite (sweep_last_entry t2 limit s2
                 (mkBot (fun u => if (u =? a)%Z then balance s2 a + w else balance s2 u)
                        (house_balance s2 + w) (pending_pvp s2))
                 (pending_pvp s)
                 (session_id OpenDice c t0)
                 (mark_accepted a t1 (new_open_dice_challenge c w t0))
                 eq_refl F A)
  end.
  - cbn [balance house_balance pending_pvp]. rewrite !Z.eqb_refl.
    destruct (Z.eqb_spec c a) as [E' | _]; [congruence | ].
    rewrite ?Z.eqb_refl.
    refine (conj _ (conj _ (conj _ (conj _ eq_refl)))).
    + ring.
    + reflexivity.
    + intros u Na Nc.
      destruct (Z.eqb_spec u a); [contradiction | ].
      destruct (Z.eqb_spec u c); [contradiction | reflexivity].
    + reflexivity.
  - unfold sweep_entry. rewrite open_dice_id_not_v2.
    unfold sweep_legacy. read_new_session. rewrite L. run_effects. reflexivity.
  - reflexivity.
Qed.

End Accepting.

Lemma accepted_challenge_stall_forfeits_witness :
  exists s1 s2,
    create_open_dice_challenge 1 5 1000
      (mkBot (fun _ => 100) 10000
         [("dice_open_9_1900"%string, new_open_dice_challenge 9 20 1900)])
    = (s1, Ok Done)
    /\ accept_dice_challenge 2 (session_id OpenDice 1 1000) 1010 s1 = (s2, Ok Done)
    /\ balance (check_expired_challenges 2000 300 s2) 2
       == balance (mkBot (fun _ => 100) 10000
                     [("dice_open_9_1900"%string, new_open_dice_challenge 9 20 1900)]) 2
    /\ balance (check_expired_challenges 2000 300 s2) 1
       == balance (mkBot (fun _ => 100) 10000
                     [("dice_open_9_1900"%string, new_open_dice_challenge 9 20 1900)]) 1
          - 5
    /\ (forall u, u <> 2%Z -> u <> 1%Z ->
          balance (check_expired_challenges 2000 300 s2) u
          = balance (mkBot (fun _ => 100) 10000
                       [("dice_open_9_1900"%string, new_open_dice_challenge 9 20 1900)]) u)
    /\ house_balance (check_expired_challenges 2000 300 s2)
       == house_balance (mkBot (fun _ => 100) 10000
                           [("dice_open_9_1900"%string, new_open_dice_challenge 9 20 1900)])
          + 5
    /\ pending_pvp (check_expired_challenges 2000 300 s2)
       = pending_pvp (mkBot (fun _ => 100) 10000
                        [("dice_open_9_1900"%string, new_open_dice_challenge 9 20 1900)]).
Proof.
  apply (accepted_challenge_stall_forfeits
           (mkBot (fun _ => 100) 10000
              [("dice_open_9_1900"%string, new_open_dice_challenge 9 20 1900)])
           1 2 5 1000 1010 2000 300).
  - reflexivity.
  - constructor; [ | constructor].
    split; intros t E; vm_compute in E; [ | discriminate].
    injection E as <-. unfold Qle; simpl; lia.
  - discriminate.
  - unfold Qle; simpl; lia.
  - unfold Qle; simpl; lia.
  - unfold Qle; simpl; lia.
  - unfold Qlt; simpl; lia.
Defined.

(** ** Joining a PvP series, settling it *)

Section MorePvp.


(** X24.  The settlement at the end of [generic_v2_pvp_loop]: the
    challenger is the winner when the challenger's points have reached
    the target, the opponent otherwise; the winner is credited with
    exactly the wager (the own stake back: [payout = wager * 1.95] is
    computed but not used), no other balance and not the house balance changes, and the
    session is removed. *)
Theorem generic_v2_pvp_settle_effect (s : bot) (cid : string) (ch : challenge)
    (c o p1 t : Z) :
  store_ok s ->
  Dict.get cid (pending_pvp s) = Some ch ->
  challenger ch = Some c ->
  opponent ch = Some o ->
  p1_pts ch = Some p1 ->
  pts ch = Some t ->
  exists s',
    generic_v2_pvp_settle cid s = (s', Ok Done)
    /\ balance s' (if (p1 >=? t)%Z then c else o)
       == balance s (if (p1 >=? t)%Z then c else o) + wager ch
    /\ (forall u, u <> (if (p1 >=? t)%Z then c else o) -> balance s' u = balance s u)
    /\ house_balance s' = house_balance s
    /\ Dict.get cid (pending_pvp s') = None
    /\ (forall k, k <> cid -> Dict.get k (pending_pvp s') = Dict.get k (pending_pvp s)).
Proof.
  intros OK G C O P T. unfold generic_v2_pvp_settle. run_effects.
  rewrite G, C, P, T, O. run_effects.
  destruct (dict_del_present cid (pending_pvp s) OK) as (d' & D & Gd & Od & _).
  { rewrite G. discriminate. }
  destruct (p1 >=? t)%Z; run_effects; rewrite D;
    (eexists; split; [reflexivity | ]);
    cbn [pending_pvp balance house_balance];
    (refine (conj _ (conj _ (conj eq_refl (conj Gd Od))));
     [ rewrite Z.eqb_refl; reflexivity
     | intros u N; match goal with
                   | |- context [(u =? ?x)%Z] =>
                       destruct (Z.eqb_spec u x); [contradiction | reflexivity]
                   end ]).
Qed.

End MorePvp.


Lemma generic_v2_pvp_settle_effect_witness :
  exists s',
    generic_v2_pvp_settle "v2_pvp_dice_1_1000" pvp_series_won = (s', Ok Done)
    /\ balance s' (if (1 >=? 1)%Z then 1%Z else 2%Z)
       == balance pvp_series_won (if (1 >=? 1)%Z then 1%Z else 2%Z) + 10
    /\ (forall u, u <> (if (1 >=? 1)%Z then 1%Z else 2%Z) ->
                  balance s' u = balance pvp_series_won u)
    /\ house_balance s' = house_balance pvp_series_won
    /\ Dict.get "v2_pvp_dice_1_1000" (pending_pvp s') = None
    /\ (forall k, k <> "v2_pvp_dice_1_1000"%string ->
                  Dict.get k (pending_pvp s') = Dict.get k (pending_pvp pvp_series_won)).
Proof.
  apply (generic_v2_pvp_settle_effect pvp_series_won "v2_pvp_dice_1_1000"
           (mkChallenge None (Some 1%Z) (Some 2%Z) 10 EmojiDice (Some "normal"%string)
              (Some 1%Z) (Some 1%Z) None None [] None (Some 1%Z) (Some 0%Z)
              (Some 1010) None None false false false false true true false false
            (Some "dice"%string))
           1 2 1 1).
  - unfold store_ok. vm_compute. constructor; [intros [] | constructor].
  - reflexivity.
  - reflexivity.
  - reflexivity.
  - reflexivity.
  - reflexivity.
Defined.

(** ** Reading an id back *)

Section ReadingIds.

Lemma session_id_split (site : creation_site) (user_id : Z) (now : Q) :
  py_split "_" (session_id site user_id now)
  = kind_tokens site ++ [py_str user_id; py_str (py_int now)].
Proof.
  destruct site as [ | | | g | g | g]; unfold session_id, kind_tokens.
  - rewrite py_split_id_tail. reflexivity.
  - rewrite py_split_id_tail. reflexivity.
  - rewrite py_split_id_tail. reflexivity.
  - rewrite <- string_app_assoc, py_split_id_tail.
    change (g ++ "_open")%string with (g ++ String "_" "open")%string.
    rewrite py_split_app. reflexivity.
  - change ("v2_bot_" ++ g ++ id_tail user_id now)%string
      with ("v2_bot" ++ String "_" (g ++ id_tail user_id now))%string.
    rewrite py_split_app, py_split_id_tail. reflexivity.
  - change ("v2_pvp_" ++ g ++ id_tail user_id now)%string
      with ("v2_pvp" ++ String "_" (g ++ id_tail user_id now))%string.
    rewrite py_split_app, py_split_id_tail. reflexivity.
Qed.

Lemma last_two_app {A : Type} (l : list A) (a b : A) :
  last_two (l ++ [a; b]) = Some (a, b).
Proof.
  induction l as [ | x l IH]; [reflexivity | ].
  cbn [app last_two]. destruct (l ++ [a; b]) as [ | y [ | z r]] eqn:E.
  - destruct l; discriminate.
  - destruct l as [ | ? [ | ? ?]]; discriminate.
  - exact IH.
Qed.

(** [int(str(n)) == n] *)
Lemma py_str_parses (n : Z) : py_int_of_str (py_str n) = Some n.
Proof.
  unfold py_int_of_str, py_str. rewrite NilZero.isi.
  - simpl. rewrite DecimalZ.of_to. reflexivity.
  - destruct n as [ | p | p]; simpl; try discriminate.
    intros E. injection E as E. exact (DecimalPos.Unsigned.to_uint_nonnil p E).
  - destruct n as [ | p | p]; simpl; try discriminate.
    intros E. injection E as E. exact (DecimalPos.Unsigned.to_uint_nonnil p E).
Qed.

(** X25.  The creator id and the creation second can be read back from
    every id the system creates: they are the last two underscore
    tokens, and [int] of each gives the number that was formatted.  So
    two ids of one creation site are equal only for the same creator and
    the same second. *)
Theorem session_id_reads_back (site : creation_site) (user_id : Z) (now : Q) :
  (exists a b,
      last_two (py_split "_" (session_id site user_id now)) = Some (a, b)
      /\ py_int_of_str a = Some user_id
      /\ py_int_of_str b = Some (py_int now))
  /\ (forall user_id' now',
        session_id site user_id now = session_id site user_id' now' ->
        user_id = user_id' /\ py_int now = py_int now').
Proof.
  split.
  - exists (py_str user_id), (py_str (py_int now)).
    rewrite session_id_split, last_two_app, !py_str_parses. auto.
  - intros user_id' now' E.
    assert (L : last_two (py_split "_" (session_id site user_id now))
                = last_two (py_split "_" (session_id site user_id' now')))
      by (rewrite E; reflexivity).
    rewrite !session_id_split, !last_two_app in L. injection L as Ea Eb.
    split.
    + assert (P : py_int_of_str (py_str user_id) = py_int_of_str (py_str user_id'))
        by (rewrite Ea; reflexivity).
      rewrite !py_str_parses in P. congruence.
    + assert (P : py_int_of_str (py_str (py_int now)) = py_int_of_str (py_str (py_int now')))
        by (rewrite Eb; reflexivity).
      rewrite !py_str_parses in P. congruence.
Qed.

(** X26.  Ids have a resolution of one second and
    [create_open_dice_challenge] does not look for an existing session:
    two open challenges of one user created within the same second get
    the same id.  The user is debited both wagers, but the store holds
    one session only, the second, under that id. *)
Theorem same_second_open_challenges_collide (s : bot) (uid : Z) (w1 w2 t1 t2 : Q) :
  pending_pvp s = [] ->
  py_int t1 = py_int t2 ->
  w1 <= balance s uid ->
  w2 <= balance s uid - w1 ->
  exists s1 s2,
    create_open_dice_challenge uid w1 t1 s = (s1, Ok Done)
    /\ create_open_dice_challenge uid w2 t2 s1 = (s2, Ok Done)
    /\ session_id OpenDice uid t1 = session_id OpenDice uid t2
    /\ balance s2 uid == balance s uid - w1 - w2
    /\ pending_pvp s2 = [(session_id OpenDice uid t2, new_open_dice_challenge uid w2 t2)].
Proof.
  intros P T B1 B2.
  assert (I : session_id OpenDice uid t1 = session_id OpenDice uid t2).
  { unfold session_id, id_tail. rewrite T. reflexivity. }
  unfold create_open_dice_challenge. run_effects.
  destruct (Qgt_bool w1 (balance s uid)) eqn:G1.
  { apply Qlt_bool_true in G1. lra. }
  rewrite P. cbn [Dict.set].
  eexists. eexists. split; [reflexivity | ].
  cbn [pending_pvp balance house_balance]. rewrite Z.eqb_refl.
  destruct (Qgt_bool w2 (balance s uid - w1)) eqn:G2.
  { apply Qlt_bool_true in G2. lra. }
  cbn [pending_pvp balance house_balance]. rewrite I, dict_set_singleton.
  split; [reflexivity | ].
  cbn [pending_pvp balance house_balance]. rewrite Z.eqb_refl.
  refine (conj eq_refl (conj _ eq_refl)). reflexivity.
Qed.

End ReadingIds.

Lemma same_second_open_challenges_collide_witness :
  exists s1 s2,
    create_open_dice_challenge 1 5 1000 fresh_bot = (s1, Ok Done)
    /\ create_open_dice_challenge 1 7 (2001 # 2) s1 = (s2, Ok Done)
    /\ session_id OpenDice 1 1000 = session_id OpenDice 1 (2001 # 2)
    /\ balance s2 1 == balance fresh_bot 1 - 5 - 7
    /\ pending_pvp s2
       = [(session_id OpenDice 1 (2001 # 2), new_open_dice_challenge 1 7 (2001 # 2))].
Proof.
  apply (same_second_open_challenges_collide fresh_bot 1 5 7 1000 (2001 # 2)).
  - reflexivity.
  - reflexivity.
  - unfold Qle; simpl; lia.
  - unfold Qle; simpl; lia.
Defined.
